(** * ADAM-4571 scale link manager, template validator and discovery engine

    Shallow embedding of
      - [src/python/adam_scale_discovery.py]  (classes [Adam4571Manager],
        [TemplateValidator], [ProtocolDiscoveryEngine]) and
      - [src/docker-scale/adam_scale_logger.py] (class [Adam4571Manager]),
    followed by the properties of the framing step, the frame buffer, the
    per-frame decoder, the confidence score and the template synthesis.

    Conventions.
      - A Python [str] is a list of Unicode code points ([pystr]); a [bytes]
        object is a list of [Byte.byte].
      - Python floats are abstracted by the interface [PyFloat], instantiated
        with exact rationals ([Q]) and with IEEE binary64 ([PrimFloat]).
      - Python list objects that are shared between a manager and its callers
        live in an explicit [heap]; a manager holds a reference into it. *)

From Stdlib Require Import ZArith NArith QArith Qround Lqa Floats Uint63.
From Stdlib Require Import List Strings.String Strings.Ascii Strings.Byte Lia.
From Stdlib Require Import DecimalString Sorted.
From stdpp Require Import base option list gmap strings.

Local Open Scope N_scope.
Local Open Scope bool_scope.

(* ===================================================================== *)
(** ** Python strings *)
(* ===================================================================== *)

Abbreviation pystr := (list N).

Fixpoint pystr_of_string (s : string) : pystr :=
  match s with
  | EmptyString => []
  | String a s' => N_of_ascii a :: pystr_of_string s'
  end.

Definition bytes_of_string (s : string) : list byte := list_byte_of_string s.

Definition CR : N := 13.
Definition LF : N := 10.
Definition REPLACEMENT_CHARACTER : N := 65533.

(** The character class [[\r\n]] of the pattern used by both capture loops. *)
Definition is_crlf (c : N) : bool := (c =? CR) || (c =? LF).

(** [str.isspace] on one code point: the characters removed by [str.strip()]. *)
Definition is_space (c : N) : bool :=
  ((9 <=? c) && (c <=? 13)) || ((28 <=? c) && (c <=? 32))
  || (c =? 133) || (c =? 160) || (c =? 5760)
  || ((8192 <=? c) && (c <=? 8202))
  || (c =? 8232) || (c =? 8233) || (c =? 8239) || (c =? 8287) || (c =? 12288).

Fixpoint lstrip (s : pystr) : pystr :=
  match s with
  | [] => []
  | c :: s' => if is_space c then lstrip s' else s
  end.

Definition rstrip (s : pystr) : pystr := rev (lstrip (rev s)).

(** [s.strip()] *)
Definition strip (s : pystr) : pystr := rstrip (lstrip s).

(** Truthiness of a Python sequence: non-empty. *)
Definition truthy {A} (l : list A) : bool :=
  match l with [] => false | _ :: _ => true end.

Fixpoint pystr_eqb (s t : pystr) : bool :=
  match s, t with
  | [], [] => true
  | c :: s', d :: t' => (c =? d) && pystr_eqb s' t'
  | _, _ => false
  end.

(** [s.startswith(p)] *)
Fixpoint startswith (s p : pystr) : bool :=
  match p, s with
  | [], _ => true
  | d :: p', c :: s' => (c =? d) && startswith s' p'
  | _ :: _, [] => false
  end.

(** [s.endswith(p)] *)
Definition endswith (s p : pystr) : bool :=
  (length p <=? length s)%nat
  && pystr_eqb (skipn (length s - length p) s) p.

(** [p in s] for strings: substring test. *)
Fixpoint contains (s p : pystr) : bool :=
  startswith s p ||
  match s with
  | [] => false
  | _ :: s' => contains s' p
  end.

(** [s.replace(old, new)] for a non-empty [old]: leftmost non-overlapping
    occurrences.  [skip] counts the characters of a matched occurrence that
    are still to be passed over, so that the recursion is structural on [s]. *)
Fixpoint replace_from (skip : nat) (s old new : pystr) : pystr :=
  match s with
  | [] => []
  | c :: s' =>
      match skip with
      | S k => replace_from k s' old new
      | O =>
          if startswith s old
          then new ++ replace_from (length old - 1) s' old new
          else c :: replace_from O s' old new
      end
  end.

Definition replace (s old new : pystr) : pystr := replace_from O s old new.

(** Index normalisation of Python slicing for a sequence of length [n]. *)
Definition slice_index (n i : Z) : Z :=
  if (i <? 0)%Z then Z.max (i + n) 0 else Z.min i n.

(** [s[a:b]] with Python's treatment of negative and out-of-range bounds. *)
Definition py_slice {A} (s : list A) (a b : Z) : list A :=
  let n := Z.of_nat (length s) in
  let a' := slice_index n a in
  let b' := slice_index n b in
  firstn (Z.to_nat (b' - a')) (skipn (Z.to_nat a') s).

(** [s[a:]] *)
Definition py_slice_from {A} (s : list A) (a : Z) : list A :=
  skipn (Z.to_nat (slice_index (Z.of_nat (length s)) a)) s.

(** [re.split(r'[\r\n]+', s)]: the pieces of [s] between maximal runs of
    CR/LF characters.  [cur] is the piece being read, [in_run] tells that the
    previous character belonged to a delimiter run (then [cur] is empty). *)
Fixpoint re_split_from (cur : pystr) (in_run : bool) (s : pystr) : list pystr :=
  match s with
  | [] => [cur]
  | c :: s' =>
      if is_crlf c then
        if in_run then re_split_from [] true s'
        else cur :: re_split_from [] true s'
      else re_split_from (cur ++ [c]) false s'
  end.

Definition re_split_crlf (s : pystr) : list pystr := re_split_from [] false s.

(** [lines[-1]] of a list that [re.split] returned (never empty). *)
Definition last_line (lines : list pystr) : pystr := List.last lines [].

(** ASCII decimal digits. *)
Definition is_digit (c : N) : bool := (48 <=? c) && (c <=? 57).

(** [str(n)] for an integer. *)
Definition str_of_Z (z : Z) : pystr :=
  pystr_of_string (NilZero.string_of_int (Z.to_int z)).

(** *** The literals accepted by [float(s)]

    [float] ignores surrounding whitespace and then requires
    [[sign] (floatnumber | "inf" | "infinity" | "nan")], letters in any case,
    where single underscores may separate digits.  Decimal digits outside
    ASCII are not tabulated: the link manager decodes with
    ['ascii', errors='replace'], so that a buffered frame holds ASCII
    characters and U+FFFD only. *)

(** The whitespace [float] skips: the C locale's among ASCII characters, any
    Unicode whitespace beyond. *)
Definition is_float_space (c : N) : bool :=
  if c <? 127 then ((9 <=? c) && (c <=? 13)) || (c =? 32) else is_space c.

Fixpoint float_lstrip (s : pystr) : pystr :=
  match s with
  | [] => []
  | c :: s' => if is_float_space c then float_lstrip s' else s
  end.

Definition float_strip (s : pystr) : pystr :=
  rev (float_lstrip (rev (float_lstrip s))).

Definition lower (c : N) : N :=
  if (65 <=? c) && (c <=? 90) then c + 32 else c.

(** [(["_"] digit)*]: returns what follows. *)
Fixpoint digitpart_rest (s : pystr) : pystr :=
  match s with
  | [] => []
  | c :: s' =>
      if is_digit c then digitpart_rest s'
      else if c =? 95 then
        match s' with
        | d :: s'' => if is_digit d then digitpart_rest s'' else s
        | [] => s
        end
      else s
  end.

(** [digit (["_"] digit)*] *)
Definition digitpart (s : pystr) : option pystr :=
  match s with
  | c :: s' => if is_digit c then Some (digitpart_rest s') else None
  | [] => None
  end.

Definition skip_sign (s : pystr) : pystr :=
  match s with
  | c :: s' => if (c =? 43) || (c =? 45) then s' else s
  | [] => []
  end.

(** [[digitpart] "." digitpart | digitpart ["."]] *)
Definition float_number (s : pystr) : option pystr :=
  match digitpart s with
  | Some r =>
      match r with
      | 46 :: r' =>
          match digitpart r' with
          | Some r'' => Some r''
          | None => Some r'
          end
      | _ => Some r
      end
  | None =>
      match s with
      | 46 :: r' => digitpart r'
      | _ => None
      end
  end.

(** [("e" | "E") [sign] digitpart], optional. *)
Definition float_exponent (s : pystr) : option pystr :=
  match s with
  | c :: s' =>
      if lower c =? 101 then digitpart (skip_sign s') else Some s
  | [] => Some []
  end.

Definition is_float_literal (s : pystr) : bool :=
  let s := skip_sign (float_strip s) in
  let l := map lower s in
  if pystr_eqb l (pystr_of_string "inf")
     || pystr_eqb l (pystr_of_string "infinity")
     || pystr_eqb l (pystr_of_string "nan")
  then true
  else
    match float_number s with
    | Some r =>
        match float_exponent r with
        | Some [] => true
        | _ => false
        end
    | None => false
    end.

(* ===================================================================== *)
(** ** Python floats *)
(* ===================================================================== *)

(** The arithmetic the scoring code performs on [float] values.  [of_int] is
    the implicit int-to-float conversion; [f0_6] and [f0_2] are the literals
    [0.6] and [0.2]. *)
Class PyFloat (F : Type) := {
  of_int : Z -> F;
  fadd : F -> F -> F;
  fsub : F -> F -> F;
  fmul : F -> F -> F;
  fdiv : F -> F -> F;
  fltb : F -> F -> bool;
  f0_6 : F;
  f0_2 : F
}.

(** Exact rational arithmetic. *)
#[export] Instance PyFloat_Q : PyFloat Q := {
  of_int := inject_Z;
  fadd := Qplus;
  fsub := Qminus;
  fmul := Qmult;
  fdiv := Qdiv;
  fltb := fun a b => negb (Qle_bool b a);
  f0_6 := 6 # 10;
  f0_2 := 2 # 10
}.

Definition float_of_Z (z : Z) : float :=
  if (z <? 0)%Z then PrimFloat.opp (PrimFloat.of_uint63 (Uint63.of_Z (- z)))
  else PrimFloat.of_uint63 (Uint63.of_Z z).

(** IEEE binary64, as CPython computes (integers below 2^63). *)
#[export] Instance PyFloat_binary64 : PyFloat float := {
  of_int := float_of_Z;
  fadd := PrimFloat.add;
  fsub := PrimFloat.sub;
  fmul := PrimFloat.mul;
  fdiv := PrimFloat.div;
  fltb := PrimFloat.ltb;
  f0_6 := 0x1.3333333333333p-1%float;
  f0_2 := 0x1.999999999999ap-3%float
}.

(* ===================================================================== *)
(** ** Shared model of the link manager's objects *)
(* ===================================================================== *)

Abbreviation loc := positive.

Module Link.
Section Link.
Context {F : Type}.

(** One buffered frame: the dict [{'data': ..., 'timestamp': ...}].  The
    timestamp is recorded by its [.timestamp()] value.  Entries are never
    mutated after their creation, so they are plain values. *)
Record entry := Entry { data : pystr; timestamp : F }.

(** Python list objects holding entries, by reference. *)
Local Abbreviation heap := (gmap loc (list entry)).

Definition deref (h : heap) (l : loc) : list entry := default [] (h !! l).

(** [obj.append(e)], in place. *)
Definition list_append (l : loc) (e : entry) (h : heap) : heap :=
  alter (fun buf => buf ++ [e]) l h.

(** [obj.clear()], in place. *)
Definition list_clear (l : loc) (h : heap) : heap :=
  alter (fun _ => []) l h.

(** A new list object. *)
Definition alloc (v : list entry) (h : heap) : loc * heap :=
  let l := fresh (dom h) in (l, <[l := v]> h).

(** [data.decode('ascii', errors='replace')]: never raises; every byte that
    is not ASCII becomes U+FFFD. *)
Definition decode_ascii_replace (recv_data : list byte) : pystr :=
  map (fun b => let n := Byte.to_N b in
                if n <? 128 then n else REPLACEMENT_CHARACTER) recv_data.

End Link.
Arguments entry : clear implicits.
Abbreviation heap F := (gmap loc (list (entry F))).
End Link.

(* ===================================================================== *)
(** ** [src/python/adam_scale_discovery.py]: class [Adam4571Manager] *)
(* ===================================================================== *)

Module ScaleDiscovery.
Import Link.
Section Manager.
Context {F : Type} `{PyFloat F}.

(** The instance attributes the modelled methods read or write.
    [_data_buffer] is a reference to a list object in the store. *)
Record Adam4571Manager := {
  connected : bool;
  _running : bool;
  _data_buffer : loc
}.

(** The manager together with the store of list objects and the counters
    that index the environment's answers ([datetime.now] and
    [socket.connect] calls made so far, capture threads started). *)
Record world := {
  self : Adam4571Manager;
  store : heap F;
  now_calls : nat;
  connect_calls : nat;
  capture_threads : nat
}.

(** What one [socket.recv] call of the capture loop yields. *)
Inductive recv_outcome :=
| RecvData (recv_data : list byte)
| RecvTimeout
| RecvError.

(** Environment: the UTC clock read by the n-th [datetime.now] call and the
    outcome of the n-th connection attempt. *)
Variable utc_now : nat -> F.
Variable socket_connect : nat -> bool.

Definition set_connected (b : bool) (w : world) : world :=
  {| self := {| connected := b; _running := _running (self w);
                _data_buffer := _data_buffer (self w) |};
     store := store w; now_calls := now_calls w;
     connect_calls := connect_calls w; capture_threads := capture_threads w |}.

Definition set_running (b : bool) (w : world) : world :=
  {| self := {| connected := connected (self w); _running := b;
                _data_buffer := _data_buffer (self w) |};
     store := store w; now_calls := now_calls w;
     connect_calls := connect_calls w; capture_threads := capture_threads w |}.

Definition set_store (h : heap F) (w : world) : world :=
  {| self := self w; store := h; now_calls := now_calls w;
     connect_calls := connect_calls w; capture_threads := capture_threads w |}.

(** [datetime.now(timezone.utc)] *)
Definition datetime_now (w : world) : F * world :=
  (utc_now (now_calls w),
   {| self := self w; store := store w; now_calls := S (now_calls w);
      connect_calls := connect_calls w; capture_threads := capture_threads w |}).

(** The list object currently bound to [self._data_buffer]. *)
Definition buffer (w : world) : list (entry F) :=
  deref (store w) (_data_buffer (self w)).

(** [connect]: both [except] branches set [connected = False] and return
    [False]. *)
Definition connect (w : world) : bool * world :=
  let ok := socket_connect (connect_calls w) in
  (ok,
   set_connected ok
     {| self := self w; store := store w; now_calls := now_calls w;
        connect_calls := S (connect_calls w);
        capture_threads := capture_threads w |}).

(** [start_data_capture] *)
Definition start_data_capture (w : world) : bool * world :=
  let '(ok, w) := if connected (self w) then (true, w) else connect w in
  if negb ok then (false, w)
  else
    let w := set_running true w in
    (true,
     {| self := self w; store := store w; now_calls := now_calls w;
        connect_calls := connect_calls w;
        capture_threads := S (capture_threads w) |}).

(** Body of [for line in lines[:-1]] in [_capture_loop]. *)
Definition capture_line (w : world) (line : pystr) : world :=
  if truthy (strip line) then
    let '(now, w) := datetime_now w in
    set_store
      (list_append (_data_buffer (self w))
         {| data := strip line; timestamp := now |} (store w)) w
  else w.

(** The [try] block of [_capture_loop] for one non-empty read: returns the
    new value of the local [partial_data]. *)
Definition capture_received (partial_data : pystr) (recv_data : list byte)
    (w : world) : pystr * world :=
  let decoded_data := decode_ascii_replace recv_data in
  let partial_data := partial_data ++ decoded_data in
  let lines := re_split_crlf partial_data in
  let partial_data' :=
    if negb (endswith partial_data [CR] || endswith partial_data [LF])
    then last_line lines else [] in
  (partial_data', fold_left capture_line (removelast lines) w).

(** [_capture_loop] run against the outcomes of its successive [recv]
    calls; an exhausted list is the point up to which the loop is observed. *)
Fixpoint capture_loop_from (partial_data : pystr) (recvs : list recv_outcome)
    (w : world) : world :=
  if negb (_running (self w) && connected (self w)) then w
  else
    match recvs with
    | [] => w
    | RecvTimeout :: rest => capture_loop_from partial_data rest w
    | RecvError :: _ => set_connected false w
    | RecvData recv_data :: rest =>
        if negb (truthy recv_data) then set_connected false w
        else
          let '(partial_data, w) := capture_received partial_data recv_data w in
          capture_loop_from partial_data rest w
    end.

Definition _capture_loop (recvs : list recv_outcome) (w : world) : world :=
  capture_loop_from [] recvs w.

(** [get_recent_data]: the comprehension builds a new list object and
    [.copy()] another one, which is returned. *)
Definition get_recent_data (max_age_seconds : F) (w : world) : loc * world :=
  let '(now, w) := datetime_now w in
  let cutoff_time := fsub now max_age_seconds in
  let '(recent_data, h) :=
    alloc (List.filter (fun e => fltb cutoff_time (timestamp e)) (buffer w))
          (store w) in
  let '(result, h) := alloc (deref h recent_data) h in
  (result, set_store h w).

(** [clear_buffer] *)
Definition clear_buffer (w : world) : world :=
  set_store (list_clear (_data_buffer (self w)) (store w)) w.

End Manager.
Arguments Adam4571Manager : clear implicits.
Arguments world : clear implicits.

(* --------------------------------------------------------------------- *)
(** *** class [TemplateValidator] *)
(* --------------------------------------------------------------------- *)

Section Validator.
Context {F : Type} `{PyFloat F}.

(** One element of a template document's ['fields'] list, with the four
    keys [_parse_with_template] subscripts and the optional ['values']. *)
Record FieldSpec := {
  name : pystr;
  start : Z;
  length : Z;
  field_type : pystr;
  values : option (gmap pystr pystr)
}.

(** A template document: the keys read through [.get]. *)
Record TemplateData := {
  template_id : option pystr;
  template_name : option pystr;
  delimiter : option pystr;
  fields : option (list FieldSpec)
}.

(** A value stored in [parsed_data]: the float read from a numeric field
    (kept as the literal [float] accepted) or a string. *)
Inductive parsed_value :=
| PFloat (literal : pystr)
| PStr (s : pystr).

(** The dict returned by [_parse_with_template]. *)
Inductive ParseResult :=
| ParseSuccess (parsed_data : gmap pystr parsed_value)
| ParseFailure (error : pystr).

Definition parse_success (r : ParseResult) : bool :=
  match r with ParseSuccess _ => true | ParseFailure _ => false end.

(** The error messages. *)
Definition data_too_short (field_name : pystr) : pystr :=
  pystr_of_string "Data too short for field " ++ field_name.

Definition non_numeric (field_name field_data : pystr) : pystr :=
  pystr_of_string "Non-numeric data in field " ++ field_name
  ++ pystr_of_string ": '" ++ field_data ++ pystr_of_string "'".

Definition no_data_received : pystr := pystr_of_string "No data received".
Definition connection_failed : pystr := pystr_of_string "Connection failed".
Definition data_capture_failed : pystr := pystr_of_string "Data capture failed".

(** The [for field in template_fields] loop of [_parse_with_template]. *)
Fixpoint parse_fields (raw_data : pystr) (template_fields : list FieldSpec)
    (parsed_data : gmap pystr parsed_value) : ParseResult :=
  match template_fields with
  | [] => ParseSuccess parsed_data
  | field :: rest =>
      let field_name := name field in
      let start_pos := start field in
      let length := length field in
      if (start_pos + length <=? Z.of_nat (List.length raw_data))%Z then
        let field_data := py_slice raw_data start_pos (start_pos + length) in
        if pystr_eqb (field_type field) (pystr_of_string "numeric") then
          if is_float_literal (strip field_data)
          then parse_fields raw_data rest
                 (<[field_name := PFloat (strip field_data)]> parsed_data)
          else ParseFailure (non_numeric field_name field_data)
        else if pystr_eqb (field_type field) (pystr_of_string "lookup") then
          let field_values := default ∅ (values field) in
          match field_values !! field_data with
          | Some v =>
              parse_fields raw_data rest (<[field_name := PStr v]> parsed_data)
          | None =>
              parse_fields raw_data rest
                (<[field_name :=
                     PStr (pystr_of_string "unknown_" ++ field_data)]>
                   parsed_data)
          end
        else
          parse_fields raw_data rest (<[field_name := PStr field_data]> parsed_data)
      else ParseFailure (data_too_short field_name)
  end.

Definition _parse_with_template (raw_data : pystr)
    (template_fields : list FieldSpec) : ParseResult :=
  parse_fields raw_data template_fields ∅.

(** The four characters backslash, r, backslash, n: the default delimiter
    of a template document, and the one synthesis writes. *)
Definition escaped_crlf : pystr := [92; 114; 92; 110].

(** [template_data.get('delimiter', '\\r\\n').replace('\\r', '\r')
    .replace('\\n', '\n')] *)
Definition template_delimiter (template_data : TemplateData) : pystr :=
  replace (replace (default escaped_crlf (delimiter template_data))
                   [92; 114] [CR])
          [92; 110] [LF].

(** [_check_data_consistency].  [sum] starts from the integer 0 and adds from
    left to right; [x ** 2] is the product [x * x]. *)
Definition _check_data_consistency (test_data : list (entry F))
    (template_fields : list FieldSpec) : F :=
  if (List.length test_data <? 2)%nat then of_int 50
  else
    let lengths := map (fun e => Z.of_nat (List.length (data e))) test_data in
    let n := Z.of_nat (List.length lengths) in
    let avg_length := fdiv (of_int (fold_left Z.add lengths 0%Z)) (of_int n) in
    let length_variance :=
      fdiv (fold_left
              (fun acc l => fadd acc (let d := fsub (of_int l) avg_length in
                                      fmul d d))
              lengths (of_int 0))
           (of_int n) in
    if fltb length_variance (of_int 2) then of_int 90
    else if fltb length_variance (of_int 10) then of_int 70
    else of_int 30.

(** [_check_format_characteristics] *)
Definition _check_format_characteristics (test_data : list (entry F))
    (template_data : TemplateData) : F :=
  let delimiter := template_delimiter template_data in
  let delimiter_matches :=
    List.length
      (List.filter
         (fun e => contains (data e) (strip delimiter)
                   || (0 <? List.length (strip (data e)))%nat)
         test_data) in
  if (List.length test_data =? 0)%nat then of_int 0
  else
    fmul (fdiv (of_int (Z.of_nat delimiter_matches))
               (of_int (Z.of_nat (List.length test_data))))
         (of_int 100).

(** The dict returned by [test_template]: either the three-key failure dict
    or the analysis of [_analyze_template_match]. *)
Record MatchResult := {
  success : bool;
  confidence : F;
  successful_parses : nat;
  total_attempts : nat;
  parsing_errors : list pystr;
  result_template_id : option pystr;
  result_template_name : option pystr
}.

Inductive TestResult :=
| TestFailed (confidence : Z) (error : pystr)
| TestAnalysed (r : MatchResult).

(** The weighted confidence score. *)
Definition weighted_confidence (parse_success_rate data_consistency
    format_match : F) : F :=
  fadd (fadd (fmul parse_success_rate f0_6) (fmul data_consistency f0_2))
       (fmul format_match f0_2).

(** Loop state of [_analyze_template_match]:
    [(successful_parses, total_attempts, parsing_errors)]. *)
Definition match_entry (template_fields : list FieldSpec)
    (acc : nat * nat * list pystr) (data_entry : entry F)
    : nat * nat * list pystr :=
  let '(successful_parses, total_attempts, parsing_errors) := acc in
  let raw_data := data data_entry in
  let total_attempts := S total_attempts in
  match _parse_with_template raw_data template_fields with
  | ParseSuccess _ => (S successful_parses, total_attempts, parsing_errors)
  | ParseFailure error =>
      (successful_parses, total_attempts, parsing_errors ++ [error])
  end.

Definition parse_success_rate (successful_parses total_attempts : nat) : F :=
  fmul (fdiv (of_int (Z.of_nat successful_parses))
             (of_int (Z.of_nat total_attempts)))
       (of_int 100).

(** [_analyze_template_match] *)
Definition _analyze_template_match (template_data : TemplateData)
    (test_data : list (entry F)) : MatchResult :=
  let template_fields := default [] (fields template_data) in
  let '(successful_parses, total_attempts, parsing_errors) :=
    fold_left (match_entry template_fields) test_data (O, O, []) in
  let confidence :=
    if (total_attempts =? 0)%nat then of_int 0
    else
      let parse_success_rate :=
        parse_success_rate successful_parses total_attempts in
      let data_consistency :=
        _check_data_consistency test_data template_fields in
      let format_match :=
        _check_format_characteristics test_data template_data in
      weighted_confidence parse_success_rate data_consistency format_match in
  {| success := true;
     confidence := confidence;
     successful_parses := successful_parses;
     total_attempts := total_attempts;
     parsing_errors := firstn 5 parsing_errors;
     result_template_id := template_id template_data;
     result_template_name := template_name template_data |}.

(** Environment of [test_template]: as for the manager, and the effect of
    the background capture thread while the caller is in
    [time.sleep(seconds)]. *)
Variable utc_now : nat -> F.
Variable socket_connect : nat -> bool.
Variable sleep : F -> world F -> world F.

(** [test_template], when no capture thread acts between its check of
    [connected] and [start_data_capture]; [Concurrent.test_template] below
    has a capture thread act there. *)
Definition test_template (template_data : TemplateData) (test_duration : F)
    (w : world F) : TestResult * world F :=
  let '(ok, w) :=
    if connected (self w) then (true, w) else connect socket_connect w in
  if negb ok then (TestFailed 0 connection_failed, w)
  else
    let '(ok, w) := start_data_capture socket_connect w in
    if negb ok then (TestFailed 0 data_capture_failed, w)
    else
      let w := clear_buffer w in
      let w := sleep test_duration w in
      let '(test_data, w) :=
        get_recent_data utc_now (fadd test_duration (of_int 1)) w in
      let test_data := deref (store w) test_data in
      if negb (truthy test_data) then (TestFailed 0 no_data_received, w)
      else (TestAnalysed (_analyze_template_match template_data test_data), w).

End Validator.

(* --------------------------------------------------------------------- *)
(** *** class [ProtocolDiscoveryEngine] *)
(* --------------------------------------------------------------------- *)

Section Engine.
Context {F : Type} `{PyFloat F}.

(** dataclass [DiscoveryStep] *)
Record DiscoveryStep := {
  step_number : Z;
  action : pystr;
  expected_weight : option F;
  captured_data : list pystr;
  step_timestamp : F
}.

(** dataclass [ProtocolField] *)
Record ProtocolField := {
  pf_name : pystr;
  pf_start : Z;
  pf_length : Z;
  pf_field_type : pystr;
  pf_decimal_places : option Z;
  pf_values : option (gmap pystr pystr)
}.

(** dataclass [ProtocolTemplate] *)
Record ProtocolTemplate := {
  pt_template_id : pystr;
  pt_name : pystr;
  pt_description : pystr;
  pt_delimiter : pystr;
  pt_encoding : pystr;
  pt_fields : list ProtocolField;
  pt_confidence_score : F;
  pt_discovery_date : F
}.

(** The two attributes of the engine that discovery updates. *)
Record ProtocolDiscoveryEngine := {
  discovery_steps : list DiscoveryStep;
  confidence_scores : gmap string F
}.

(** Outcome of a method that may raise. *)
Inductive outcome (A : Type) :=
| Returned (a : A)
| Raised (exception : pystr).
Arguments Returned {A} a.
Arguments Raised {A} exception.

(** [num / den * 100] on two counts. *)
Definition percentage (num den : nat) : F :=
  fmul (fdiv (of_int (Z.of_nat num)) (of_int (Z.of_nat den))) (of_int 100).

(** [re.search(r'\d+\.?\d*', d)] finds a match exactly when [d] holds a
    decimal digit. *)
Definition has_numeric_pattern (d : pystr) : bool := existsb is_digit d.

(** [_calculate_confidence] *)
Definition _calculate_confidence (e : ProtocolDiscoveryEngine)
    : ProtocolDiscoveryEngine :=
  if (List.length (discovery_steps e) <? 2)%nat then e
  else
    let all_data := concat (map captured_data (discovery_steps e)) in
    if truthy all_data then
      let has_crlf :=
        List.length
          (List.filter (fun d => contains d [CR] || contains d [LF]) all_data) in
      let format_consistency := percentage has_crlf (List.length all_data) in
      let numeric_patterns :=
        List.length (List.filter has_numeric_pattern all_data) in
      let numeric_confidence :=
        percentage numeric_patterns (List.length all_data) in
      let overall :=
        fdiv (fadd format_consistency numeric_confidence) (of_int 2) in
      {| discovery_steps := discovery_steps e;
         confidence_scores :=
           <["format" := format_consistency]>
             (<["numeric" := numeric_confidence]>
                (<["overall" := overall]> ∅)) |}
    else e.

(** [_analyze_and_create_template].  [unix_time] is [int(time.time())],
    [local_time] the text produced by [datetime.now().strftime(...)] and
    [utc_time] the value of [datetime.now(timezone.utc)]. *)
Definition _analyze_and_create_template (e : ProtocolDiscoveryEngine)
    (unix_time : Z) (local_time : pystr) (utc_time : F)
    : outcome (option ProtocolTemplate) :=
  match discovery_steps e with
  | [] => Raised (pystr_of_string "IndexError: list index out of range")
  | first_step :: _ =>
      let sample_data := captured_data first_step in
      if negb (truthy sample_data) then Returned None
      else
        Returned (Some
          {| pt_template_id :=
               pystr_of_string "discovered_" ++ str_of_Z unix_time;
             pt_name := pystr_of_string "Auto-Discovered Scale Protocol";
             pt_description := pystr_of_string "Discovered on " ++ local_time;
             pt_delimiter := escaped_crlf;
             pt_encoding := pystr_of_string "ASCII";
             pt_fields :=
               [ {| pf_name := pystr_of_string "weight";
                    pf_start := 0;
                    pf_length :=
                      match sample_data with
                      | first_frame :: _ => Z.of_nat (List.length first_frame)
                      | [] => 10
                      end;
                    pf_field_type := pystr_of_string "numeric";
                    pf_decimal_places := Some 2%Z;
                    pf_values := None |} ];
             pt_confidence_score :=
               default (of_int 0) (confidence_scores e !! "overall");
             pt_discovery_date := utc_time |})
  end.

(** The exception of a file operation that fails. *)
Definition OSError : pystr := pystr_of_string "OSError".

(** [str(Path("protocol_templates") / f"{template_id}.json")] *)
Definition template_path (template_id : pystr) : pystr :=
  pystr_of_string "protocol_templates/" ++ template_id
  ++ pystr_of_string ".json".

(** Environment of the two methods that save a template: whether
    [templates_dir.mkdir], [open(template_file, 'w')] and [json.dump] go
    through for the file of that path; when one of them fails, [OSError] is
    raised. *)
Variable write_succeeds : pystr -> bool.

(** [_save_template]: the path of the file written. *)
Definition _save_template (template : ProtocolTemplate) : outcome pystr :=
  let template_file := template_path (pt_template_id template) in
  if write_succeeds template_file then Returned template_file
  else Raised OSError.

(** [_finalize_discovery]: the returned flag, with the template that was
    saved when there is one. *)
Definition _finalize_discovery (e : ProtocolDiscoveryEngine)
    (unix_time : Z) (local_time : pystr) (utc_time : F)
    : outcome (bool * option ProtocolTemplate) :=
  if negb (truthy (discovery_steps e)) then Returned (false, None)
  else
    match _analyze_and_create_template e unix_time local_time utc_time with
    | Raised exn => Raised exn
    | Returned (Some template) =>
        match _save_template template with
        | Returned template_path => Returned (true, Some template)
        | Raised exn => Raised exn
        end
    | Returned None => Returned (false, None)
    end.

End Engine.
Arguments Returned {A} a.
Arguments Raised {A} exception.
End ScaleDiscovery.

(* ===================================================================== *)
(** ** [src/docker-scale/adam_scale_logger.py]: class [Adam4571Manager] *)
(* ===================================================================== *)

Module ScaleLogger.
Import Link.
Section Manager.
Context {F : Type} `{PyFloat F}.

Record Adam4571Manager := {
  connected : bool;
  _running : bool;
  _data_buffer : loc;
  _consecutive_failures : nat;
  _last_successful_read : option F
}.

Record world := {
  self : Adam4571Manager;
  store : heap F;
  now_calls : nat
}.

(** What the environment decides in one iteration of [_monitor_loop]. *)
Inductive recv_outcome :=
| RecvData (recv_data : list byte)
| RecvTimeout
| RecvError.

(** One iteration: whether a connection attempt, if the loop makes one,
    succeeds, and what [recv] yields after it. *)
Record iteration := {
  connect_succeeds : bool;
  received : recv_outcome
}.

Variable utc_now : nat -> F.

Definition datetime_now (w : world) : F * world :=
  (utc_now (now_calls w),
   {| self := self w; store := store w; now_calls := S (now_calls w) |}).

Definition set_store (h : heap F) (w : world) : world :=
  {| self := self w; store := h; now_calls := now_calls w |}.

Definition set_self (m : Adam4571Manager) (w : world) : world :=
  {| self := m; store := store w; now_calls := now_calls w |}.

Definition set_data_buffer (l : loc) (m : Adam4571Manager) : Adam4571Manager :=
  {| connected := connected m; _running := _running m; _data_buffer := l;
     _consecutive_failures := _consecutive_failures m;
     _last_successful_read := _last_successful_read m |}.

Definition buffer (w : world) : list (entry F) :=
  deref (store w) (_data_buffer (self w)).

(** [connect] *)
Definition connect (ok : bool) (w : world) : bool * world :=
  if ok then
    let '(now, w) := datetime_now w in
    (true,
     set_self {| connected := true; _running := _running (self w);
                 _data_buffer := _data_buffer (self w);
                 _consecutive_failures := 0;
                 _last_successful_read := Some now |} w)
  else
    (false,
     set_self {| connected := false; _running := _running (self w);
                 _data_buffer := _data_buffer (self w);
                 _consecutive_failures := S (_consecutive_failures (self w));
                 _last_successful_read := _last_successful_read (self w) |} w).

(** Body of [for line in lines[:-1]] in [_process_received_data]: append,
    then rebind [self._data_buffer] to a new list holding the last 500
    entries once more than 1000 are buffered. *)
Definition process_line (w : world) (line : pystr) : world :=
  if truthy (strip line) then
    let '(now, w) := datetime_now w in
    let w :=
      set_store
        (list_append (_data_buffer (self w))
           {| data := strip line; timestamp := now |} (store w)) w in
    if (1000 <? List.length (buffer w))%nat then
      let '(l, h) := alloc (py_slice_from (buffer w) (-500)) (store w) in
      set_self (set_data_buffer l (self w)) (set_store h w)
    else w
  else w.

(** [_process_received_data(data, partial_data)]: [partial_data] is a
    parameter, so the value assigned to it is local to the call. *)
Definition _process_received_data (recv_data : list byte)
    (partial_data : pystr) (w : world) : world :=
  let decoded_data := decode_ascii_replace recv_data in
  let partial_data := partial_data ++ decoded_data in
  let lines := re_split_crlf partial_data in
  let partial_data' :=
    if negb (endswith partial_data [CR] || endswith partial_data [LF])
    then last_line lines else [] in
  fold_left process_line (removelast lines) w.

Definition record_failure (w : world) : world :=
  set_self {| connected := false; _running := _running (self w);
              _data_buffer := _data_buffer (self w);
              _consecutive_failures := S (_consecutive_failures (self w));
              _last_successful_read := _last_successful_read (self w) |} w.

(** One iteration of the [while self._running] loop of [_monitor_loop]. *)
Definition monitor_iteration (partial_data : pystr) (it : iteration)
    (w : world) : world :=
  let '(ok, w) :=
    if connected (self w) then (true, w) else connect (connect_succeeds it) w in
  if negb ok then w
  else
    match received it with
    | RecvTimeout => w
    | RecvError => record_failure w
    | RecvData recv_data =>
        if negb (truthy recv_data) then record_failure w
        else
          let w := _process_received_data recv_data partial_data w in
          let '(now, w) := datetime_now w in
          set_self {| connected := connected (self w);
                      _running := _running (self w);
                      _data_buffer := _data_buffer (self w);
                      _consecutive_failures := 0;
                      _last_successful_read := Some now |} w
    end.

(** [_monitor_loop]: its local [partial_data] is bound once, to the empty
    string, and no statement of the loop assigns it again. *)
Fixpoint monitor_loop_from (partial_data : pystr) (its : list iteration)
    (w : world) : world :=
  if negb (_running (self w)) then w
  else
    match its with
    | [] => w
    | it :: rest =>
        monitor_loop_from partial_data rest (monitor_iteration partial_data it w)
    end.

Definition _monitor_loop (its : list iteration) (w : world) : world :=
  monitor_loop_from [] its w.

(** [get_recent_data] *)
Definition get_recent_data (max_age_seconds : F) (w : world) : loc * world :=
  let '(now, w) := datetime_now w in
  let cutoff_time := fsub now max_age_seconds in
  let '(recent_data, h) :=
    alloc (List.filter (fun e => fltb cutoff_time (timestamp e)) (buffer w))
          (store w) in
  let '(result, h) := alloc (deref h recent_data) h in
  (result, set_store h w).

End Manager.
Arguments world : clear implicits.
Arguments Adam4571Manager : clear implicits.
End ScaleLogger.

(* ===================================================================== *)
(** ** [src/python/adam_scale_discovery.py]: the interactive session *)
(* ===================================================================== *)

Module DiscoverySession.
Import Link ScaleDiscovery.
Section Session.
Context {F : Type} `{PyFloat F}.

(** Environment of a session: the clock as for the manager, what the capture
    thread does to the manager while the caller is in [time.sleep(seconds)],
    what [input(prompt)] does, whether a file can be written, the readings
    of [time.time()] and of the local clock, and the configured
    [confidence_threshold].  [input] returns when the operator presses
    Enter, the capture thread having acted on the manager meanwhile; it
    raises [KeyboardInterrupt] when the operator interrupts the session and
    [EOFError] when the standard input is at its end.  The prompts are the
    points at which the session waits for the operator, and the interrupt
    is taken there. *)
Variable utc_now : nat -> F.
Variable sleep : F -> world F -> world F.
Variable wait_operator : pystr -> world F -> outcome (world F).
Variable write_succeeds : pystr -> bool.
Variable unix_time : Z.
Variable local_time : pystr.
Variable confidence_threshold : F.

(** The engine together with the manager it drives. *)
Definition session : Type := ProtocolDiscoveryEngine (F := F) * world F.

(** The part shared by [_capture_baseline] and [_capture_weight_step]: clear
    the buffer, sleep, read the recent data and, unless there is none,
    record a step. *)
Definition capture_step (sleep_seconds max_age_seconds : F) (step_number : Z)
    (action : pystr) (expected_weight : F) (s : session) : bool * session :=
  let '(e, w) := s in
  let w := clear_buffer w in
  let w := sleep sleep_seconds w in
  let '(step_data, w) := get_recent_data utc_now max_age_seconds w in
  let step_data := deref (store w) step_data in
  if negb (truthy step_data) then (false, (e, w))
  else
    let '(now, w) := datetime_now utc_now w in
    let step :=
      {| step_number := step_number;
         action := action;
         expected_weight := Some expected_weight;
         captured_data := map data step_data;
         step_timestamp := now |} in
    (true,
     ({| discovery_steps := discovery_steps e ++ [step];
         confidence_scores := confidence_scores e |}, w)).

(** [_capture_weight_step]: three seconds of capture, read with
    [get_recent_data(4.0)]. *)
Definition _capture_weight_step (step_number : Z) (action : pystr)
    (expected_weight : F) (s : session) : bool * session :=
  capture_step (of_int 3) (of_int 4) step_number action expected_weight s.

(** [test_weights = [1.0, 5.0, 10.0, 2.5]]; 2.5 is written as 5 / 2, which is
    exact in binary64. *)
Definition test_weights : list F :=
  [of_int 1; of_int 5; of_int 10; fdiv (of_int 5) (of_int 2)].

(** The prompt of the weight loop. *)
Definition stable_prompt : pystr :=
  pystr_of_string "Press Enter when scale is stable...".

(** The [for i, weight in enumerate(test_weights, 2)] loop of
    [_run_weight_tests]: it ends normally, at the end of the list or by its
    [break], or with the exception [input] raised. *)
Fixpoint weight_tests_from (i : Z) (weights : list F) (s : session)
    : outcome unit * session :=
  match weights with
  | [] => (Returned tt, s)
  | weight :: rest =>
      match wait_operator stable_prompt s.2 with
      | Raised exn => (Raised exn, s)
      | Returned w =>
          let '(captured, s) :=
            _capture_weight_step i (pystr_of_string "add_weight") weight
              (s.1, w) in
          if negb captured then weight_tests_from (i + 1) rest s
          else
            let s := (_calculate_confidence s.1, s.2) in
            if fltb confidence_threshold
                 (default (of_int 0) (confidence_scores s.1 !! "overall"))
            then (Returned tt, s)
            else weight_tests_from (i + 1) rest s
      end
  end.

(** [_finalize_discovery] within a session: the UTC clock is read when a
    template is built, before the template is saved. *)
Definition finalize (s : session)
    : outcome (bool * option ProtocolTemplate) * session :=
  let '(e, w) := s in
  let r := _finalize_discovery write_succeeds e unix_time local_time
             (utc_now (now_calls w)) in
  match r with
  | Returned (false, _) => (r, (e, w))
  | _ => (r, (e, (datetime_now utc_now w).2))
  end.

(** [_run_weight_tests] *)
Definition _run_weight_tests (s : session)
    : outcome (bool * option ProtocolTemplate) * session :=
  match weight_tests_from 2 test_weights s with
  | (Returned _, s) => finalize s
  | (Raised exn, s) => (Raised exn, s)
  end.

(** [_capture_baseline]: five seconds of capture, read with
    [get_recent_data(6.0)]. *)
Definition _capture_baseline (s : session)
    : outcome (bool * option ProtocolTemplate) * session :=
  let '(captured, s) :=
    capture_step (of_int 5) (of_int 6) 1 (pystr_of_string "baseline")
      (of_int 0) s in
  if negb captured then (Returned (false, None), s)
  else _run_weight_tests s.

End Session.
End DiscoverySession.

(* ===================================================================== *)
(** ** Notions used to state the properties *)
(* ===================================================================== *)

(** The frame a completed line contributes: its stripped text, unless blank. *)
Definition emit (line : pystr) : list pystr :=
  if truthy (strip line) then [strip line] else [].

(** One pass over the characters: the frames completed while reading [s]
    after the unterminated text [cur], and the text left unterminated. *)
Fixpoint scan_frames (cur s : pystr) : list pystr :=
  match s with
  | [] => []
  | c :: s' =>
      if is_crlf c then emit cur ++ scan_frames [] s'
      else scan_frames (cur ++ [c]) s'
  end.

Fixpoint scan_carry (cur s : pystr) : pystr :=
  match s with
  | [] => cur
  | c :: s' =>
      if is_crlf c then scan_carry [] s' else scan_carry (cur ++ [c]) s'
  end.

Definition no_crlf (s : pystr) : Prop := Forall (fun c => is_crlf c = false) s.

(** A buffered frame text: trimmed, not empty once trimmed, and free of CR
    and LF. *)
Definition frame_ok (d : pystr) : Prop :=
  strip d = d /\ truthy (strip d) = true /\ no_crlf d.

(** Text of the buffered frames, oldest first. *)
Definition frame_texts {F} (buf : list (Link.entry F)) : list pystr :=
  map Link.data buf.

(** The most recent [n] elements of a list. *)
Definition most_recent {A} (n : nat) (l : list A) : list A :=
  skipn (List.length l - n) l.

(** [self._data_buffer] is bound to the list object [buf]. *)
Definition discovery_holds {F} (w : ScaleDiscovery.world F)
    (buf : list (Link.entry F)) : Prop :=
  ScaleDiscovery.store w !! ScaleDiscovery._data_buffer (ScaleDiscovery.self w)
  = Some buf.

Definition logger_holds {F} (w : ScaleLogger.world F)
    (buf : list (Link.entry F)) : Prop :=
  ScaleLogger.store w !! ScaleLogger._data_buffer (ScaleLogger.self w)
  = Some buf.

(** What the logger's buffer holds after one entry is appended to [buf]. *)
Definition logger_append {F} (buf : list (Link.entry F)) (e : Link.entry F)
    : list (Link.entry F) :=
  if (1000 <? List.length (buf ++ [e]))%nat
  then most_recent 500 (buf ++ [e])
  else buf ++ [e].

(** The logger's bound on its buffer, and the shape of the buffered frames. *)
Definition bounded_frames {F} (buf : list (Link.entry F)) : Prop :=
  (List.length buf <= 1000)%nat /\ Forall frame_ok (frame_texts buf).

(** The entries [get_recent_data] selects: newer than [cutoff_time]. *)
Definition newer_than {F} `{PyFloat F} (cutoff_time : F)
    (buf : list (Link.entry F)) : list (Link.entry F) :=
  List.filter (fun e => fltb cutoff_time (Link.timestamp e)) buf.

(** States of the discovery tool's manager: [__init__] binds an empty list;
    the capture thread runs [_capture_loop] (observed from any value of its
    local [partial_data]); callers connect, start the capture, clear the
    buffer and read it. *)
Inductive discovery_reachable {F} `{PyFloat F} (utc_now : nat -> F)
    (socket_connect : nat -> bool) : ScaleDiscovery.world F -> Prop :=
| dr_init w :
    ScaleDiscovery.store w !! ScaleDiscovery._data_buffer (ScaleDiscovery.self w)
      = Some [] ->
    discovery_reachable utc_now socket_connect w
| dr_capture w partial_data recvs :
    discovery_reachable utc_now socket_connect w ->
    discovery_reachable utc_now socket_connect
      (ScaleDiscovery.capture_loop_from utc_now partial_data recvs w)
| dr_connect w :
    discovery_reachable utc_now socket_connect w ->
    discovery_reachable utc_now socket_connect
      (snd (ScaleDiscovery.connect socket_connect w))
| dr_start w :
    discovery_reachable utc_now socket_connect w ->
    discovery_reachable utc_now socket_connect
      (snd (ScaleDiscovery.start_data_capture socket_connect w))
| dr_clear w :
    discovery_reachable utc_now socket_connect w ->
    discovery_reachable utc_now socket_connect (ScaleDiscovery.clear_buffer w)
| dr_recent w max_age_seconds :
    discovery_reachable utc_now socket_connect w ->
    discovery_reachable utc_now socket_connect
      (snd (ScaleDiscovery.get_recent_data utc_now max_age_seconds w)).

(** States of the logger's manager. *)
Inductive logger_reachable {F} `{PyFloat F} (utc_now : nat -> F)
    : ScaleLogger.world F -> Prop :=
| lr_init w :
    ScaleLogger.store w !! ScaleLogger._data_buffer (ScaleLogger.self w)
      = Some [] ->
    logger_reachable utc_now w
| lr_monitor w its :
    logger_reachable utc_now w ->
    logger_reachable utc_now (ScaleLogger._monitor_loop utc_now its w)
| lr_connect w ok :
    logger_reachable utc_now w ->
    logger_reachable utc_now (snd (ScaleLogger.connect utc_now ok w))
| lr_recent w max_age_seconds :
    logger_reachable utc_now w ->
    logger_reachable utc_now
      (snd (ScaleLogger.get_recent_data utc_now max_age_seconds w)).

(** The slice of field [f] runs past the end of the frame [raw_data]. *)
Definition too_short (raw_data : pystr) (f : ScaleDiscovery.FieldSpec) : Prop :=
  (Z.of_nat (List.length raw_data)
   < ScaleDiscovery.start f + ScaleDiscovery.length f)%Z.

(** The text [_parse_with_template] slices out of [raw_data] for field [f]. *)
Definition field_slice (raw_data : pystr) (f : ScaleDiscovery.FieldSpec) : pystr :=
  py_slice raw_data (ScaleDiscovery.start f)
    (ScaleDiscovery.start f + ScaleDiscovery.length f).

Definition is_numeric (f : ScaleDiscovery.FieldSpec) : bool :=
  pystr_eqb (ScaleDiscovery.field_type f) (pystr_of_string "numeric").

(** A numeric field whose slice [float] accepts; any field of another type. *)
Definition numeric_ok (raw_data : pystr) (f : ScaleDiscovery.FieldSpec) : Prop :=
  is_numeric f = true -> is_float_literal (strip (field_slice raw_data f)) = true.

(** The frames of [test_data] that a field list parses. *)
Definition parsed_frames {F} (template_fields : list ScaleDiscovery.FieldSpec)
    (test_data : list (Link.entry F)) : list (Link.entry F) :=
  List.filter
    (fun e => ScaleDiscovery.parse_success
                (ScaleDiscovery._parse_with_template (Link.data e) template_fields))
    test_data.

(** The frames [test_template] obtains from its sampling window, once the
    link is up: connect if needed, start the capture, clear the buffer, sleep,
    read the recent data. *)
Definition window_frames {F} `{PyFloat F} (utc_now : nat -> F)
    (socket_connect : nat -> bool)
    (sleep : F -> ScaleDiscovery.world F -> ScaleDiscovery.world F)
    (test_duration : F) (w : ScaleDiscovery.world F) : list (Link.entry F) :=
  let w :=
    if ScaleDiscovery.connected (ScaleDiscovery.self w) then w
    else (ScaleDiscovery.connect socket_connect w).2 in
  let w := (ScaleDiscovery.start_data_capture socket_connect w).2 in
  let w := sleep test_duration (ScaleDiscovery.clear_buffer w) in
  let r := ScaleDiscovery.get_recent_data utc_now
             (fadd test_duration (of_int 1)) w in
  Link.deref (ScaleDiscovery.store r.2) r.1.

(* ===================================================================== *)
(** ** Concrete inputs *)
(* ===================================================================== *)

(** A clock that advances one second per reading. *)
Definition clock_seconds (n : nat) : Q := inject_Z (Z.of_nat n).

Definition always_connects (n : nat) : bool := true.

Definition CRLF_bytes : list byte := [x0d; x0a]%byte.

(** A connected, running discovery manager with an empty buffer. *)
Definition discovery_world0 : ScaleDiscovery.world Q :=
  {| ScaleDiscovery.self :=
       {| ScaleDiscovery.connected := true;
          ScaleDiscovery._running := true;
          ScaleDiscovery._data_buffer := 1%positive |};
     ScaleDiscovery.store := {[ 1%positive := [] ]};
     ScaleDiscovery.now_calls := 0;
     ScaleDiscovery.connect_calls := 0;
     ScaleDiscovery.capture_threads := 1 |}.

(** A connected, running logger manager with an empty buffer. *)
Definition logger_world0 : ScaleLogger.world Q :=
  {| ScaleLogger.self :=
       {| ScaleLogger.connected := true;
          ScaleLogger._running := true;
          ScaleLogger._data_buffer := 1%positive;
          ScaleLogger._consecutive_failures := 0;
          ScaleLogger._last_successful_read := None |};
     ScaleLogger.store := {[ 1%positive := [] ]};
     ScaleLogger.now_calls := 0 |}.

(** An iteration of the logger's loop in which [recv] returns [recv_data]. *)
Definition reads (recv_data : list byte) : ScaleLogger.iteration :=
  {| ScaleLogger.connect_succeeds := true;
     ScaleLogger.received := ScaleLogger.RecvData recv_data |}.

(** [n] one-character lines. *)
Definition short_lines (n : nat) : list byte :=
  concat (repeat [x61; x0a]%byte n).

(** The scenario of one numeric field [{start: 0, length: 6}] and three
    frames of eight characters. *)
Definition scenario_field (field_name : pystr)
    (field_values : option (gmap pystr pystr)) : ScaleDiscovery.FieldSpec :=
  {| ScaleDiscovery.name := field_name;
     ScaleDiscovery.start := 0;
     ScaleDiscovery.length := 6;
     ScaleDiscovery.field_type := pystr_of_string "numeric";
     ScaleDiscovery.values := field_values |}.

Definition scenario_template (id template_name delimiter : option pystr)
    (field_name : pystr) (field_values : option (gmap pystr pystr))
    : ScaleDiscovery.TemplateData :=
  {| ScaleDiscovery.template_id := id;
     ScaleDiscovery.template_name := template_name;
     ScaleDiscovery.delimiter := delimiter;
     ScaleDiscovery.fields := Some [scenario_field field_name field_values] |}.

Definition scenario_frames {F} (t1 t2 t3 : F) : list (Link.entry F) :=
  [ {| Link.data := pystr_of_string "12.345" ++ [CR; LF]; Link.timestamp := t1 |};
    {| Link.data := pystr_of_string "12.346" ++ [CR; LF]; Link.timestamp := t2 |};
    {| Link.data := pystr_of_string "12.344" ++ [CR; LF]; Link.timestamp := t3 |} ].

(** A numeric field of one character followed by a field that runs past the
    end of an eight-character frame. *)
Definition letter_then_long_fields : list ScaleDiscovery.FieldSpec :=
  [ {| ScaleDiscovery.name := pystr_of_string "weight";
       ScaleDiscovery.start := 0;
       ScaleDiscovery.length := 1;
       ScaleDiscovery.field_type := pystr_of_string "numeric";
       ScaleDiscovery.values := None |};
    {| ScaleDiscovery.name := pystr_of_string "unit";
       ScaleDiscovery.start := 5;
       ScaleDiscovery.length := 10;
       ScaleDiscovery.field_type := pystr_of_string "text";
       ScaleDiscovery.values := None |} ].

(** A sampling window in which the capture thread buffers nothing. *)
Definition quiet_sleep (seconds : Q) (w : ScaleDiscovery.world Q)
    : ScaleDiscovery.world Q := w.

(** The discovery manager after the two lines [a] and [b] were captured, at
    clock readings 0 and 1. *)
Definition discovery_world2 : ScaleDiscovery.world Q :=
  ScaleDiscovery._capture_loop clock_seconds
    [ScaleDiscovery.RecvData [x61; x0a; x62; x0a]%byte] discovery_world0.

Definition logger_world2 : ScaleLogger.world Q :=
  ScaleLogger._monitor_loop clock_seconds
    [reads [x61; x0a; x62; x0a]%byte] logger_world0.

(** An engine with a baseline of two frames and one weight step. *)
Definition engine_with_frames : ScaleDiscovery.ProtocolDiscoveryEngine (F := Q) :=
  ScaleDiscovery._calculate_confidence
    {| ScaleDiscovery.discovery_steps :=
         [ {| ScaleDiscovery.step_number := 1;
              ScaleDiscovery.action := pystr_of_string "baseline";
              ScaleDiscovery.expected_weight := Some 0%Q;
              ScaleDiscovery.captured_data :=
                [pystr_of_string "0.000 kg"; pystr_of_string "0.000 kg"];
              ScaleDiscovery.step_timestamp := 5%Q |};
           {| ScaleDiscovery.step_number := 2;
              ScaleDiscovery.action := pystr_of_string "add_weight";
              ScaleDiscovery.expected_weight := Some 1%Q;
              ScaleDiscovery.captured_data := [pystr_of_string "1.000 kg"];
              ScaleDiscovery.step_timestamp := 9%Q |} ];
       ScaleDiscovery.confidence_scores := ∅ |}.

(** The bytes a sequence of [recv] outcomes delivers. *)
Definition received_bytes (recvs : list ScaleDiscovery.recv_outcome) : list byte :=
  flat_map
    (fun r => match r with ScaleDiscovery.RecvData recv_data => recv_data | _ => [] end)
    recvs.

(** A [recv] outcome that keeps the capture loop going: data, or a timeout. *)
Definition live_read (r : ScaleDiscovery.recv_outcome) : Prop :=
  match r with
  | ScaleDiscovery.RecvData recv_data => recv_data <> []
  | ScaleDiscovery.RecvTimeout => True
  | ScaleDiscovery.RecvError => False
  end.

(** A [recv] outcome on which [_capture_loop] leaves its loop: a socket error
    or the empty read of a closed connection. *)
Definition closes_link (r : ScaleDiscovery.recv_outcome) : Prop :=
  r = ScaleDiscovery.RecvError \/ r = ScaleDiscovery.RecvData [].

(** [w'] is reached from [w] by operations of the discovery tool's manager. *)
Inductive discovery_evolves {F} `{PyFloat F} (utc_now : nat -> F)
    (socket_connect : nat -> bool)
    : ScaleDiscovery.world F -> ScaleDiscovery.world F -> Prop :=
| de_refl w : discovery_evolves utc_now socket_connect w w
| de_capture w w' partial_data recvs :
    discovery_evolves utc_now socket_connect w w' ->
    discovery_evolves utc_now socket_connect w
      (ScaleDiscovery.capture_loop_from utc_now partial_data recvs w')
| de_connect w w' :
    discovery_evolves utc_now socket_connect w w' ->
    discovery_evolves utc_now socket_connect w
      (snd (ScaleDiscovery.connect socket_connect w'))
| de_start w w' :
    discovery_evolves utc_now socket_connect w w' ->
    discovery_evolves utc_now socket_connect w
      (snd (ScaleDiscovery.start_data_capture socket_connect w'))
| de_clear w w' :
    discovery_evolves utc_now socket_connect w w' ->
    discovery_evolves utc_now socket_connect w (ScaleDiscovery.clear_buffer w')
| de_recent w w' max_age_seconds :
    discovery_evolves utc_now socket_connect w w' ->
    discovery_evolves utc_now socket_connect w
      (snd (ScaleDiscovery.get_recent_data utc_now max_age_seconds w')).

(** [w'] is reached from [w] by operations of the logger's manager. *)
Inductive logger_evolves {F} `{PyFloat F} (utc_now : nat -> F)
    : ScaleLogger.world F -> ScaleLogger.world F -> Prop :=
| le_refl w : logger_evolves utc_now w w
| le_monitor w w' partial_data its :
    logger_evolves utc_now w w' ->
    logger_evolves utc_now w
      (ScaleLogger.monitor_loop_from utc_now partial_data its w')
| le_connect w w' ok :
    logger_evolves utc_now w w' ->
    logger_evolves utc_now w (snd (ScaleLogger.connect utc_now ok w'))
| le_recent w w' max_age_seconds :
    logger_evolves utc_now w w' ->
    logger_evolves utc_now w
      (snd (ScaleLogger.get_recent_data utc_now max_age_seconds w')).

(** An iteration of the logger's loop during which the device cannot be
    reached. *)
Definition unreachable_device (it : ScaleLogger.iteration) : Prop :=
  ScaleLogger.connect_succeeds it = false.

(** The non-empty reads among a sequence of [recv] outcomes. *)
Definition read_chunks (recvs : list ScaleDiscovery.recv_outcome)
    : list (list byte) :=
  flat_map
    (fun r => match r with
              | ScaleDiscovery.RecvData recv_data => [recv_data]
              | _ => []
              end)
    recvs.

(** A logger manager whose link is down, with two buffered frames. *)
Definition logger_world_down : ScaleLogger.world Q :=
  {| ScaleLogger.self :=
       {| ScaleLogger.connected := false;
          ScaleLogger._running := true;
          ScaleLogger._data_buffer :=
            ScaleLogger._data_buffer (ScaleLogger.self logger_world2);
          ScaleLogger._consecutive_failures := 1;
          ScaleLogger._last_successful_read :=
            ScaleLogger._last_successful_read (ScaleLogger.self logger_world2) |};
     ScaleLogger.store := ScaleLogger.store logger_world2;
     ScaleLogger.now_calls := ScaleLogger.now_calls logger_world2 |}.

(** An iteration of the logger's loop whose connection attempt is refused. *)
Definition refused : ScaleLogger.iteration :=
  {| ScaleLogger.connect_succeeds := false;
     ScaleLogger.received := ScaleLogger.RecvTimeout |}.

(** The buffer of the discovery tool's manager is bound to a list of
    well-formed frames. *)
Definition well_formed_buffer {F} (w : ScaleDiscovery.world F) : Prop :=
  exists buf, discovery_holds w buf /\ Forall frame_ok (frame_texts buf).

(** The entries a capture step of the session reads: those
    [get_recent_data(max_age_seconds)] returns after the buffer was cleared
    and the caller slept. *)
Definition step_frames {F} `{PyFloat F} (utc_now : nat -> F)
    (sleep : F -> ScaleDiscovery.world F -> ScaleDiscovery.world F)
    (sleep_seconds max_age_seconds : F) (w : ScaleDiscovery.world F)
    : list (Link.entry F) :=
  let w := sleep sleep_seconds (ScaleDiscovery.clear_buffer w) in
  let r := ScaleDiscovery.get_recent_data utc_now max_age_seconds w in
  Link.deref (ScaleDiscovery.store r.2) r.1.

(** A weight step as [_run_weight_tests] records it: numbered from
    [first_number] to 5, with at least one frame. *)
Definition weight_step_ok {F} (first_number : Z)
    (step : ScaleDiscovery.DiscoveryStep (F := F)) : Prop :=
  (first_number <= ScaleDiscovery.step_number step <= 5)%Z
  /\ ScaleDiscovery.action step = pystr_of_string "add_weight"
  /\ ScaleDiscovery.captured_data step <> [].

(** The score stored under ['overall'], 0 when there is none. *)
Definition overall_score {F} `{PyFloat F}
    (e : ScaleDiscovery.ProtocolDiscoveryEngine (F := F)) : F :=
  default (of_int 0) (ScaleDiscovery.confidence_scores e !! "overall").

(** The capture thread at work while the caller sleeps: it reads [recvs]. *)
Definition capturing_sleep (recvs : list ScaleDiscovery.recv_outcome)
    (seconds : Q) (w : ScaleDiscovery.world Q) : ScaleDiscovery.world Q :=
  ScaleDiscovery.capture_loop_from clock_seconds [] recvs w.

(** The operator presses Enter at once, at every prompt. *)
Definition no_wait (prompt : pystr) (w : ScaleDiscovery.world Q)
    : ScaleDiscovery.outcome (ScaleDiscovery.world Q) :=
  ScaleDiscovery.Returned w.

(** Every file can be written. *)
Definition writable (template_file : pystr) : bool := true.

(** The engine at the start of a session. *)
Definition fresh_engine : ScaleDiscovery.ProtocolDiscoveryEngine (F := Q) :=
  {| ScaleDiscovery.discovery_steps := [];
     ScaleDiscovery.confidence_scores := ∅ |}.

(** Two frames arrive during every sleep. *)
Definition two_frames_per_sleep : Q -> ScaleDiscovery.world Q -> ScaleDiscovery.world Q :=
  capturing_sleep
    [ScaleDiscovery.RecvData
       (bytes_of_string "ST,+0012.50 kg" ++ CRLF_bytes
        ++ bytes_of_string "ST,+0012.51 kg" ++ CRLF_bytes)].

(** What holds of a session between two steps of interactive discovery, in
    exact arithmetic: the buffer is well formed, no recorded frame holds a
    CR or LF, and the overall score lies between 0 and 50. *)
Definition session_ok
    (s : ScaleDiscovery.ProtocolDiscoveryEngine (F := Q) * ScaleDiscovery.world Q)
    : Prop :=
  well_formed_buffer s.2
  /\ Forall (fun step => Forall no_crlf (ScaleDiscovery.captured_data step))
       (ScaleDiscovery.discovery_steps s.1)
  /\ (0 <= overall_score s.1 <= 50)%Q.

(* ===================================================================== *)
(** ** [adam_scale_logger.py]: the data processor and the service's poll *)
(* ===================================================================== *)

Module ScaleService.
Import Link.
Section Service.
Context {F : Type} `{PyFloat F}.

(** [c.upper()] on the characters a link manager buffers, ASCII and U+FFFD:
    only the ASCII letters change.  [lower] is the converse mapping. *)
Definition upper (c : N) : N :=
  if (97 <=? c) && (c <=? 122) then c - 32 else c.

(** The longest run of decimal digits at the head of [s], and what follows.
    On buffered text [\d] is an ASCII digit. *)
Fixpoint span_digits (s : pystr) : pystr * pystr :=
  match s with
  | [] => ([], [])
  | c :: s' =>
      if is_digit c then let '(digits, rest) := span_digits s' in (c :: digits, rest)
      else ([], s)
  end.

(** A match of [[\+\-]?\d+\.?\d*] at the head of [s].  Each quantifier is
    greedy; when no digit follows a sign taken by [[\+\-]?], the engine
    retries without the sign and fails on the sign itself. *)
Definition weight_match_at (s : pystr) : option pystr :=
  let '(sign, body) :=
    match s with
    | c :: s' => if (c =? 43) || (c =? 45) then ([c], s') else ([], s)
    | [] => ([], [])
    end in
  match span_digits body with
  | ([], _) => None
  | (integer, rest) =>
      match rest with
      | 46 :: rest' => Some (sign ++ integer ++ 46 :: (span_digits rest').1)
      | _ => Some (sign ++ integer)
      end
  end.

(** [re.search(r'[\+\-]?\d+\.?\d*', s)]: the match at the leftmost position
    that has one. *)
Fixpoint weight_search (s : pystr) : option pystr :=
  match weight_match_at s with
  | Some m => Some m
  | None =>
      match s with
      | [] => None
      | _ :: s' => weight_search s'
      end
  end.

(** A match of [(kg|lb|g|oz)] at the head of [s]: the alternatives are tried
    in the order written. *)
Definition unit_match_at (s : pystr) : option pystr :=
  if startswith s (pystr_of_string "kg") then Some (pystr_of_string "kg")
  else if startswith s (pystr_of_string "lb") then Some (pystr_of_string "lb")
  else if startswith s (pystr_of_string "g") then Some (pystr_of_string "g")
  else if startswith s (pystr_of_string "oz") then Some (pystr_of_string "oz")
  else None.

(** [re.search(r'(kg|lb|g|oz)', s)] *)
Fixpoint unit_search (s : pystr) : option pystr :=
  match unit_match_at s with
  | Some m => Some m
  | None =>
      match s with
      | [] => None
      | _ :: s' => unit_search s'
      end
  end.

(** The dict [quality_flags]. *)
Record QualityFlags := {
  raw_length : nat;
  has_numeric : bool;
  has_unit : bool;
  processing_timestamp : F
}.

(** dataclass [ScaleReading]; [weight] keeps the literal [float] accepted. *)
Record ScaleReading := {
  weight : option pystr;
  unit : option pystr;
  stable : option bool;
  timestamp : F;
  raw_data : pystr;
  device_id : pystr;
  quality_flags : option QualityFlags
}.

Variable utc_now : nat -> F.

(** [ScaleDataProcessor.process_raw_data]: [float] raises [ValueError] on a
    text that is no literal ([weight] is then [None] below), and the handler
    returns [None]. *)
Definition process_raw_data (raw_data device_id : pystr)
    (w : ScaleLogger.world F) : option ScaleReading * ScaleLogger.world F :=
  let '(timestamp, w) := ScaleLogger.datetime_now utc_now w in
  let weight_match := weight_search raw_data in
  let weight :=
    match weight_match with
    | Some m => if is_float_literal m then Some (Some m) else None
    | None => Some None
    end in
  match weight with
  | None => (None, w)
  | Some weight =>
      let unit_match := unit_search (map lower raw_data) in
      let unit := default (pystr_of_string "kg") unit_match in
      let stable :=
        contains (map upper raw_data) (pystr_of_string "ST")
        || contains (map upper raw_data) (pystr_of_string "STABLE") in
      let quality_flags :=
        {| raw_length := List.length raw_data;
           has_numeric := bool_decide (is_Some weight_match);
           has_unit := bool_decide (is_Some unit_match);
           processing_timestamp := timestamp |} in
      (Some {| weight := weight;
               unit := Some unit;
               stable := Some stable;
               timestamp := timestamp;
               raw_data := raw_data;
               device_id := device_id;
               quality_flags := Some quality_flags |}, w)
  end.

(** The service's view of its database: the readings [save_reading] has
    accepted, oldest first, and how often it was called. *)
Record service := {
  adam_manager : ScaleLogger.world F;
  accepted : list ScaleReading;
  save_calls : nat
}.

(** Whether the [n]-th call of [database.save_reading] stores its row and
    returns [True]. *)
Variable save_succeeds : nat -> bool.

Definition save_reading (reading : ScaleReading) (sv : service) : bool * service :=
  if save_succeeds (save_calls sv) then
    (true, {| adam_manager := adam_manager sv;
              accepted := accepted sv ++ [reading];
              save_calls := S (save_calls sv) |})
  else
    (false, {| adam_manager := adam_manager sv;
               accepted := accepted sv;
               save_calls := S (save_calls sv) |}).

Definition set_adam_manager (w : ScaleLogger.world F) (sv : service) : service :=
  {| adam_manager := w; accepted := accepted sv; save_calls := save_calls sv |}.

(** Body of [for data_entry in recent_data] in [_process_recent_data]. *)
Definition process_entry (device_id : pystr) (sv : service)
    (data_entry : entry F) : service :=
  let '(reading, w) :=
    process_raw_data (data data_entry) device_id (adam_manager sv) in
  let sv := set_adam_manager w sv in
  match reading with
  | Some reading => (save_reading reading sv).2
  | None => sv
  end.

(** [ScaleLoggerService._process_recent_data], with the configured
    [poll_interval] and device name. *)
Definition _process_recent_data (poll_interval : F) (device_id : pystr)
    (sv : service) : service :=
  let '(recent_data, w) :=
    ScaleLogger.get_recent_data utc_now (fadd poll_interval (of_int 1))
      (adam_manager sv) in
  let recent_data := deref (ScaleLogger.store w) recent_data in
  fold_left (process_entry device_id) recent_data (set_adam_manager w sv).

End Service.
Arguments ScaleReading : clear implicits.
Arguments QualityFlags : clear implicits.
Arguments service : clear implicits.
End ScaleService.

(** Text as a link manager decodes it: ASCII characters and U+FFFD. *)
Definition link_char (c : N) : Prop := c < 128 \/ c = REPLACEMENT_CHARACTER.

Definition link_text (s : pystr) : Prop := Forall link_char s.

(** [[sign] digits ["." digits]]: the shape of a weight match. *)
Definition plain_decimal (m : pystr) : Prop :=
  exists sign integer fraction,
    m = sign ++ integer ++ fraction
    /\ (sign = [] \/ sign = [43] \/ sign = [45])
    /\ integer <> [] /\ forallb is_digit integer = true
    /\ (fraction = [] \/
        exists digits, fraction = 46 :: digits /\ forallb is_digit digits = true).

(** Of the readings a poll offers to [save_reading], starting with call
    number [call], those that were stored. *)
Fixpoint stored_by {A} (save_succeeds : nat -> bool) (call : nat)
    (offered : list A) : list A :=
  match offered with
  | [] => []
  | reading :: rest =>
      (if save_succeeds call then [reading] else [])
      ++ stored_by save_succeeds (S call) rest
  end.

(** The reading [process_raw_data] builds from a frame text when the clock
    shows [now]. *)
Definition reading_of {F} (now : F) (raw_data device_id : pystr)
    : ScaleService.ScaleReading F :=
  {| ScaleService.weight := ScaleService.weight_search raw_data;
     ScaleService.unit :=
       Some (default (pystr_of_string "kg")
               (ScaleService.unit_search (map lower raw_data)));
     ScaleService.stable :=
       Some (contains (map ScaleService.upper raw_data) (pystr_of_string "ST"));
     ScaleService.timestamp := now;
     ScaleService.raw_data := raw_data;
     ScaleService.device_id := device_id;
     ScaleService.quality_flags :=
       Some {| ScaleService.raw_length := List.length raw_data;
               ScaleService.has_numeric := existsb is_digit raw_data;
               ScaleService.has_unit :=
                 bool_decide
                   (is_Some (ScaleService.unit_search (map lower raw_data)));
               ScaleService.processing_timestamp := now |} |}.

(** The readings of a list of entries, processed one after the other from
    clock reading number [tick] on. *)
Fixpoint readings_at {F} (utc_now : nat -> F) (device_id : pystr) (tick : nat)
    (entries : list (Link.entry F)) : list (ScaleService.ScaleReading F) :=
  match entries with
  | [] => []
  | e :: rest =>
      reading_of (utc_now tick) (Link.data e) device_id
      :: readings_at utc_now device_id (S tick) rest
  end.

(** A logger that has read two frames, and a database that refuses the
    first row offered. *)
Definition logger_world_two_frames : ScaleLogger.world Q :=
  ScaleLogger._monitor_loop clock_seconds
    [reads (bytes_of_string "ST,+0012.50 kg" ++ CRLF_bytes
            ++ bytes_of_string "US,-0000.75 lb" ++ CRLF_bytes)]
    logger_world0.

Definition refuses_first_row (n : nat) : bool := negb (n =? 0)%nat.

(* ===================================================================== *)
(** ** [adam_scale_discovery.py]: the template catalog and a whole session *)
(* ===================================================================== *)

(** [a >= b] on floats. *)
Class PyFloatGe (F : Type) := { fgeb : F -> F -> bool }.

#[export] Instance PyFloatGe_Q : PyFloatGe Q := {
  fgeb := fun a b => Qle_bool b a
}.

#[export] Instance PyFloatGe_binary64 : PyFloatGe float := {
  fgeb := fun a b => PrimFloat.leb b a
}.

(** A [dict]: keys in insertion order, each once. *)
Module PyDict.
Section PyDict.
Context {K V : Type} `{EqDecision K}.

(** [d.get(k)] *)
Fixpoint get (d : list (K * V)) (k : K) : option V :=
  match d with
  | [] => None
  | (k', v) :: d' => if decide (k = k') then Some v else get d' k
  end.

(** [d[k] = v]: a present key keeps its place. *)
Fixpoint set (d : list (K * V)) (k : K) (v : V) : list (K * V) :=
  match d with
  | [] => [(k, v)]
  | (k', v') :: d' =>
      if decide (k = k') then (k', v) :: d' else (k', v') :: set d' k v
  end.

End PyDict.
End PyDict.

Module KnownTemplates.
Import Link ScaleDiscovery DiscoverySession.
Section KnownTemplates.
Context {F : Type} `{PyFloat F} `{PyFloatGe F}.

(** A template document as [json.load] returns it: the keys the validator
    reads, the ['manufacturer_info'] dict, and whether it has other keys. *)
Record TemplateDocument := {
  document : TemplateData;
  manufacturer_info : option (gmap pystr pystr);
  other_keys : bool
}.

(** [bool(template_data)]: a dict is true unless it is empty. *)
Definition document_truthy (template_data : TemplateDocument) : bool :=
  other_keys template_data
  || bool_decide (is_Some (manufacturer_info template_data))
  || bool_decide (is_Some (template_id (document template_data)))
  || bool_decide (is_Some (template_name (document template_data)))
  || bool_decide (is_Some (delimiter (document template_data)))
  || bool_decide (is_Some (fields (document template_data))).

(** [TemplateManager.load_templates] on the files the directory lists, in
    the order [glob] yields them; [None] is a file that cannot be opened or
    parsed, and a missing directory lists nothing. *)
Definition load_template (templates : list (pystr * TemplateDocument))
    (template_file : option TemplateDocument)
    : list (pystr * TemplateDocument) :=
  match template_file with
  | Some template_data =>
      match template_id (document template_data) with
      | Some template_id =>
          if truthy template_id
          then PyDict.set templates template_id template_data
          else templates
      | None => templates
      end
  | None => templates
  end.

Definition load_templates (template_files : list (option TemplateDocument))
    (templates : list (pystr * TemplateDocument))
    : list (pystr * TemplateDocument) :=
  fold_left load_template template_files templates.

(** [TemplateManager.get_template] *)
Definition get_template (templates : list (pystr * TemplateDocument))
    (template_id : pystr) : option TemplateDocument :=
  PyDict.get templates template_id.

(** [template_data.get('manufacturer_info', {}).get('brand', 'Unknown')] *)
Definition brand_of (template_data : TemplateDocument) : pystr :=
  default (pystr_of_string "Unknown")
    (default ∅ (manufacturer_info template_data) !! pystr_of_string "brand").

(** [TemplateManager.get_manufacturer_templates] *)
Definition add_manufacturer_template (manufacturers : list (pystr * list pystr))
    (item : pystr * TemplateDocument) : list (pystr * list pystr) :=
  let '(template_id, template_data) := item in
  let brand := brand_of template_data in
  let manufacturers :=
    if negb (bool_decide (is_Some (PyDict.get manufacturers brand)))
    then PyDict.set manufacturers brand []
    else manufacturers in
  PyDict.set manufacturers brand
    (default [] (PyDict.get manufacturers brand) ++ [template_id]).

Definition get_manufacturer_templates
    (templates : list (pystr * TemplateDocument)) : list (pystr * list pystr) :=
  fold_left add_manufacturer_template templates [].

(** A test result with the three keys [_try_known_templates] adds. *)
Record KnownResult := {
  tested : TestResult (F := F);
  known_template_id : pystr;
  known_template_name : pystr;
  brand : pystr
}.

(** [result.get('success', False)] and [result.get('confidence', 0)] *)
Definition result_success (r : KnownResult) : bool :=
  match tested r with
  | TestFailed _ _ => false
  | TestAnalysed m => success m
  end.

Definition result_confidence (r : KnownResult) : F :=
  match tested r with
  | TestFailed c _ => of_int c
  | TestAnalysed m => confidence m
  end.

(** What [_try_known_templates] returns: the dict for an empty catalog, the
    initial [best_result], or the best test result. *)
Inductive KnownTemplatesResult :=
| NoTemplates
| NoneSucceeded
| BestResult (r : KnownResult).

Definition known_success (best : KnownTemplatesResult) : bool :=
  match best with
  | BestResult r => result_success r
  | _ => false
  end.

Definition known_confidence (best : KnownTemplatesResult) : F :=
  match best with
  | BestResult r => result_confidence r
  | _ => of_int 0
  end.

Variable utc_now : nat -> F.
Variable socket_connect : nat -> bool.
Variable sleep : F -> world F -> world F.
Variable wait_operator : pystr -> world F -> outcome (world F).
Variable write_succeeds : pystr -> bool.
Variable unix_time : Z.
Variable local_time : pystr.
Variable confidence_threshold : F.

(** The [for template_id, template_data in templates.items()] loop of
    [_try_known_templates]. *)
Fixpoint try_templates (templates : list (pystr * TemplateDocument))
    (best_result : KnownTemplatesResult) (test_results : list KnownResult)
    (w : world F) : KnownTemplatesResult * list KnownResult * world F :=
  match templates with
  | [] => (best_result, test_results, w)
  | (template_id, template_data) :: rest =>
      let '(result, w) :=
        test_template utc_now socket_connect sleep (document template_data)
          (of_int 5) w in
      let result :=
        {| tested := result;
           known_template_id := template_id;
           known_template_name :=
             default template_id (template_name (document template_data));
           brand := brand_of template_data |} in
      let test_results := test_results ++ [result] in
      let best_result :=
        if result_success result
           && fltb (known_confidence best_result) (result_confidence result)
        then BestResult result else best_result in
      if fgeb (result_confidence result) (of_int 95)
      then (best_result, test_results, w)
      else try_templates rest best_result test_results w
  end.

(** [_try_known_templates]: the best result, the results in the order of the
    tests, and the manager afterwards. *)
Definition _try_known_templates (templates : list (pystr * TemplateDocument))
    (w : world F) : KnownTemplatesResult * list KnownResult * world F :=
  if negb (truthy templates) then (NoTemplates, [], w)
  else try_templates templates NoneSucceeded [] w.

(** What a session saves: the copy [_save_template_as_discovered] writes of a
    matched document, with its new id, the id of the original and the date,
    or the template of interactive discovery. *)
Inductive SavedTemplate :=
| MatchedTemplate (saved_template_id original_template : pystr)
    (discovery_date : F) (template_data : TemplateDocument)
| DiscoveredTemplate (template : ProtocolTemplate (F := F)).

(** [_save_template_as_discovered]: the path of the file written and what
    it holds.  The subscript [template_data['template_id']] comes first, then
    the clock is read, then the file is written. *)
Definition _save_template_as_discovered (template_data : TemplateDocument)
    (w : world F) : outcome (pystr * SavedTemplate) * world F :=
  match template_id (document template_data) with
  | None => (Raised (pystr_of_string "KeyError: 'template_id'"), w)
  | Some original =>
      let saved_template_id :=
        pystr_of_string "matched_" ++ original
        ++ pystr_of_string "_" ++ str_of_Z unix_time in
      let '(now, w) := datetime_now utc_now w in
      let template_file := template_path saved_template_id in
      if write_succeeds template_file
      then (Returned
              (template_file,
               MatchedTemplate saved_template_id original now template_data),
            w)
      else (Raised OSError, w)
  end.

(** The prompt before the baseline is captured. *)
Definition baseline_prompt : pystr :=
  pystr_of_string "Press Enter when ready to capture baseline...".

(** [start_discovery_session], on the catalog the template manager holds. *)
Definition start_discovery_session (templates : list (pystr * TemplateDocument))
    (s : session) : outcome (bool * option SavedTemplate) * session :=
  let e := {| discovery_steps := []; confidence_scores := ∅ |} in
  let '(ok, w) := start_data_capture socket_connect s.2 in
  if negb ok then (Returned (false, None), (e, w))
  else
    let '(template_result, _, w) := _try_known_templates templates w in
    if known_success template_result
       && fgeb (known_confidence template_result) confidence_threshold
    then
      match template_result with
      | BestResult r =>
          match get_template templates (known_template_id r) with
          | Some template_data =>
              if document_truthy template_data then
                match _save_template_as_discovered template_data w with
                | (Returned (_, saved), w) => (Returned (true, Some saved), (e, w))
                | (Raised exn, w) => (Raised exn, (e, w))
                end
              else (Returned (true, None), (e, w))
          | None => (Returned (true, None), (e, w))
          end
      | _ => (Returned (true, None), (e, w))
      end
    else
      match wait_operator baseline_prompt w with
      | Raised exn => (Raised exn, (e, w))
      | Returned w =>
          let '(r, s) :=
            _capture_baseline utc_now sleep wait_operator write_succeeds
              unix_time local_time confidence_threshold (e, w) in
          (match r with
           | Returned (flag, template) =>
               Returned (flag, option_map DiscoveredTemplate template)
           | Raised exn => Raised exn
           end, s)
      end.

End KnownTemplates.
Arguments TemplateDocument : clear implicits.
Arguments KnownResult : clear implicits.
Arguments KnownTemplatesResult : clear implicits.
Arguments SavedTemplate : clear implicits.
End KnownTemplates.

(** A catalog file: a template with one text field over the first three
    characters of a frame. *)
Definition prefix_template_file : KnownTemplates.TemplateDocument :=
  {| KnownTemplates.document :=
       {| ScaleDiscovery.template_id := Some (pystr_of_string "generic");
          ScaleDiscovery.template_name := Some (pystr_of_string "Generic scale");
          ScaleDiscovery.delimiter := None;
          ScaleDiscovery.fields :=
            Some [ {| ScaleDiscovery.name := pystr_of_string "status";
                      ScaleDiscovery.start := 0;
                      ScaleDiscovery.length := 3;
                      ScaleDiscovery.field_type := pystr_of_string "text";
                      ScaleDiscovery.values := None |} ] |};
     KnownTemplates.manufacturer_info :=
       Some {[ pystr_of_string "brand" := pystr_of_string "Acme" ]};
     KnownTemplates.other_keys := false |}.

(** The file [_save_template] writes for a discovered template ([asdict] and
    [json.dump]) as [json.load] reads it back in [load_templates].  A lookup
    field saved with [values=None] carries ['values': null], which
    [FieldSpec] does not express: such a template has no document here. *)
Module TemplateFiles.
Import ScaleDiscovery KnownTemplates.
Section TemplateFiles.
Context {F : Type} `{PyFloat F}.

Definition field_document (f : ProtocolField) : option FieldSpec :=
  if pystr_eqb (pf_field_type f) (pystr_of_string "lookup")
     && negb (bool_decide (is_Some (pf_values f)))
  then None
  else Some {| name := pf_name f;
               start := pf_start f;
               length := pf_length f;
               field_type := pf_field_type f;
               values := pf_values f |}.

Definition template_document (t : ProtocolTemplate (F := F))
    : option TemplateDocument :=
  match mapM field_document (pt_fields t) with
  | Some template_fields =>
      Some {| document :=
                {| template_id := Some (pt_template_id t);
                   template_name := Some (pt_name t);
                   delimiter := Some (pt_delimiter t);
                   fields := Some template_fields |};
              manufacturer_info := None;
              other_keys := true |}
  | None => None
  end.

End TemplateFiles.
End TemplateFiles.

(* ===================================================================== *)
(** ** [adam_scale_logger.py]: configuration *)
(* ===================================================================== *)

(** The contents of configuration dicts.  Which dict objects are shared is
    modelled separately, in [ConfigObjects]. *)
Module Config.
Section Config.
Context {F : Type} `{PyFloat F}.

(** A value [json.load] returns, or one of the defaults. *)
#[warnings="-register-all"]
Inductive json :=
| JNull
| JBool (b : bool)
| JInt (z : Z)
| JFloat (x : F)
| JStr (s : pystr)
| JList (items : list json)
| JDict (items : list (pystr * json)).

Inductive outcome (A : Type) :=
| Returned (a : A)
| Raised (exception : pystr).
Arguments Returned {A} a.
Arguments Raised {A} exception.

Definition bind {A B} (r : outcome A) (f : A -> outcome B) : outcome B :=
  match r with
  | Returned a => f a
  | Raised exception => Raised exception
  end.

(** [_merge_configs(default, override)], shared with the discovery tool:
    [result] starts as a copy of [default] and takes the items of
    [override] in order. *)
Fixpoint merge_value (default : list (pystr * json)) (override : json)
    : list (pystr * json) :=
  match override with
  | JDict items =>
      fold_left
        (fun result item =>
           PyDict.set result item.1
             match PyDict.get result item.1, item.2 with
             | Some (JDict d), JDict _ => JDict (merge_value d item.2)
             | _, _ => item.2
             end)
        items default
  | _ => default
  end.

Definition _merge_configs (default override : list (pystr * json))
    : list (pystr * json) :=
  merge_value default (JDict override).

(** [config[key]] *)
Definition getitem (config : json) (key : pystr) : outcome json :=
  match config with
  | JDict items =>
      match PyDict.get items key with
      | Some v => Returned v
      | None => Raised (pystr_of_string "KeyError")
      end
  | _ => Raised (pystr_of_string "TypeError")
  end.

(** [config[section][key] = v] *)
Definition setitem2 (config : json) (section key : pystr) (v : json)
    : outcome json :=
  match config with
  | JDict items =>
      match PyDict.get items section with
      | Some (JDict section_items) =>
          Returned (JDict (PyDict.set items section
                             (JDict (PyDict.set section_items key v))))
      | Some _ => Raised (pystr_of_string "TypeError")
      | None => Raised (pystr_of_string "KeyError")
      end
  | _ => Raised (pystr_of_string "TypeError")
  end.

(** [config[section][subsection][key] = v] *)
Definition setitem3 (config : json) (section subsection key : pystr) (v : json)
    : outcome json :=
  bind (getitem config section) (fun section_value =>
  bind (setitem2 section_value subsection key v) (fun section_value =>
  match config with
  | JDict items => Returned (JDict (PyDict.set items section section_value))
  | _ => Raised (pystr_of_string "TypeError")
  end)).

Definition DEFAULT_CONFIG : json :=
  let str s := JStr (pystr_of_string s) in
  let key := pystr_of_string in
  JDict
    [ (key "adam4571",
       JDict [ (key "host", str "192.168.1.101");
               (key "port", JInt 4001);
               (key "timeout", JInt 5);
               (key "reconnect_delay", JFloat (of_int 2));
               (key "buffer_size", JInt 1024);
               (key "read_timeout", JFloat (of_int 1)) ]);
      (key "database",
       JDict [ (key "type", str "sqlite");
               (key "postgresql",
                JDict [ (key "host", str "localhost");
                        (key "port", JInt 5432);
                        (key "database", str "adam_industrial");
                        (key "username", str "adam_user");
                        (key "password", str "adam_password");
                        (key "timeout", JInt 5);
                        (key "pool_size", JInt 5);
                        (key "max_overflow", JInt 10) ]);
               (key "sqlite",
                JDict [ (key "database_file", str "adam_scale_data.db");
                        (key "timeout", JFloat (of_int 30));
                        (key "check_same_thread", JBool false) ]) ]);
      (key "monitoring",
       JDict [ (key "poll_interval", JFloat (of_int 10));
               (key "health_check_interval", JFloat (of_int 60));
               (key "max_consecutive_failures", JInt 5);
               (key "data_retention_days", JInt 90) ]);
      (key "logging",
       JDict [ (key "log_level", str "INFO");
               (key "log_file", str "adam_scale_logger.log");
               (key "max_log_size_mb", JInt 10);
               (key "backup_count", JInt 5);
               (key "structured_logging", JBool true) ]);
      (key "device",
       JDict [ (key "name", str "ADAM-4571-Scale");
               (key "location", str "production_line_1");
               (key "description",
                str "Industrial weight scale monitoring device") ]);
      (key "protocols",
       JDict [ (key "auto_discovery", JBool true);
               (key "template_validation", JBool true);
               (key "confidence_threshold", JFloat (of_int 85)) ]) ].

(** The process environment, the interpreter's [int] and [float] on strings
    ([None] where they raise [ValueError]), and whether [psycopg2] could be
    imported. *)
Variable getenv : pystr -> option pystr.
Variable py_int : pystr -> option Z.
Variable py_float : pystr -> option F.
Variable POSTGRES_AVAILABLE : bool.

(** One [if os.getenv(name): config[...] = convert(os.getenv(name))]. *)
Definition from_env (name : string)
    (convert : pystr -> outcome json)
    (assign : json -> json -> outcome json) (config : json) : outcome json :=
  match getenv (pystr_of_string name) with
  | Some text =>
      if truthy text then bind (convert text) (assign config)
      else Returned config
  | None => Returned config
  end.

Definition env_str (text : pystr) : outcome json := Returned (JStr text).

Definition env_int (text : pystr) : outcome json :=
  match py_int text with
  | Some z => Returned (JInt z)
  | None => Raised (pystr_of_string "ValueError")
  end.

Definition env_float (text : pystr) : outcome json :=
  match py_float text with
  | Some x => Returned (JFloat x)
  | None => Raised (pystr_of_string "ValueError")
  end.

(** [_load_from_environment], on the contents of [DEFAULT_CONFIG]. *)
Definition _load_from_environment (defaults : json) : outcome json :=
  let key := pystr_of_string in
  let set2 section k := fun config v => setitem2 config (key section) (key k) v in
  let set3 section subsection k :=
    fun config v => setitem3 config (key section) (key subsection) (key k) v in
  bind (from_env "ADAM_HOST" env_str (set2 "adam4571" "host") defaults)
  (fun config =>
  bind (from_env "ADAM_PORT" env_int (set2 "adam4571" "port") config)
  (fun config =>
  bind (from_env "DATABASE_TYPE" env_str (set2 "database" "type") config)
  (fun config =>
  bind (from_env "DATABASE_HOST" env_str
          (set3 "database" "postgresql" "host") config)
  (fun config =>
  bind (from_env "DATABASE_PASSWORD" env_str
          (set3 "database" "postgresql" "password") config)
  (fun config =>
  bind (from_env "LOG_LEVEL" env_str (set2 "logging" "log_level") config)
  (fun config =>
  bind (from_env "POLL_INTERVAL" env_float
          (set2 "monitoring" "poll_interval") config)
  (fun config =>
  bind (from_env "DEVICE_NAME" env_str (set2 "device" "name") config)
  (fun config =>
  from_env "DEVICE_LOCATION" env_str (set2 "device" "location") config)))))))).

(** A number as the comparisons of [_validate_config] see it. *)
Definition as_number (v : json) : option F :=
  match v with
  | JInt z => Some (of_int z)
  | JBool b => Some (of_int (if b then 1 else 0))
  | JFloat x => Some x
  | _ => None
  end.

Definition is_str (v : json) (s : string) : bool :=
  match v with
  | JStr t => pystr_eqb t (pystr_of_string s)
  | _ => false
  end.

(** [_validate_config]: the configuration afterwards, or the exception. *)
Definition _validate_config (config : json) : outcome json :=
  let key := pystr_of_string in
  bind (getitem config (key "database")) (fun database =>
  bind (getitem database (key "type")) (fun db_type =>
  if negb (is_str db_type "postgresql" || is_str db_type "sqlite")
  then Raised (pystr_of_string "ValueError")
  else
    bind (if is_str db_type "postgresql" && negb POSTGRES_AVAILABLE
          then setitem2 config (key "database") (key "type")
                 (JStr (pystr_of_string "sqlite"))
          else Returned config) (fun config =>
    bind (getitem config (key "monitoring")) (fun monitoring =>
    bind (getitem monitoring (key "poll_interval")) (fun poll_interval =>
    match as_number poll_interval with
    | None => Raised (pystr_of_string "TypeError")
    | Some x =>
        if fltb x (of_int 1) || fltb (of_int 3600) x
        then Raised (pystr_of_string "ValueError")
        else Returned config
    end))))).

(** [ConfigManager.__init__]: [config_file] is [None] without a path or when
    no file exists there, [Some None] for a file that is not valid JSON, and
    otherwise what [json.load] returns; a document that is not an object has
    no [items]. *)
Definition init (config_file : option (option json)) : outcome json :=
  bind (_load_from_environment DEFAULT_CONFIG) (fun config =>
  bind (match config_file with
        | Some (Some file_config) =>
            match config, file_config with
            | JDict default, JDict override =>
                Returned (JDict (_merge_configs default override))
            | _, _ => Raised (pystr_of_string "AttributeError")
            end
        | _ => Returned config
        end)
    _validate_config).

(** The object [DatabaseFactory.create_database] builds, with the section of
    the configuration its constructor keeps. *)
Inductive database :=
| PostgreSQLDatabase (section : json)
| SQLiteDatabase (section : json).

Definition create_database (config : json) : outcome database :=
  let key := pystr_of_string in
  bind (getitem config (key "database")) (fun database_section =>
  bind (getitem database_section (key "type")) (fun db_type =>
  if is_str db_type "postgresql" then
    bind (getitem database_section (key "postgresql"))
      (fun section => Returned (PostgreSQLDatabase section))
  else if is_str db_type "sqlite" then
    bind (getitem database_section (key "sqlite"))
      (fun section => Returned (SQLiteDatabase section))
  else Raised (pystr_of_string "ValueError"))).

End Config.
Arguments json : clear implicits.
Arguments database : clear implicits.
Arguments Returned {A} a.
Arguments Raised {A} exception.
End Config.

(** [config[k1][k2]...]: the value at the end of a path of keys. *)
Fixpoint get_path {F} (config : Config.json F) (path : list pystr)
    : option (Config.json F) :=
  match path with
  | [] => Some config
  | key :: rest =>
      match config with
      | Config.JDict items =>
          match PyDict.get items key with
          | Some v => get_path v rest
          | None => None
          end
      | _ => None
      end
  end.

(** A value as [json.load] builds it: the keys of every object are
    distinct. *)
Fixpoint json_wf {F} (v : Config.json F) : Prop :=
  match v with
  | Config.JDict items =>
      NoDup (map fst items)
      /\ fold_right (fun item rest => json_wf item.2 /\ rest) True items
  | Config.JList items => fold_right (fun item rest => json_wf item /\ rest) True items
  | _ => True
  end.

Definition is_dict {F} (v : Config.json F) : bool :=
  match v with Config.JDict _ => true | _ => false end.

(** The file is silent on [path]: following it, a key is missing from an
    object of the file. *)
Fixpoint silent_on {F} (config : Config.json F) (path : list pystr) : Prop :=
  match path with
  | [] => False
  | key :: rest =>
      match config with
      | Config.JDict items =>
          match PyDict.get items key with
          | Some v => silent_on v rest
          | None => True
          end
      | _ => False
      end
  end.

(** The configuration holds a ['database'] section with its three keys. *)
Definition has_database {F} (config : Config.json F) : Prop :=
  exists items db,
    config = Config.JDict items
    /\ PyDict.get items (pystr_of_string "database") = Some (Config.JDict db)
    /\ is_Some (PyDict.get db (pystr_of_string "type"))
    /\ is_Some (PyDict.get db (pystr_of_string "postgresql"))
    /\ is_Some (PyDict.get db (pystr_of_string "sqlite")).

(** The items of the defaults, and a configuration file that sets the poll
    interval and the database type. *)
Definition default_items : list (pystr * Config.json Q) :=
  match Config.DEFAULT_CONFIG with
  | Config.JDict items => items
  | _ => []
  end.

Definition poll_override : list (pystr * Config.json Q) :=
  [ (pystr_of_string "monitoring",
     Config.JDict [ (pystr_of_string "poll_interval", Config.JInt 30) ]);
    (pystr_of_string "database",
     Config.JDict [ (pystr_of_string "type",
                     Config.JStr (pystr_of_string "postgresql")) ]) ].

(** An environment that sets [POLL_INTERVAL] only, and conversions that
    know the one text used. *)
Definition poll_environment (name : pystr) : option pystr :=
  if pystr_eqb name (pystr_of_string "POLL_INTERVAL")
  then Some (pystr_of_string "2.5") else None.

Definition no_int (text : pystr) : option Z := None.

Definition float_2_5 (text : pystr) : option Q :=
  if pystr_eqb text (pystr_of_string "2.5") then Some (5 # 2) else None.

(** The dict objects behind a configuration.  [DEFAULT_CONFIG] is one dict
    object of the class; its sections are dict objects of their own, which a
    shallow [copy] shares. *)
Module ConfigObjects.
Import Config.
Section ConfigObjects.
Context {F : Type} `{PyFloat F}.

(** What a dict object holds under a key: a reference to a dict object, or
    a value that is no dict. *)
Inductive field :=
| Ref (l : loc)
| Val (v : json F).

Local Abbreviation objects := (gmap loc (list (pystr * field))).

(** A statement: it changes objects, and it returns or raises. *)
Definition run (A : Type) : Type := objects -> outcome A * objects.

Definition ret {A} (a : A) : run A := fun h => (Returned a, h).

Definition raise {A} (exception : string) : run A :=
  fun h => (Raised (pystr_of_string exception), h).

Definition then_ {A B} (m : run A) (f : A -> run B) : run B :=
  fun h =>
    match m h with
    | (Returned a, h) => f a h
    | (Raised exception, h) => (Raised exception, h)
    end.

(** [d.copy()]: a new dict object with the items of [d]. *)
Definition dict_copy (d : loc) : run loc :=
  fun h =>
    let l := fresh (dom h) in
    (Returned l, <[l := default [] (h !! d)]> h).

(** [d[key]], to be subscripted again. *)
Definition subdict (d : loc) (key : pystr) : run loc :=
  fun h =>
    match PyDict.get (default [] (h !! d)) key with
    | Some (Ref s) => (Returned s, h)
    | Some (Val _) => (Raised (pystr_of_string "TypeError"), h)
    | None => (Raised (pystr_of_string "KeyError"), h)
    end.

(** [d[key] = v] for a value that is no dict. *)
Definition setitem (d : loc) (key : pystr) (v : json F) : run unit :=
  fun h => (Returned tt, <[d := PyDict.set (default [] (h !! d)) key (Val v)]> h).

(** [config[k1]...[kn][key] = v] *)
Fixpoint assign (config : loc) (path : list pystr) (key : pystr) (v : json F)
    : run unit :=
  match path with
  | [] => setitem config key v
  | k :: rest => then_ (subdict config k) (fun d => assign d rest key v)
  end.

Variable getenv : pystr -> option pystr.
Variable py_int : pystr -> option Z.
Variable py_float : pystr -> option F.

Definition convert (conversion : pystr -> outcome (json F)) (text : pystr)
    : run (json F) :=
  fun h => (conversion text, h).

(** One [if os.getenv(name): config[...][key] = conversion(os.getenv(name))]. *)
Definition from_env (name : string) (conversion : pystr -> outcome (json F))
    (path : list string) (key : string) (config : loc) : run unit :=
  match getenv (pystr_of_string name) with
  | Some text =>
      if truthy text then
        then_ (convert conversion text)
          (assign config (map pystr_of_string path) (pystr_of_string key))
      else ret tt
  | None => ret tt
  end.

(** [_load_from_environment], on the dict object [DEFAULT_CONFIG]. *)
Definition _load_from_environment (DEFAULT_CONFIG : loc) : run loc :=
  then_ (dict_copy DEFAULT_CONFIG) (fun config =>
  then_ (from_env "ADAM_HOST" env_str ["adam4571"] "host" config) (fun _ =>
  then_ (from_env "ADAM_PORT" (env_int py_int) ["adam4571"] "port" config) (fun _ =>
  then_ (from_env "DATABASE_TYPE" env_str ["database"] "type" config) (fun _ =>
  then_ (from_env "DATABASE_HOST" env_str ["database"; "postgresql"] "host" config)
  (fun _ =>
  then_ (from_env "DATABASE_PASSWORD" env_str ["database"; "postgresql"] "password"
           config) (fun _ =>
  then_ (from_env "LOG_LEVEL" env_str ["logging"] "log_level" config) (fun _ =>
  then_ (from_env "POLL_INTERVAL" (env_float py_float) ["monitoring"]
           "poll_interval" config) (fun _ =>
  then_ (from_env "DEVICE_NAME" env_str ["device"] "name" config) (fun _ =>
  then_ (from_env "DEVICE_LOCATION" env_str ["device"] "location" config) (fun _ =>
  ret config)))))))))).

(** The dict objects of a value: those of its items first, then its own. *)
Fixpoint alloc_value (v : json F) (h : objects) : field * objects :=
  match v with
  | JDict items =>
      let '(fields, h) :=
        fold_left
          (fun state item =>
             let '(f, h) := alloc_value item.2 state.2 in
             (state.1 ++ [(item.1, f)], h))
          items ([], h) in
      let l := fresh (dom h) in
      (Ref l, <[l := fields]> h)
  | _ => (Val v, h)
  end.

(** [config[k1]...[kn]] *)
Fixpoint read (h : objects) (config : loc) (path : list pystr) : option field :=
  match path with
  | [] => Some (Ref config)
  | key :: rest =>
      match PyDict.get (default [] (h !! config)) key with
      | Some (Ref d) => read h d rest
      | Some (Val v) => match rest with [] => Some (Val v) | _ => None end
      | None => None
      end
  end.

(** No dict object holds a reference to [d], and every reference held leads
    to a dict object. *)
Definition refs_ok (h : objects) (d : loc) : bool :=
  forallb
    (fun object =>
       forallb
         (fun item =>
            match item.2 with
            | Ref p => negb (bool_decide (p = d)) && bool_decide (is_Some (h !! p))
            | Val _ => true
            end)
         object.2)
    (map_to_list h).

End ConfigObjects.
Arguments field : clear implicits.
End ConfigObjects.

Abbreviation config_objects F := (gmap loc (list (pystr * ConfigObjects.field F))).

(** The objects of [DEFAULT_CONFIG] as the class body builds them. *)
Definition default_objects : ConfigObjects.field Q * config_objects Q :=
  ConfigObjects.alloc_value Config.DEFAULT_CONFIG ∅.

Definition default_config_object : loc :=
  match default_objects.1 with
  | ConfigObjects.Ref l => l
  | ConfigObjects.Val _ => 1%positive
  end.

(** An environment that sets [ADAM_HOST] only, and the empty one. *)
Definition host_environment (name : pystr) : option pystr :=
  if pystr_eqb name (pystr_of_string "ADAM_HOST")
  then Some (pystr_of_string "10.0.0.9") else None.

Definition empty_environment (name : pystr) : option pystr := None.

(** The tests of the known templates while capture threads are running.
    [test_template] reads [connected] twice, in its own check and in
    [start_data_capture]; every earlier test that got that far left a capture
    thread running, and a capture thread that meets a closed connection or a
    socket error sets [connected = False], possibly between the two reads.
    [threads w] is the manager as the running capture threads leave it
    between the two reads; what they do at other times is part of [sleep]. *)
Module Concurrent.
Import Link ScaleDiscovery KnownTemplates.
Section Concurrent.
Context {F : Type} `{PyFloat F} `{PyFloatGe F}.
Variable threads : world F -> world F.
Variable utc_now : nat -> F.
Variable socket_connect : nat -> bool.
Variable sleep : F -> world F -> world F.

(** [test_template] *)
Definition test_template (template_data : TemplateData) (test_duration : F)
    (w : world F) : TestResult * world F :=
  let '(ok, w) :=
    if connected (self w) then (true, w) else connect socket_connect w in
  if negb ok then (TestFailed 0 connection_failed, w)
  else
    let w := threads w in
    let '(ok, w) := start_data_capture socket_connect w in
    if negb ok then (TestFailed 0 data_capture_failed, w)
    else
      let w := clear_buffer w in
      let w := sleep test_duration w in
      let '(test_data, w) :=
        get_recent_data utc_now (fadd test_duration (of_int 1)) w in
      let test_data := deref (store w) test_data in
      if negb (truthy test_data) then (TestFailed 0 no_data_received, w)
      else (TestAnalysed (_analyze_template_match template_data test_data), w).

(** The [for template_id, template_data in templates.items()] loop of
    [_try_known_templates]. *)
Fixpoint try_templates (templates : list (pystr * TemplateDocument))
    (best_result : KnownTemplatesResult F) (test_results : list (KnownResult F))
    (w : world F)
    : KnownTemplatesResult F * list (KnownResult F) * world F :=
  match templates with
  | [] => (best_result, test_results, w)
  | (template_id, template_data) :: rest =>
      let '(result, w) :=
        test_template (document template_data) (of_int 5) w in
      let result :=
        {| tested := result;
           known_template_id := template_id;
           known_template_name :=
             default template_id (template_name (document template_data));
           brand := brand_of template_data |} in
      let test_results := test_results ++ [result] in
      let best_result :=
        if result_success result
           && fltb (known_confidence best_result) (result_confidence result)
        then BestResult result else best_result in
      if fgeb (result_confidence result) (of_int 95)
      then (best_result, test_results, w)
      else try_templates rest best_result test_results w
  end.

(** [_try_known_templates] *)
Definition _try_known_templates (templates : list (pystr * TemplateDocument))
    (w : world F)
    : KnownTemplatesResult F * list (KnownResult F) * world F :=
  if negb (truthy templates) then (NoTemplates, [], w)
  else try_templates templates NoneSucceeded [] w.

End Concurrent.
End Concurrent.

(** A test that started its capture: its result is neither the failure
    "Connection failed" nor the failure "Data capture failed". *)
Definition started_capture {F} (r : KnownTemplates.KnownResult F) : bool :=
  match KnownTemplates.tested r with
  | ScaleDiscovery.TestFailed _ error =>
      negb (pystr_eqb error ScaleDiscovery.connection_failed)
      && negb (pystr_eqb error ScaleDiscovery.data_capture_failed)
  | ScaleDiscovery.TestAnalysed _ => true
  end.

(** Capture threads that do nothing between the two reads, and capture
    threads that find the connection closed there. *)
Definition idle_threads {F} (w : ScaleDiscovery.world F) : ScaleDiscovery.world F :=
  w.

Definition closing_threads (w : ScaleDiscovery.world Q) : ScaleDiscovery.world Q :=
  if (0 <? ScaleDiscovery.capture_threads w)%nat
  then ScaleDiscovery.set_connected false w
  else w.

(** A device that accepts the first connection only. *)
Definition connects_once (n : nat) : bool := (n =? 0)%nat.

(** A catalog of two templates, and a manager whose link is down. *)
Definition two_templates : list (pystr * KnownTemplates.TemplateDocument) :=
  [ (pystr_of_string "first", prefix_template_file);
    (pystr_of_string "second", prefix_template_file) ].

Definition discovery_world_down : ScaleDiscovery.world Q :=
  {| ScaleDiscovery.self :=
       {| ScaleDiscovery.connected := false;
          ScaleDiscovery._running := false;
          ScaleDiscovery._data_buffer := 1%positive |};
     ScaleDiscovery.store := {[ 1%positive := [] ]};
     ScaleDiscovery.now_calls := 0;
     ScaleDiscovery.connect_calls := 0;
     ScaleDiscovery.capture_threads := 0 |}.

(** A database that stores every row offered. *)
Definition stores_every_row (n : nat) : bool := true.

(** The engine as [_finalize_discovery] finds it in a session.
    [start_discovery_session] empties the list of steps and the scores;
    [_capture_baseline] records the baseline step from a reading that is not
    empty; [_run_weight_tests] records each weight step that captured data
    and has [_calculate_confidence] follow it.  A weight step without data
    and the exit of the weight loop leave the engine as it is.  The manager,
    the clock and what the capture thread does are arbitrary at each step. *)
Inductive at_synthesis {F} `{PyFloat F}
    : ScaleDiscovery.ProtocolDiscoveryEngine (F := F) -> Prop :=
| baseline_recorded utc_now sleep w s :
    DiscoverySession.capture_step utc_now sleep (of_int 5) (of_int 6) 1
      (pystr_of_string "baseline") (of_int 0)
      ({| ScaleDiscovery.discovery_steps := [];
          ScaleDiscovery.confidence_scores := ∅ |}, w)
    = (true, s) ->
    at_synthesis s.1
| weight_recorded utc_now sleep e w step_number weight s :
    at_synthesis e ->
    DiscoverySession._capture_weight_step utc_now sleep step_number
      (pystr_of_string "add_weight") weight (e, w)
    = (true, s) ->
    at_synthesis (ScaleDiscovery._calculate_confidence s.1).

(** The session after a baseline of two frames, and after one weight step
    more. *)
Definition session_after_baseline
    : ScaleDiscovery.ProtocolDiscoveryEngine (F := Q) * ScaleDiscovery.world Q :=
  (DiscoverySession.capture_step clock_seconds two_frames_per_sleep 5%Q 6%Q 1
     (pystr_of_string "baseline") 0%Q (fresh_engine, discovery_world0)).2.

Definition session_after_weight
    : ScaleDiscovery.ProtocolDiscoveryEngine (F := Q) * ScaleDiscovery.world Q :=
  (DiscoverySession._capture_weight_step clock_seconds two_frames_per_sleep 2
     (pystr_of_string "add_weight") 1%Q session_after_baseline).2.

Definition engine_after_two_steps : ScaleDiscovery.ProtocolDiscoveryEngine (F := Q) :=
  ScaleDiscovery._calculate_confidence session_after_weight.1.

(** The operator confirms the first weight prompt and interrupts at the
    second one. *)
Definition interrupts_at_second_weight (prompt : pystr)
    (w : ScaleDiscovery.world Q)
    : ScaleDiscovery.outcome (ScaleDiscovery.world Q) :=
  if (ScaleDiscovery.now_calls w <=? 5)%nat then ScaleDiscovery.Returned w
  else ScaleDiscovery.Raised (pystr_of_string "KeyboardInterrupt").

(* ===================================================================== *)
(** ** Properties of the string operations *)
(* ===================================================================== *)

Section StringFacts.

Lemma lstrip_Forall (P : N -> Prop) s : Forall P s -> Forall P (lstrip s).
Proof.
  induction 1 as [|c s Hc Hs IH]; simpl; [constructor|].
  destruct (is_space c); [exact IH | constructor; assumption].
Qed.

Lemma strip_Forall (P : N -> Prop) s : Forall P s -> Forall P (strip s).
Proof.
  intros Hs. unfold strip, rstrip.
  apply Forall_rev, lstrip_Forall, Forall_rev, lstrip_Forall, Hs.
Qed.

Lemma lstrip_idempotent s : lstrip (lstrip s) = lstrip s.
Proof.
  induction s as [|c s IH]; simpl; [reflexivity|].
  destruct (is_space c) eqn:Hc; [exact IH | simpl; rewrite Hc; reflexivity].
Qed.

Lemma lstrip_snoc s c :
  lstrip (s ++ [c]) =
  match lstrip s with
  | [] => if is_space c then [] else [c]
  | r => r ++ [c]
  end.
Proof.
  induction s as [|d s IH]; simpl; [reflexivity|].
  destruct (is_space d); [exact IH | reflexivity].
Qed.

Lemma rstrip_cons c s :
  rstrip (c :: s) =
  match rstrip s with
  | [] => if is_space c then [] else [c]
  | r => c :: r
  end.
Proof.
  unfold rstrip. simpl. rewrite lstrip_snoc.
  destruct (lstrip (rev s)) as [|d r] eqn:E; simpl.
  - destruct (is_space c); reflexivity.
  - rewrite rev_app_distr. simpl.
    destruct (rev r ++ [d]) eqn:E'; [|reflexivity].
    destruct (rev r); discriminate.
Qed.

Lemma rstrip_idempotent s : rstrip (rstrip s) = rstrip s.
Proof.
  unfold rstrip. rewrite rev_involutive, lstrip_idempotent. reflexivity.
Qed.

Lemma lstrip_rstrip s : lstrip (rstrip s) = rstrip (lstrip s).
Proof.
  induction s as [|c s IH]; [reflexivity|].
  rewrite rstrip_cons. simpl lstrip at 2.
  destruct (rstrip s) as [|d r] eqn:E.
  - destruct (is_space c) eqn:Hc; simpl.
    + rewrite <- IH. reflexivity.
    + rewrite Hc, rstrip_cons, E, Hc. reflexivity.
  - simpl. destruct (is_space c) eqn:Hc.
    + rewrite <- IH. reflexivity.
    + rewrite rstrip_cons, E. reflexivity.
Qed.

Lemma strip_idempotent s : strip (strip s) = strip s.
Proof.
  unfold strip.
  rewrite lstrip_rstrip, lstrip_idempotent, rstrip_idempotent. reflexivity.
Qed.

Lemma emit_frame_ok line d : no_crlf line -> In d (emit line) -> frame_ok d.
Proof.
  unfold emit. intros Hl Hd.
  destruct (truthy (strip line)) eqn:E; [|destruct Hd].
  destruct Hd as [<-|[]]. split; [apply strip_idempotent|]. split.
  - rewrite strip_idempotent. exact E.
  - apply strip_Forall, Hl.
Qed.

End StringFacts.

(* ===================================================================== *)
(** ** The string operations on small inputs *)
(* ===================================================================== *)

Example re_split_two_lines :
  re_split_crlf (pystr_of_string "ab" ++ [CR; LF] ++ pystr_of_string "cd" ++ [LF])
  = [pystr_of_string "ab"; pystr_of_string "cd"; []].
Proof. reflexivity. Qed.

Example re_split_leading_delimiter :
  re_split_crlf ([CR; LF] ++ pystr_of_string "cd") = [[]; pystr_of_string "cd"].
Proof. reflexivity. Qed.

Example re_split_empty : re_split_crlf [] = [[]].
Proof. reflexivity. Qed.

Example strip_both_sides :
  strip (pystr_of_string "  ab c " ++ [9; CR; LF]) = pystr_of_string "ab c".
Proof. reflexivity. Qed.

Example endswith_newline :
  endswith (pystr_of_string "ab" ++ [LF]) [LF] = true
  /\ endswith (pystr_of_string "ab") [LF] = false.
Proof. split; reflexivity. Qed.

Example slice_clips_to_the_end :
  py_slice (pystr_of_string "abcdefgh") 5 15 = pystr_of_string "fgh".
Proof. reflexivity. Qed.

Example slice_negative_start :
  py_slice (pystr_of_string "abcdefgh") (-3) (-1) = pystr_of_string "fg"
  /\ py_slice (pystr_of_string "abcdefgh") (-2) 0 = [].
Proof. split; reflexivity. Qed.

Example slice_last_500_of_short_list :
  py_slice_from (pystr_of_string "ab") (-500) = pystr_of_string "ab".
Proof. reflexivity. Qed.

Example replace_escaped_cr :
  replace (pystr_of_string "a\r\nb\r") [92; 114] [CR]
  = [97; CR; 92; 110; 98; CR].
Proof. reflexivity. Qed.

Example float_literals_accepted :
  forallb is_float_literal
    [pystr_of_string "12.345"; pystr_of_string "1_000.5e-3";
     pystr_of_string "1."; pystr_of_string ".5"; pystr_of_string "-inf";
     pystr_of_string "NaN"; pystr_of_string "+.5E+1_0"; pystr_of_string " 12 "]
  = true.
Proof. reflexivity. Qed.

Example float_literals_rejected :
  existsb is_float_literal
    [pystr_of_string "."; pystr_of_string "1e"; pystr_of_string "1__0";
     pystr_of_string "abc"; []; pystr_of_string "1_"; pystr_of_string "1 2";
     pystr_of_string "0x10"; pystr_of_string "12.345kg"]
  = false.
Proof. reflexivity. Qed.

Example decode_replaces_high_bytes :
  Link.decode_ascii_replace [x41; xe9; x0a]%byte = [65; REPLACEMENT_CHARACTER; LF].
Proof. reflexivity. Qed.

(* ===================================================================== *)
(** ** Properties of the line splitting *)
(* ===================================================================== *)

Section SplitFacts.

Lemma re_split_from_not_nil cur b s : re_split_from cur b s <> [].
Proof.
  revert cur b. induction s as [|c s IH]; intros cur b; simpl; [discriminate|].
  destruct (is_crlf c); [destruct b|]; auto; discriminate.
Qed.

Lemma removelast_cons_not_nil {A} (x : A) l :
  l <> [] -> removelast (x :: l) = x :: removelast l.
Proof. destruct l; [congruence | reflexivity]. Qed.

Lemma last_cons_not_nil {A} (x d : A) l :
  l <> [] -> List.last (x :: l) d = List.last l d.
Proof. destruct l; [congruence | reflexivity]. Qed.

(** The frames of the lines before the last one are those of the one-pass
    reading. *)
Lemma split_frames cur b s :
  (b = true -> cur = []) ->
  flat_map emit (removelast (re_split_from cur b s)) = scan_frames cur s.
Proof.
  revert cur b. induction s as [|c s IH]; intros cur b Hb; simpl; [reflexivity|].
  destruct (is_crlf c).
  - destruct b.
    + rewrite (Hb eq_refl). simpl. apply IH. reflexivity.
    + rewrite removelast_cons_not_nil by apply re_split_from_not_nil.
      simpl. f_equal. apply IH. reflexivity.
  - apply IH. discriminate.
Qed.

(** The last line is the text left unterminated. *)
Lemma split_carry cur b s :
  last_line (re_split_from cur b s) = scan_carry cur s.
Proof.
  unfold last_line. revert cur b.
  induction s as [|c s IH]; intros cur b; simpl; [reflexivity|].
  destruct (is_crlf c).
  - destruct b; [apply IH|].
    rewrite last_cons_not_nil by apply re_split_from_not_nil. apply IH.
  - apply IH.
Qed.

Lemma scan_frames_app cur s t :
  scan_frames cur (s ++ t) = scan_frames cur s ++ scan_frames (scan_carry cur s) t.
Proof.
  revert cur. induction s as [|c s IH]; intros cur; simpl; [reflexivity|].
  destruct (is_crlf c); rewrite IH; [rewrite app_assoc|]; reflexivity.
Qed.

Lemma scan_carry_app cur s t :
  scan_carry cur (s ++ t) = scan_carry (scan_carry cur s) t.
Proof.
  revert cur. induction s as [|c s IH]; intros cur; simpl; [reflexivity|].
  destruct (is_crlf c); apply IH.
Qed.

(** Text without CR/LF only extends the unterminated line. *)
Lemma scan_frames_shift cur p s :
  no_crlf p -> scan_frames cur (p ++ s) = scan_frames (cur ++ p) s.
Proof.
  intros Hp. revert cur.
  induction Hp as [|c p Hc Hp IH]; intros cur; simpl.
  - rewrite app_nil_r. reflexivity.
  - rewrite Hc, IH, <- app_assoc. reflexivity.
Qed.

Lemma scan_carry_shift cur p s :
  no_crlf p -> scan_carry cur (p ++ s) = scan_carry (cur ++ p) s.
Proof.
  intros Hp. revert cur.
  induction Hp as [|c p Hc Hp IH]; intros cur; simpl.
  - rewrite app_nil_r. reflexivity.
  - rewrite Hc, IH, <- app_assoc. reflexivity.
Qed.

Lemma scan_carry_no_crlf cur s : no_crlf cur -> no_crlf (scan_carry cur s).
Proof.
  revert cur. induction s as [|c s IH]; intros cur Hcur; simpl; [exact Hcur|].
  destruct (is_crlf c) eqn:Hc; apply IH; [constructor|].
  apply Forall_app. split; [exact Hcur | repeat constructor; exact Hc].
Qed.

Lemma scan_frames_ok cur s d :
  no_crlf cur -> In d (scan_frames cur s) -> frame_ok d.
Proof.
  revert cur. induction s as [|c s IH]; intros cur Hcur Hd; simpl in Hd.
  - destruct Hd.
  - destruct (is_crlf c) eqn:Hc.
    + apply in_app_or in Hd. destruct Hd as [Hd|Hd].
      * eapply emit_frame_ok; eassumption.
      * apply (IH []); [constructor | exact Hd].
    + apply (IH (cur ++ [c])); [|exact Hd].
      apply Forall_app. split; [exact Hcur | repeat constructor; exact Hc].
Qed.

Lemma pystr_eqb_eq s t : pystr_eqb s t = true <-> s = t.
Proof.
  revert t. induction s as [|c s IH]; intros [|d t]; simpl;
    try (split; [discriminate | congruence]); [tauto|].
  rewrite andb_true_iff, N.eqb_eq, IH. split; [intros []|intros [=]]; subst; auto.
Qed.

Lemma endswith_char s c :
  endswith s [c] = true -> exists s0, s = s0 ++ [c].
Proof.
  unfold endswith. intros Hs. apply andb_true_iff in Hs as [_ Hs].
  apply pystr_eqb_eq in Hs.
  exists (firstn (List.length s - 1) s).
  pose proof (firstn_skipn (List.length s - 1) s) as E.
  simpl in Hs. rewrite Hs in E. symmetry. exact E.
Qed.

(** Text that ends on a line boundary leaves nothing unterminated. *)
Lemma scan_carry_boundary cur s :
  endswith s [CR] || endswith s [LF] = true -> scan_carry cur s = [].
Proof.
  intros Hs. apply orb_true_iff in Hs.
  destruct Hs as [Hs|Hs]; apply endswith_char in Hs as [s0 ->];
    rewrite scan_carry_app; reflexivity.
Qed.

(** The two results of the framing statements, in one-pass form. *)
Lemma framing_carry partial_data :
  (if negb (endswith partial_data [CR] || endswith partial_data [LF])
   then last_line (re_split_crlf partial_data) else [])
  = scan_carry [] partial_data.
Proof.
  destruct (endswith partial_data [CR] || endswith partial_data [LF]) eqn:E; simpl.
  - symmetry. apply scan_carry_boundary, E.
  - apply split_carry.
Qed.

Lemma framing_frames partial_data :
  flat_map emit (removelast (re_split_crlf partial_data))
  = scan_frames [] partial_data.
Proof. apply split_frames. discriminate. Qed.

End SplitFacts.


(* ===================================================================== *)
(** ** The store of list objects *)
(* ===================================================================== *)

Section StoreFacts.
Context {F : Type}.
Implicit Types (h : Link.heap F) (l : loc) (e : Link.entry F).

Lemma deref_lookup h l v : h !! l = Some v -> Link.deref h l = v.
Proof. unfold Link.deref. intros ->. reflexivity. Qed.

Lemma lookup_list_append h l e v :
  h !! l = Some v -> Link.list_append l e h !! l = Some (v ++ [e]).
Proof. intros Hl. unfold Link.list_append. rewrite lookup_alter_eq, Hl. reflexivity. Qed.

Lemma lookup_list_append_ne h l l' e :
  l <> l' -> Link.list_append l e h !! l' = h !! l'.
Proof. intros Hl. unfold Link.list_append. apply lookup_alter_ne, Hl. Qed.

Lemma lookup_list_clear h l v :
  h !! l = Some v -> Link.list_clear l h !! l = Some [].
Proof. intros Hl. unfold Link.list_clear. rewrite lookup_alter_eq, Hl. reflexivity. Qed.

Lemma alloc_fresh h v : h !! (Link.alloc v h).1 = None.
Proof. simpl. apply not_elem_of_dom, is_fresh. Qed.

Lemma alloc_lookup h v : (Link.alloc v h).2 !! (Link.alloc v h).1 = Some v.
Proof. simpl. apply lookup_insert_eq. Qed.

Lemma alloc_preserves h v l x :
  h !! l = Some x -> (Link.alloc v h).2 !! l = Some x.
Proof.
  intros Hl. simpl. rewrite lookup_insert_ne; [exact Hl|].
  intros E. pose proof (alloc_fresh h v) as Hf. simpl in Hf.
  rewrite E in Hf. congruence.
Qed.

Lemma alloc_ne h v l x : h !! l = Some x -> (Link.alloc v h).1 <> l.
Proof.
  intros Hl E. pose proof (alloc_fresh h v) as Hf. rewrite E in Hf. congruence.
Qed.

End StoreFacts.

(* ===================================================================== *)
(** ** The capture loop of the discovery tool *)
(* ===================================================================== *)

Section DiscoveryCapture.
Import Link ScaleDiscovery.
Context {F : Type} `{PyFloat F}.
Variable utc_now : nat -> F.
Implicit Types (w : world F) (buf : list (entry F)).

Local Abbreviation holds := discovery_holds.

Lemma holds_buffer w buf : holds w buf -> buffer w = buf.
Proof. apply deref_lookup. Qed.

Lemma capture_line_spec w buf line :
  holds w buf ->
  let w' := capture_line utc_now w line in
  self w' = self w /\
  exists new, holds w' (buf ++ new) /\ frame_texts new = emit line.
Proof.
  intros Hw. unfold capture_line, emit.
  destruct (truthy (strip line)); simpl.
  - split; [reflexivity|].
    exists [{| data := strip line; timestamp := utc_now (now_calls w) |}].
    split; [|reflexivity]. unfold holds. simpl. apply lookup_list_append, Hw.
  - split; [reflexivity|]. exists []. rewrite app_nil_r. split; [exact Hw | reflexivity].
Qed.

Lemma capture_lines_spec lines w buf :
  holds w buf ->
  let w' := fold_left (capture_line utc_now) lines w in
  self w' = self w /\
  exists new, holds w' (buf ++ new) /\ frame_texts new = flat_map emit lines.
Proof.
  revert w buf. induction lines as [|line lines IH]; intros w buf Hw; simpl.
  - split; [reflexivity|]. exists []. rewrite app_nil_r. split; [exact Hw | reflexivity].
  - destruct (capture_line_spec w buf line Hw) as [Hs (new1 & H1 & Hn1)].
    destruct (IH _ _ H1) as [Hs' (new2 & H2 & Hn2)].
    split; [congruence|].
    exists (new1 ++ new2). rewrite app_assoc. split; [exact H2|].
    unfold frame_texts in *. rewrite map_app, Hn1, Hn2. reflexivity.
Qed.

(** One non-empty read: the carry-over and the frames, in one-pass form. *)
Lemma capture_received_spec partial_data recv_data w buf :
  holds w buf ->
  let text := partial_data ++ decode_ascii_replace recv_data in
  let r := capture_received utc_now partial_data recv_data w in
  r.1 = scan_carry [] text /\
  self r.2 = self w /\
  exists new, holds r.2 (buf ++ new) /\ frame_texts new = scan_frames [] text.
Proof.
  intros Hw. unfold capture_received. cbn [fst snd].
  split; [apply framing_carry|].
  destruct (capture_lines_spec
              (removelast (re_split_crlf (partial_data ++ decode_ascii_replace recv_data)))
              w buf Hw) as [Hs (new & Hn & Ht)].
  split; [exact Hs|]. exists new. split; [exact Hn|].
  rewrite Ht. apply framing_frames.
Qed.

Lemma decode_app a b :
  decode_ascii_replace (a ++ b) = decode_ascii_replace a ++ decode_ascii_replace b.
Proof. apply map_app. Qed.

Lemma capture_loop_from_cons partial_data r recvs w :
  capture_loop_from utc_now partial_data (r :: recvs) w =
  if negb (_running (self w) && connected (self w)) then w
  else
    match r with
    | RecvTimeout => capture_loop_from utc_now partial_data recvs w
    | RecvError => set_connected false w
    | RecvData recv_data =>
        if negb (truthy recv_data) then set_connected false w
        else
          capture_loop_from utc_now
            (capture_received utc_now partial_data recv_data w).1 recvs
            (capture_received utc_now partial_data recv_data w).2
    end.
Proof. reflexivity. Qed.

(** Whatever the capture loop reads, the buffer stays bound to the same list
    object, which only grows, by well-formed frames. *)
Lemma capture_loop_grows recvs partial_data w buf :
  holds w buf ->
  let w' := capture_loop_from utc_now partial_data recvs w in
  _data_buffer (self w') = _data_buffer (self w) /\
  exists new, holds w' (buf ++ new) /\ Forall frame_ok (frame_texts new).
Proof.
  revert partial_data w buf.
  induction recvs as [|r recvs IH]; intros partial_data w buf Hw.
  - simpl. destruct (negb _); (split; [reflexivity|]); exists []; rewrite app_nil_r;
      (split; [exact Hw | constructor]).
  - rewrite capture_loop_from_cons.
    destruct (negb (_running (self w) && connected (self w))).
    { split; [reflexivity|]. exists []. rewrite app_nil_r. split; [exact Hw | constructor]. }
    destruct r as [recv_data | |].
    + destruct (negb (truthy recv_data)).
      { split; [reflexivity|]. exists []. rewrite app_nil_r. split; [exact Hw | constructor]. }
      destruct (capture_received_spec partial_data recv_data w buf Hw)
        as (Hp & Hs & new1 & H1 & Hn1).
      destruct (capture_received utc_now partial_data recv_data w) as [p' w1].
      simpl in *.
      destruct (IH p' w1 _ H1) as (Hb & new2 & H2 & Hn2).
      split; [congruence|].
      exists (new1 ++ new2). rewrite app_assoc. split; [exact H2|].
      unfold frame_texts in *. rewrite map_app. apply Forall_app. split; [|exact Hn2].
      rewrite Hn1. apply List.Forall_forall. intros d Hd.
      eapply (scan_frames_ok []); [constructor | exact Hd].
    + apply IH, Hw.
    + split; [reflexivity|]. exists []. rewrite app_nil_r. split; [exact Hw | constructor].
Qed.

(** With the link up and only non-empty reads, the frames appended are those
    of the one-pass reading of all the bytes. *)
Lemma capture_loop_frames chunks partial_data w buf :
  holds w buf ->
  _running (self w) = true -> connected (self w) = true ->
  Forall (fun c => c <> []) chunks ->
  no_crlf partial_data ->
  let w' := capture_loop_from utc_now partial_data (map RecvData chunks) w in
  exists new,
    holds w' (buf ++ new) /\
    frame_texts new
    = scan_frames partial_data (decode_ascii_replace (concat chunks)).
Proof.
  revert partial_data w buf.
  induction chunks as [|c chunks IH]; intros partial_data w buf Hw Hr Hc Hne Hp.
  - simpl. rewrite Hr, Hc. simpl. exists []. rewrite app_nil_r. split; [exact Hw | reflexivity].
  - cbn [map]. rewrite capture_loop_from_cons, Hr, Hc. cbn [andb negb].
    inversion Hne as [|? ? Hc0 Hne']; subst.
    destruct c as [|b c]; [congruence|]. cbn [truthy negb].
    destruct (capture_received_spec partial_data (b :: c) w buf Hw)
      as (Hp1 & Hs & new1 & H1 & Hn1).
    destruct (capture_received utc_now partial_data (b :: c) w) as [p' w1].
    simpl fst in *. simpl snd in *.
    rewrite scan_carry_shift in Hp1 by exact Hp.
    rewrite scan_frames_shift in Hn1 by exact Hp.
    simpl app in Hp1, Hn1.
    destruct (IH p' w1 _ H1) as (new2 & H2 & Hn2).
    + rewrite Hs. exact Hr.
    + rewrite Hs. exact Hc.
    + exact Hne'.
    + rewrite Hp1. apply scan_carry_no_crlf, Hp.
    + exists (new1 ++ new2). rewrite app_assoc. split; [exact H2|].
      unfold frame_texts in *. rewrite map_app, Hn1, Hn2, Hp1.
      change (concat ((b :: c) :: chunks)) with ((b :: c) ++ concat chunks).
      rewrite decode_app, scan_frames_app. reflexivity.
Qed.

End DiscoveryCapture.

(** Chunk-boundary independence of [_capture_loop] in
    [adam_scale_discovery.py]: with the link up, feeding the bytes in any
    sequence of non-empty reads buffers the same frame texts, in the same
    order, as feeding them in one read. *)
Theorem capture_loop_chunk_independent {F} `{PyFloat F} (utc_now : nat -> F)
    (chunks : list (list byte)) (w : ScaleDiscovery.world F) buf :
  discovery_holds w buf ->
  ScaleDiscovery._running (ScaleDiscovery.self w) = true ->
  ScaleDiscovery.connected (ScaleDiscovery.self w) = true ->
  Forall (fun c => c <> []) chunks ->
  frame_texts
    (ScaleDiscovery.buffer
       (ScaleDiscovery._capture_loop utc_now
          (map ScaleDiscovery.RecvData chunks) w))
  = frame_texts
      (ScaleDiscovery.buffer
         (ScaleDiscovery._capture_loop utc_now
            [ScaleDiscovery.RecvData (concat chunks)] w)).
Proof.
  intros Hw Hr Hc Hne. unfold ScaleDiscovery._capture_loop.
  destruct (capture_loop_frames utc_now chunks [] w buf Hw Hr Hc Hne)
    as (new & Hn & Ht); [constructor|].
  rewrite (holds_buffer _ _ Hn).
  destruct (concat chunks) as [|b c] eqn:E.
  - simpl. rewrite Hr, Hc. simpl.
    rewrite (holds_buffer (ScaleDiscovery.set_connected false w) buf Hw).
    unfold frame_texts in *. rewrite map_app, Ht. simpl. apply app_nil_r.
  - destruct (capture_loop_frames utc_now [b :: c] [] w buf Hw Hr Hc)
      as (new' & Hn' & Ht'); [repeat constructor; discriminate | constructor |].
    simpl map in Hn'. rewrite (holds_buffer _ _ Hn').
    unfold frame_texts in *. rewrite !map_app, Ht, Ht'. simpl. rewrite app_nil_r.
    reflexivity.
Qed.

(* ===================================================================== *)
(** ** The monitoring loop of the logger *)
(* ===================================================================== *)

Section LoggerBuffer.
Context {F : Type}.
Implicit Types (buf new : list (Link.entry F)) (e : Link.entry F).

Lemma most_recent_length {A} n (l : list A) :
  List.length (most_recent n l) = Nat.min n (List.length l).
Proof. unfold most_recent. rewrite length_skipn. lia. Qed.

Lemma py_slice_from_most_recent {A} (l : list A) (n : nat) :
  (0 < n)%nat -> py_slice_from l (- Z.of_nat n) = most_recent n l.
Proof.
  intros Hn. unfold py_slice_from, most_recent, slice_index.
  destruct (Z.ltb_spec (- Z.of_nat n) 0) as [_|Hge]; [|lia].
  f_equal. lia.
Qed.

Lemma most_recent_Forall {A} (P : A -> Prop) n (l : list A) :
  Forall P l -> Forall P (most_recent n l).
Proof.
  intros Hl. unfold most_recent. rewrite <- (firstn_skipn (List.length l - n) l) in Hl.
  apply Forall_app in Hl. apply Hl.
Qed.

Lemma logger_append_length buf e :
  (List.length buf <= 1000)%nat -> (List.length (logger_append buf e) <= 1000)%nat.
Proof.
  intros Hb. unfold logger_append.
  destruct (Nat.ltb_spec 1000 (List.length (buf ++ [e]))) as [Hlt|Hge].
  - rewrite most_recent_length. lia.
  - exact Hge.
Qed.

Lemma logger_append_below buf e :
  (List.length buf < 1000)%nat -> logger_append buf e = buf ++ [e].
Proof.
  intros Hb. unfold logger_append.
  destruct (Nat.ltb_spec 1000 (List.length (buf ++ [e]))) as [Hlt|Hge]; [|reflexivity].
  rewrite length_app in Hlt. simpl in Hlt. lia.
Qed.

Lemma logger_append_full buf e :
  List.length buf = 1000%nat ->
  logger_append buf e = most_recent 500 (buf ++ [e]) /\
  List.length (logger_append buf e) = 500%nat.
Proof.
  intros Hb. unfold logger_append.
  destruct (Nat.ltb_spec 1000 (List.length (buf ++ [e]))) as [Hlt|Hge].
  - split; [reflexivity|]. rewrite most_recent_length, length_app. cbn [List.length]. lia.
  - rewrite length_app in Hge. simpl in Hge. lia.
Qed.

Lemma logger_append_Forall (P : Link.entry F -> Prop) buf e :
  Forall P buf -> P e -> Forall P (logger_append buf e).
Proof.
  intros Hb He. assert (Forall P (buf ++ [e])) as Hbe.
  { apply Forall_app. split; [exact Hb | repeat constructor; exact He]. }
  unfold logger_append. destruct (_ <? _)%nat; [apply most_recent_Forall|]; exact Hbe.
Qed.

Lemma logger_extend_length new buf :
  (List.length buf <= 1000)%nat ->
  (List.length (fold_left logger_append new buf) <= 1000)%nat.
Proof.
  revert buf. induction new as [|e new IH]; intros buf Hb; simpl; [exact Hb|].
  apply IH, logger_append_length, Hb.
Qed.

Lemma logger_extend_Forall (P : Link.entry F -> Prop) new buf :
  Forall P buf -> Forall P new -> Forall P (fold_left logger_append new buf).
Proof.
  revert buf. induction new as [|e new IH]; intros buf Hb Hn; simpl; [exact Hb|].
  inversion Hn; subst. apply IH; [apply logger_append_Forall|]; assumption.
Qed.

End LoggerBuffer.

Section LoggerMonitor.
Import Link ScaleLogger.
Context {F : Type} `{PyFloat F}.
Variable utc_now : nat -> F.
Implicit Types (w : world F) (buf : list (entry F)).

Local Abbreviation holds := logger_holds.

Lemma logger_holds_buffer w buf : holds w buf -> buffer w = buf.
Proof. apply deref_lookup. Qed.

(** One line: nothing for a blank one, otherwise one entry stamped with the
    current time is appended and the buffer trimmed as [logger_append] says. *)
Lemma process_line_spec w buf line :
  holds w buf ->
  let w' := process_line utc_now w line in
  if truthy (strip line)
  then holds w' (logger_append buf
                   {| data := strip line; timestamp := utc_now (now_calls w) |})
  else w' = w.
Proof.
  intros Hw. unfold process_line.
  destruct (truthy (strip line)); [|reflexivity].
  cbn [datetime_now].
  set (e := {| data := strip line; timestamp := utc_now (now_calls w) |}).
  set (w1 := set_store _ _).
  assert (holds w1 (buf ++ [e])) as H1.
  { unfold holds, logger_holds, w1. simpl. apply lookup_list_append, Hw. }
  rewrite (logger_holds_buffer _ _ H1). unfold logger_append.
  destruct (1000 <? List.length (buf ++ [e]))%nat; [|exact H1].
  rewrite (py_slice_from_most_recent _ 500) by lia.
  unfold holds, logger_holds. simpl. apply lookup_insert_eq.
Qed.

Lemma process_lines_spec lines w buf :
  holds w buf ->
  exists new,
    holds (fold_left (process_line utc_now) lines w) (fold_left logger_append new buf)
    /\ frame_texts new = flat_map emit lines.
Proof.
  revert w buf. induction lines as [|line lines IH]; intros w buf Hw; simpl.
  - exists []. split; [exact Hw | reflexivity].
  - pose proof (process_line_spec w buf line Hw) as H1. simpl in H1.
    unfold emit at 1. destruct (truthy (strip line)).
    + destruct (IH _ _ H1) as (new & Hn & Ht).
      exists ({| data := strip line; timestamp := utc_now (now_calls w) |} :: new).
      split; [exact Hn|]. simpl. rewrite <- Ht. reflexivity.
    + rewrite H1. apply IH, Hw.
Qed.

(** A call of [_process_received_data]: the frames of the one-pass reading of
    [partial_data + decoded] are appended, one by one. *)
Lemma process_received_spec recv_data partial_data w buf :
  holds w buf ->
  exists new,
    holds (_process_received_data utc_now recv_data partial_data w)
          (fold_left logger_append new buf)
    /\ frame_texts new
       = scan_frames [] (partial_data ++ decode_ascii_replace recv_data).
Proof.
  intros Hw. unfold _process_received_data.
  destruct (process_lines_spec
              (removelast (re_split_crlf (partial_data ++ decode_ascii_replace recv_data)))
              w buf Hw) as (new & Hn & Ht).
  exists new. split; [exact Hn|]. rewrite Ht. apply framing_frames.
Qed.

Lemma process_line_flags w line :
  connected (self (process_line utc_now w line)) = connected (self w) /\
  _running (self (process_line utc_now w line)) = _running (self w).
Proof.
  unfold process_line. destruct (truthy (strip line)); [|split; reflexivity].
  cbn [datetime_now]. destruct (_ <? _)%nat; split; reflexivity.
Qed.

Lemma process_received_flags recv_data partial_data w :
  connected (self (_process_received_data utc_now recv_data partial_data w))
  = connected (self w) /\
  _running (self (_process_received_data utc_now recv_data partial_data w))
  = _running (self w).
Proof.
  unfold _process_received_data.
  generalize (removelast
                (re_split_crlf (partial_data ++ decode_ascii_replace recv_data))).
  intros lines. revert w. induction lines as [|line lines IH]; intros w.
  - split; reflexivity.
  - simpl. destruct (IH (process_line utc_now w line)) as [-> ->].
    apply process_line_flags.
Qed.

(** X5: with the link up and only non-empty reads, [_monitor_loop] frames
    each read on its own: the buffer receives, read after read, the frames of
    that read alone, and nothing is carried from one read to the next. *)
Lemma monitor_loop_frames_per_read chunks w buf :
  holds w buf ->
  _running (self w) = true -> connected (self w) = true ->
  Forall (fun c => c <> []) chunks ->
  exists new,
    holds (_monitor_loop utc_now (map reads chunks) w)
          (fold_left logger_append new buf)
    /\ frame_texts new
       = flat_map (fun c => scan_frames [] (decode_ascii_replace c)) chunks.
Proof.
  unfold _monitor_loop. revert w buf.
  induction chunks as [|c chunks IH]; intros w buf Hw Hr Hc Hne.
  - simpl. rewrite Hr. exists []. split; [exact Hw | reflexivity].
  - inversion Hne as [|? ? Hc0 Hne']; subst.
    cbn [map monitor_loop_from]. rewrite Hr. cbn [negb].
    unfold monitor_iteration. rewrite Hc. cbn [negb reads received].
    destruct c as [|b c]; [congruence|]. cbn [truthy negb].
    destruct (process_received_spec (b :: c) [] w buf Hw)
      as (new1 & H1 & Ht1).
    destruct (process_received_flags (b :: c) [] w) as [Hc1 Hr1].
    set (w1 := _process_received_data utc_now (b :: c) [] w) in *.
    cbn [datetime_now].
    destruct (IH (set_self
                    {| connected := connected (self w1);
                       _running := _running (self w1);
                       _data_buffer := _data_buffer (self w1);
                       _consecutive_failures := 0;
                       _last_successful_read := Some (utc_now (now_calls w1)) |}
                    {| self := self w1; store := store w1;
                       now_calls := S (now_calls w1) |})
                 (fold_left logger_append new1 buf))
      as (new2 & H2 & Ht2).
    + exact H1.
    + exact (eq_trans Hr1 Hr).
    + exact (eq_trans Hc1 Hc).
    + exact Hne'.
    + exists (new1 ++ new2). rewrite fold_left_app. split; [exact H2|].
      unfold frame_texts in *. rewrite map_app, Ht1, Ht2. reflexivity.
Qed.

End LoggerMonitor.

(** C1 (the logger's [_monitor_loop]): the bytes [12.345\r\n] delivered as
    the two reads [12.3] and [45\r\n] are buffered as the single frame [45],
    whereas one read of the same bytes buffers the frame [12.345]: the text
    carried over inside [_process_received_data] never reaches the loop. *)
Theorem monitor_loop_drops_carry_over :
  frame_texts
    (ScaleLogger.buffer
       (ScaleLogger._monitor_loop clock_seconds
          [reads (bytes_of_string "12.3");
           reads (bytes_of_string "45" ++ CRLF_bytes)] logger_world0))
  = [pystr_of_string "45"]
  /\
  frame_texts
    (ScaleLogger.buffer
       (ScaleLogger._monitor_loop clock_seconds
          [reads (bytes_of_string "12.3" ++ bytes_of_string "45" ++ CRLF_bytes)]
          logger_world0))
  = [pystr_of_string "12.345"].
Proof. split; vm_compute; reflexivity. Qed.

(** The same two reads through the discovery tool's [_capture_loop] give the
    frame [12.345]. *)
Example capture_loop_keeps_carry_over :
  frame_texts
    (ScaleDiscovery.buffer
       (ScaleDiscovery._capture_loop clock_seconds
          [ScaleDiscovery.RecvData (bytes_of_string "12.3");
           ScaleDiscovery.RecvData (bytes_of_string "45" ++ CRLF_bytes)]
          discovery_world0))
  = [pystr_of_string "12.345"].
Proof. vm_compute. reflexivity. Qed.

(* ===================================================================== *)
(** ** Invariants of the two managers *)
(* ===================================================================== *)

Section DiscoveryInvariant.
Import Link ScaleDiscovery.
Context {F : Type} `{PyFloat F}.
Variable utc_now : nat -> F.
Variable socket_connect : nat -> bool.
Implicit Types (w : world F) (buf : list (entry F)).

Lemma get_recent_data_holds max_age_seconds w buf :
  discovery_holds w buf ->
  discovery_holds (get_recent_data utc_now max_age_seconds w).2 buf.
Proof.
  intros Hw. unfold get_recent_data, discovery_holds. cbn.
  apply alloc_preserves, alloc_preserves, Hw.
Qed.

Lemma start_data_capture_holds w buf :
  discovery_holds w buf ->
  discovery_holds (start_data_capture socket_connect w).2 buf.
Proof.
  intros Hw. unfold start_data_capture.
  destruct (connected (self w)); cbn; [exact Hw|].
  destruct (socket_connect (connect_calls w)); exact Hw.
Qed.

Lemma clear_buffer_holds w buf :
  discovery_holds w buf -> discovery_holds (clear_buffer w) [].
Proof. intros Hw. unfold clear_buffer, discovery_holds. simpl. eapply lookup_list_clear, Hw. Qed.

Lemma discovery_invariant w :
  discovery_reachable utc_now socket_connect w ->
  exists buf, discovery_holds w buf /\ Forall frame_ok (frame_texts buf).
Proof.
  induction 1 as [w Hw | w p recvs _ (buf & Hw & Hok) | w _ (buf & Hw & Hok)
                 | w _ (buf & Hw & Hok) | w _ (buf & Hw & Hok)
                 | w age _ (buf & Hw & Hok)].
  - exists []. split; [exact Hw | constructor].
  - destruct (capture_loop_grows utc_now recvs p w buf Hw) as (_ & new & Hn & Hnew).
    exists (buf ++ new). split; [exact Hn|].
    unfold frame_texts in *. rewrite map_app. apply Forall_app. split; assumption.
  - exists buf. split; [exact Hw | exact Hok].
  - exists buf. split; [apply start_data_capture_holds, Hw | exact Hok].
  - exists []. split; [eapply clear_buffer_holds, Hw | constructor].
  - exists buf. split; [apply get_recent_data_holds, Hw | exact Hok].
Qed.

End DiscoveryInvariant.

Section LoggerInvariant.
Import Link ScaleLogger.
Context {F : Type} `{PyFloat F}.
Variable utc_now : nat -> F.
Implicit Types (w : world F) (buf : list (entry F)).

Local Abbreviation bounded_ok := bounded_frames.

Lemma logger_connect_holds ok w buf :
  logger_holds w buf -> logger_holds (connect utc_now ok w).2 buf.
Proof. intros Hw. unfold connect. destruct ok; exact Hw. Qed.

Lemma logger_get_recent_data_holds max_age_seconds w buf :
  logger_holds w buf ->
  logger_holds (get_recent_data utc_now max_age_seconds w).2 buf.
Proof.
  intros Hw. unfold get_recent_data, logger_holds. cbn.
  apply alloc_preserves, alloc_preserves, Hw.
Qed.

Lemma process_received_invariant recv_data partial_data w buf :
  logger_holds w buf -> bounded_ok buf ->
  exists buf',
    logger_holds (_process_received_data utc_now recv_data partial_data w) buf'
    /\ bounded_ok buf'.
Proof.
  intros Hw [Hlen Hok].
  destruct (process_received_spec utc_now recv_data partial_data w buf Hw)
    as (new & Hn & Ht).
  exists (fold_left logger_append new buf). split; [exact Hn|]. split.
  - apply logger_extend_length, Hlen.
  - unfold frame_texts in *. apply List.Forall_map.
    apply logger_extend_Forall.
    + apply List.Forall_map, Hok.
    + apply List.Forall_map. rewrite Ht. apply List.Forall_forall. intros d Hd.
      eapply (scan_frames_ok []); [constructor | exact Hd].
Qed.

Lemma monitor_iteration_invariant partial_data it w buf :
  logger_holds w buf -> bounded_ok buf ->
  exists buf',
    logger_holds (monitor_iteration utc_now partial_data it w) buf'
    /\ bounded_ok buf'.
Proof.
  intros Hw Hb. unfold monitor_iteration.
  assert (exists w1 ok, (if connected (self w) then (true, w)
                         else connect utc_now (connect_succeeds it) w) = (ok, w1)
                        /\ logger_holds w1 buf) as (w1 & ok & -> & H1).
  { destruct (connected (self w)); [exists w, true; split; [reflexivity | exact Hw]|].
    pose proof (logger_connect_holds (connect_succeeds it) w buf Hw) as Hc.
    destruct (connect utc_now (connect_succeeds it) w) as [ok w1].
    exists w1, ok. split; [reflexivity | exact Hc]. }
  destruct ok; cbn [negb]; [|exists buf; split; assumption].
  destruct (received it) as [recv_data| |].
  - destruct (truthy recv_data); cbn [negb]; [|exists buf; split; assumption].
    destruct (process_received_invariant recv_data partial_data w1 buf H1 Hb)
      as (buf' & Hn & Hb').
    exists buf'. split; [exact Hn | exact Hb'].
  - exists buf. split; assumption.
  - exists buf. split; assumption.
Qed.

Lemma monitor_loop_invariant its partial_data w buf :
  logger_holds w buf -> bounded_ok buf ->
  exists buf',
    logger_holds (monitor_loop_from utc_now partial_data its w) buf'
    /\ bounded_ok buf'.
Proof.
  revert w buf. induction its as [|it its IH]; intros w buf Hw Hb; simpl.
  - destruct (negb _); exists buf; split; assumption.
  - destruct (negb _); [exists buf; split; assumption|].
    destruct (monitor_iteration_invariant partial_data it w buf Hw Hb)
      as (buf1 & H1 & Hb1).
    apply (IH _ _ H1 Hb1).
Qed.

Lemma logger_invariant w :
  logger_reachable utc_now w ->
  exists buf, logger_holds w buf /\ bounded_ok buf.
Proof.
  induction 1 as [w Hw | w its _ (buf & Hw & Hb) | w ok _ (buf & Hw & Hb)
                 | w age _ (buf & Hw & Hb)].
  - exists []. split; [exact Hw|]. split; [simpl; lia | constructor].
  - apply (monitor_loop_invariant its [] w buf Hw Hb).
  - exists buf. split; [apply logger_connect_holds, Hw | exact Hb].
  - exists buf. split; [apply logger_get_recent_data_holds, Hw | exact Hb].
Qed.

End LoggerInvariant.

(* ===================================================================== *)
(** ** Capacity of the frame buffer *)
(* ===================================================================== *)

(** C2, as stated, fails for the discovery tool: one read of 1001 lines
    leaves 1001 entries in the buffer of [_capture_loop]. *)
Lemma discovery_buffer_exceeds_capacity :
  ~ (List.length
       (ScaleDiscovery.buffer
          (ScaleDiscovery._capture_loop clock_seconds
             [ScaleDiscovery.RecvData (short_lines 1001)] discovery_world0))
     <= 1000)%nat.
Proof.
  assert (List.length
            (ScaleDiscovery.buffer
               (ScaleDiscovery._capture_loop clock_seconds
                  [ScaleDiscovery.RecvData (short_lines 1001)] discovery_world0))
          = 1001%nat) as ->
    by (vm_compute; reflexivity).
  lia.
Qed.

(** C2 (amended): in the logger, whatever lines have been processed since the
    buffer was created, the buffer holds at most 1000 entries; processing one
    more non-blank line appends its entry when fewer than 1000 are buffered
    and otherwise leaves exactly the most recent 500 entries.  The buffer of
    the discovery tool has no capacity: it grows by one entry for each
    completed frame. *)
Theorem frame_buffer_capacity {F} `{PyFloat F} (utc_now : nat -> F)
    (lw : ScaleLogger.world F) (dw : ScaleDiscovery.world F)
    (dbuf : list (Link.entry F)) (lines : list pystr) (line : pystr) :
  logger_holds lw [] ->
  discovery_holds dw dbuf ->
  truthy (strip line) = true ->
  let lw1 := fold_left (ScaleLogger.process_line utc_now) lines lw in
  let lw2 := ScaleLogger.process_line utc_now lw1 line in
  let e := {| Link.data := strip line;
              Link.timestamp := utc_now (ScaleLogger.now_calls lw1) |} in
  (List.length (ScaleLogger.buffer lw1) <= 1000)%nat
  /\ (List.length (ScaleLogger.buffer lw2) <= 1000)%nat
  /\ ((List.length (ScaleLogger.buffer lw1) < 1000)%nat ->
      ScaleLogger.buffer lw2 = ScaleLogger.buffer lw1 ++ [e])
  /\ (List.length (ScaleLogger.buffer lw1) = 1000%nat ->
      ScaleLogger.buffer lw2 = most_recent 500 (ScaleLogger.buffer lw1 ++ [e])
      /\ List.length (ScaleLogger.buffer lw2) = 500%nat)
  /\ List.length
       (ScaleDiscovery.buffer
          (fold_left (ScaleDiscovery.capture_line utc_now) lines dw))
     = (List.length dbuf + List.length (flat_map emit lines))%nat.
Proof.
  intros Hlw Hdw Hline lw1 lw2 e.
  destruct (process_lines_spec utc_now lines lw [] Hlw) as (new & H1 & _).
  fold lw1 in H1. set (buf1 := fold_left logger_append new []) in H1.
  assert (List.length buf1 <= 1000)%nat as Hlen1
    by (apply logger_extend_length; simpl; lia).
  pose proof (process_line_spec utc_now lw1 buf1 line H1) as H2.
  simpl in H2. rewrite Hline in H2. fold lw2 e in H2.
  rewrite (logger_holds_buffer _ _ H1), (logger_holds_buffer _ _ H2).
  split; [exact Hlen1|].
  split; [apply logger_append_length, Hlen1|].
  split; [apply logger_append_below|].
  split; [apply logger_append_full|].
  destruct (capture_lines_spec utc_now lines dw dbuf Hdw) as (_ & dnew & Hd & Ht).
  rewrite (holds_buffer _ _ Hd), length_app, <- Ht.
  unfold frame_texts. rewrite length_map. reflexivity.
Qed.

Lemma frame_buffer_capacity_witness :
  let lines := repeat [97] 1000 in
  let line := [98] in
  let lw1 := fold_left (ScaleLogger.process_line clock_seconds) lines logger_world0 in
  let lw2 := ScaleLogger.process_line clock_seconds lw1 line in
  logger_holds logger_world0 [] /\
  discovery_holds discovery_world0 [] /\
  truthy (strip line) = true /\
  List.length (ScaleLogger.buffer lw1) = 1000%nat /\
  (List.length (ScaleLogger.buffer lw2) <= 1000)%nat /\
  List.length (ScaleLogger.buffer lw2) = 500%nat /\
  List.length
    (ScaleDiscovery.buffer
       (fold_left (ScaleDiscovery.capture_line clock_seconds) lines
          discovery_world0))
  = (0 + List.length (flat_map emit lines))%nat.
Proof.
  intros lines line lw1 lw2.
  assert (logger_holds logger_world0 []) as Hl by reflexivity.
  assert (discovery_holds discovery_world0 []) as Hd by reflexivity.
  assert (truthy (strip line) = true) as Ht by reflexivity.
  assert (List.length (ScaleLogger.buffer lw1) = 1000%nat) as Hfull
    by (vm_compute; reflexivity).
  destruct (frame_buffer_capacity clock_seconds logger_world0 discovery_world0
              [] lines line Hl Hd Ht) as (_ & Hle & _ & H500 & Hgrow).
  split; [exact Hl|]. split; [exact Hd|]. split; [exact Ht|].
  split; [exact Hfull|]. split; [exact Hle|].
  split; [exact (proj2 (H500 Hfull)) | exact Hgrow].
Defined.

(* ===================================================================== *)
(** ** Shape of the buffered frames *)
(* ===================================================================== *)

(** C9: in every reachable state of either manager, each buffered frame text
    is trimmed, non-empty after trimming and holds no carriage return or
    newline. *)
Theorem buffered_frames_well_formed {F} `{PyFloat F} (utc_now : nat -> F)
    (socket_connect : nat -> bool)
    (dw : ScaleDiscovery.world F) (lw : ScaleLogger.world F) :
  discovery_reachable utc_now socket_connect dw ->
  logger_reachable utc_now lw ->
  Forall frame_ok (frame_texts (ScaleDiscovery.buffer dw))
  /\ Forall frame_ok (frame_texts (ScaleLogger.buffer lw)).
Proof.
  intros Hd Hl.
  destruct (discovery_invariant utc_now socket_connect dw Hd) as (dbuf & Hdw & Hdok).
  destruct (logger_invariant utc_now lw Hl) as (lbuf & Hlw & _ & Hlok).
  rewrite (holds_buffer _ _ Hdw), (logger_holds_buffer _ _ Hlw).
  split; assumption.
Qed.

Lemma buffered_frames_well_formed_witness :
  let dw :=
    ScaleDiscovery.capture_loop_from clock_seconds []
      [ScaleDiscovery.RecvData (bytes_of_string " 12.3");
       ScaleDiscovery.RecvData (bytes_of_string "45 " ++ CRLF_bytes)]
      discovery_world0 in
  let lw :=
    ScaleLogger._monitor_loop clock_seconds
      [reads (bytes_of_string "12.3");
       reads (bytes_of_string "45" ++ CRLF_bytes ++ CRLF_bytes)] logger_world0 in
  discovery_reachable clock_seconds always_connects dw /\
  logger_reachable clock_seconds lw /\
  Forall frame_ok (frame_texts (ScaleDiscovery.buffer dw)) /\
  Forall frame_ok (frame_texts (ScaleLogger.buffer lw)).
Proof.
  intros dw lw.
  assert (discovery_reachable clock_seconds always_connects dw) as Hd
    by (apply dr_capture, dr_init; reflexivity).
  assert (logger_reachable clock_seconds lw) as Hl
    by (apply lr_monitor, lr_init; reflexivity).
  split; [exact Hd|]. split; [exact Hl|].
  apply (buffered_frames_well_formed clock_seconds always_connects dw lw Hd Hl).
Defined.

(* ===================================================================== *)
(** ** Reading the recent frames *)
(* ===================================================================== *)

Section RecentData.
Import Link.
Context {F : Type} `{PyFloat F}.

Lemma filter_sublist {A} (p : A -> bool) (l : list A) :
  sublist (List.filter p l) l.
Proof.
  induction l as [|x l IH]; simpl; [constructor|].
  destruct (p x); [apply sublist_skip | apply sublist_cons]; exact IH.
Qed.

Lemma newer_than_Forall (cutoff_time : F) (buf : list (entry F)) :
  Forall (fun e => fltb cutoff_time (timestamp e) = true) (newer_than cutoff_time buf).
Proof.
  apply List.Forall_forall. intros e He. apply filter_In in He. apply He.
Qed.

(** The two allocations of [get_recent_data], for any store. *)
Lemma snapshot_alloc (h : heap F) (v : list (entry F)) :
  let a1 := alloc v h in
  let a2 := alloc (deref a1.2 a1.1) a1.2 in
  a2.2 !! a2.1 = Some v /\
  h !! a2.1 = None /\
  (forall l x, h !! l = Some x -> a2.2 !! l = Some x /\ a2.1 <> l).
Proof.
  intros a1 a2.
  assert (deref a1.2 a1.1 = v) as Hv by apply deref_lookup, alloc_lookup.
  split; [unfold a2; rewrite Hv; apply alloc_lookup|].
  assert (forall l x, h !! l = Some x -> a2.2 !! l = Some x /\ a2.1 <> l) as Hpres.
  { intros l x Hl.
    pose proof (alloc_preserves h v l x Hl) as H1. fold a1 in H1.
    split; [apply alloc_preserves, H1 | eapply alloc_ne, H1]. }
  split; [|exact Hpres].
  destruct (h !! a2.1) as [x|] eqn:E; [|reflexivity].
  destruct (Hpres _ _ E) as [_ Hne]. congruence.
Qed.

End RecentData.

(** C8: [get_recent_data] of either manager returns a new list object that
    holds, in buffer order, exactly the entries whose timestamp is strictly
    greater than the time of the call minus [max_age_seconds]; the manager,
    its buffer and every list object that existed before are unchanged. *)
Theorem recent_data_is_filtered_snapshot {F} `{PyFloat F} (utc_now : nat -> F)
    (max_age_seconds : F)
    (dw : ScaleDiscovery.world F) (lw : ScaleLogger.world F)
    (dbuf lbuf : list (Link.entry F)) :
  discovery_holds dw dbuf ->
  logger_holds lw lbuf ->
  (let r := ScaleDiscovery.get_recent_data utc_now max_age_seconds dw in
   let cutoff_time :=
     fsub (utc_now (ScaleDiscovery.now_calls dw)) max_age_seconds in
   let result := Link.deref (ScaleDiscovery.store r.2) r.1 in
   result = newer_than cutoff_time dbuf
   /\ Forall (fun e => fltb cutoff_time (Link.timestamp e) = true) result
   /\ sublist result dbuf
   /\ ScaleDiscovery.store dw !! r.1 = None
   /\ r.1 <> ScaleDiscovery._data_buffer (ScaleDiscovery.self dw)
   /\ ScaleDiscovery.self r.2 = ScaleDiscovery.self dw
   /\ ScaleDiscovery.buffer r.2 = dbuf
   /\ (forall l x, ScaleDiscovery.store dw !! l = Some x ->
                   ScaleDiscovery.store r.2 !! l = Some x))
  /\
  (let r := ScaleLogger.get_recent_data utc_now max_age_seconds lw in
   let cutoff_time :=
     fsub (utc_now (ScaleLogger.now_calls lw)) max_age_seconds in
   let result := Link.deref (ScaleLogger.store r.2) r.1 in
   result = newer_than cutoff_time lbuf
   /\ Forall (fun e => fltb cutoff_time (Link.timestamp e) = true) result
   /\ sublist result lbuf
   /\ ScaleLogger.store lw !! r.1 = None
   /\ r.1 <> ScaleLogger._data_buffer (ScaleLogger.self lw)
   /\ ScaleLogger.self r.2 = ScaleLogger.self lw
   /\ ScaleLogger.buffer r.2 = lbuf
   /\ (forall l x, ScaleLogger.store lw !! l = Some x ->
                   ScaleLogger.store r.2 !! l = Some x)).
Proof.
  intros Hd Hl. split.
  - intros r cutoff_time result.
    pose proof (snapshot_alloc (ScaleDiscovery.store dw)
                  (newer_than cutoff_time (ScaleDiscovery.buffer dw)))
      as (Hres & Hnew & Hpres).
    assert (result = newer_than cutoff_time (ScaleDiscovery.buffer dw)) as Hresult
      by (apply deref_lookup; exact Hres).
    rewrite Hresult, (holds_buffer _ _ Hd).
    split; [reflexivity|].
    split; [apply newer_than_Forall|].
    split; [apply filter_sublist|].
    split; [exact Hnew|].
    split; [apply (Hpres _ _ Hd)|].
    split; [reflexivity|].
    split; [apply holds_buffer, get_recent_data_holds, Hd|].
    intros l x Hlx. apply (Hpres _ _ Hlx).
  - intros r cutoff_time result.
    pose proof (snapshot_alloc (ScaleLogger.store lw)
                  (newer_than cutoff_time (ScaleLogger.buffer lw)))
      as (Hres & Hnew & Hpres).
    assert (result = newer_than cutoff_time (ScaleLogger.buffer lw)) as Hresult
      by (apply deref_lookup; exact Hres).
    rewrite Hresult, (logger_holds_buffer _ _ Hl).
    split; [reflexivity|].
    split; [apply newer_than_Forall|].
    split; [apply filter_sublist|].
    split; [exact Hnew|].
    split; [apply (Hpres _ _ Hl)|].
    split; [reflexivity|].
    split; [apply logger_holds_buffer, logger_get_recent_data_holds, Hl|].
    intros l x Hlx. apply (Hpres _ _ Hlx).
Qed.

(* ===================================================================== *)
(** ** Decoding one frame with a template *)
(* ===================================================================== *)

Section ParseFacts.
Import Link ScaleDiscovery.
Implicit Types (raw_data : pystr) (f : FieldSpec) (template_fields : list FieldSpec).

Lemma parse_fields_cons raw_data f rest parsed_data :
  parse_fields raw_data (f :: rest) parsed_data =
  if (start f + length f <=? Z.of_nat (List.length raw_data))%Z then
    if is_numeric f then
      if is_float_literal (strip (field_slice raw_data f))
      then parse_fields raw_data rest
             (<[name f := PFloat (strip (field_slice raw_data f))]> parsed_data)
      else ParseFailure (non_numeric (name f) (field_slice raw_data f))
    else if pystr_eqb (field_type f) (pystr_of_string "lookup") then
      match default ∅ (values f) !! field_slice raw_data f with
      | Some v => parse_fields raw_data rest (<[name f := PStr v]> parsed_data)
      | None =>
          parse_fields raw_data rest
            (<[name f :=
                 PStr (pystr_of_string "unknown_" ++ field_slice raw_data f)]>
               parsed_data)
      end
    else
      parse_fields raw_data rest
        (<[name f := PStr (field_slice raw_data f)]> parsed_data)
  else ParseFailure (data_too_short (name f)).
Proof. reflexivity. Qed.

Lemma parse_fields_cons_short raw_data f rest parsed_data :
  too_short raw_data f ->
  parse_fields raw_data (f :: rest) parsed_data
  = ParseFailure (data_too_short (name f)).
Proof.
  unfold too_short. intros Hf. rewrite parse_fields_cons.
  destruct (Z.leb_spec (start f + length f) (Z.of_nat (List.length raw_data)));
    [lia | reflexivity].
Qed.

(** A field that fits either stops the parse with the non-numeric error, or
    hands over to the remaining fields. *)
Lemma parse_fields_cons_fits raw_data f rest parsed_data :
  ~ too_short raw_data f ->
  (is_numeric f = true /\
   is_float_literal (strip (field_slice raw_data f)) = false /\
   parse_fields raw_data (f :: rest) parsed_data
   = ParseFailure (non_numeric (name f) (field_slice raw_data f)))
  \/
  (numeric_ok raw_data f /\
   exists parsed_data',
     parse_fields raw_data (f :: rest) parsed_data
     = parse_fields raw_data rest parsed_data').
Proof.
  unfold too_short, numeric_ok. intros Hf. rewrite parse_fields_cons.
  destruct (Z.leb_spec (start f + length f) (Z.of_nat (List.length raw_data)));
    [|lia].
  destruct (is_numeric f).
  - destruct (is_float_literal _) eqn:Hlit.
    + right. split; [intros _; reflexivity | eexists; reflexivity].
    + left. repeat split; reflexivity.
  - right. split; [discriminate|].
    destruct (pystr_eqb (field_type f) (pystr_of_string "lookup")).
    + destruct (_ !! _); eexists; reflexivity.
    + eexists; reflexivity.
Qed.

(** A frame too short for some field fails, whatever was parsed before: the
    parse stops at the first field that runs past the frame or is numeric
    without holding a number. *)
Lemma parse_fields_stops raw_data template_fields :
  Exists (too_short raw_data) template_fields ->
  forall parsed_data,
  exists pre f post error,
    template_fields = pre ++ f :: post /\
    Forall (fun g => ~ too_short raw_data g /\ numeric_ok raw_data g) pre /\
    parse_fields raw_data template_fields parsed_data = ParseFailure error /\
    ((too_short raw_data f /\ error = data_too_short (name f))
     \/ (~ too_short raw_data f /\ is_numeric f = true /\
         is_float_literal (strip (field_slice raw_data f)) = false /\
         error = non_numeric (name f) (field_slice raw_data f))).
Proof.
  induction template_fields as [|f rest IH]; intros Hex parsed_data.
  - inversion Hex.
  - destruct (Z.lt_ge_cases (Z.of_nat (List.length raw_data)) (start f + length f))
      as [Hshort|Hfits].
    + exists [], f, rest, (data_too_short (name f)).
      split; [reflexivity|]. split; [constructor|].
      split; [apply parse_fields_cons_short, Hshort|].
      left. split; [exact Hshort | reflexivity].
    + assert (~ too_short raw_data f) as Hnot by (unfold too_short; lia).
      destruct (parse_fields_cons_fits raw_data f rest parsed_data Hnot)
        as [(Hnum & Hbad & Hfail) | (Hok & parsed_data' & Hnext)].
      * exists [], f, rest, (non_numeric (name f) (field_slice raw_data f)).
        split; [reflexivity|]. split; [constructor|]. split; [exact Hfail|].
        right. repeat split; assumption.
      * inversion Hex as [? ? Hf | ? ? Hrest]; subst; [contradiction|].
        destruct (IH Hrest parsed_data')
          as (pre & g & post & error & -> & Hpre & Herr & Hwhich).
        exists (f :: pre), g, post, error.
        split; [reflexivity|].
        split; [constructor; [split; assumption | exact Hpre]|].
        split; [rewrite <- Herr; exact Hnext | exact Hwhich].
Qed.

(** When the fields before the first one that is too short all decode, the
    error is the too-short error of that field. *)
Lemma parse_fields_first_short raw_data pre f post :
  Forall (fun g => ~ too_short raw_data g) pre ->
  Forall (numeric_ok raw_data) pre ->
  too_short raw_data f ->
  forall parsed_data,
    parse_fields raw_data (pre ++ f :: post) parsed_data
    = ParseFailure (data_too_short (name f)).
Proof.
  induction pre as [|g pre IH]; intros Hfit Hnum Hshort parsed_data.
  - apply parse_fields_cons_short, Hshort.
  - inversion Hfit as [|? ? Hg Hfit']; inversion Hnum as [|? ? Hgn Hnum']; subst.
    destruct (parse_fields_cons_fits raw_data g (pre ++ f :: post) parsed_data Hg)
      as [(Hisnum & Hbad & _) | (_ & parsed_data' & Hnext)].
    + rewrite (Hgn Hisnum) in Hbad. discriminate.
    + cbn [app]. rewrite Hnext. apply IH; assumption.
Qed.

(** The loop of [_analyze_template_match] counts every entry as an attempt,
    the parsed ones as successes, and records one error for each other. *)
Lemma match_entries_count {F} template_fields (test_data : list (entry F))
    successful_parses total_attempts parsing_errors :
  exists errors,
    fold_left (match_entry template_fields) test_data
      (successful_parses, total_attempts, parsing_errors)
    = ((successful_parses
        + List.length (parsed_frames template_fields test_data))%nat,
       (total_attempts + List.length test_data)%nat,
       parsing_errors ++ errors).
Proof.
  revert successful_parses total_attempts parsing_errors.
  induction test_data as [|e test_data IH]; intros s t errs.
  - exists []. simpl. rewrite !Nat.add_0_r, app_nil_r. reflexivity.
  - cbn [fold_left parsed_frames List.filter]. unfold match_entry at 2.
    destruct (_parse_with_template (data e) template_fields) as [pd|error]; simpl.
    + destruct (IH (S s) (S t) errs) as (errors & ->).
      exists errors.
      apply f_equal2; [apply f_equal2|]; try reflexivity; unfold parsed_frames; lia.
    + destruct (IH s (S t) (errs ++ [error])) as (errors & ->).
      exists (error :: errors). rewrite <- app_assoc.
      apply f_equal2; [apply f_equal2|]; try reflexivity; unfold parsed_frames; lia.
Qed.

Lemma parsed_frames_length {F} template_fields (test_data : list (entry F)) :
  (List.length (parsed_frames template_fields test_data)
   <= List.length test_data)%nat.
Proof. apply filter_length_le. Qed.

Lemma analyze_counts {F} `{PyFloat F} template_data (test_data : list (entry F)) :
  let r := _analyze_template_match template_data test_data in
  successful_parses r
  = List.length (parsed_frames (default [] (fields template_data)) test_data)
  /\ total_attempts r = List.length test_data.
Proof.
  unfold _analyze_template_match.
  destruct (match_entries_count (default [] (fields template_data)) test_data
              0 0 []) as (errors & ->).
  split; reflexivity.
Qed.

End ParseFacts.

(** C7, as stated, fails: with a numeric field that does not hold a number
    declared before the field that runs past the frame, the parse fails with
    the non-numeric error, not with the too-short error. *)
Lemma short_frame_other_error :
  Exists (too_short (pystr_of_string "abcdefgh")) letter_then_long_fields /\
  ScaleDiscovery._parse_with_template (pystr_of_string "abcdefgh")
    letter_then_long_fields
  = ScaleDiscovery.ParseFailure
      (pystr_of_string "Non-numeric data in field weight: 'a'") /\
  ~ exists field_name,
      ScaleDiscovery._parse_with_template (pystr_of_string "abcdefgh")
        letter_then_long_fields
      = ScaleDiscovery.ParseFailure (ScaleDiscovery.data_too_short field_name).
Proof.
  split; [|split].
  - apply Exists_cons_tl, Exists_cons_hd. unfold too_short. simpl. lia.
  - vm_compute. reflexivity.
  - intros [field_name Hn]. vm_compute in Hn. discriminate Hn.
Qed.

(** C7 (amended): a frame that is too short for some field of the template
    makes [_parse_with_template] return a failure, never raise.  The parse
    stops at the first field that either runs past the end of the frame, with
    the too-short error of that field, or is numeric and does not hold a
    number, with the non-numeric error of that field.
    [_analyze_template_match] counts the frame as one attempt, no success,
    and records that one error. *)
Theorem short_frame_fails_as_a_unit {F} (raw_data : pystr)
    (template_fields : list ScaleDiscovery.FieldSpec)
    (data_entry : Link.entry F) (successful_parses total_attempts : nat)
    (parsing_errors : list pystr) :
  Exists (too_short raw_data) template_fields ->
  Link.data data_entry = raw_data ->
  exists error,
    ScaleDiscovery._parse_with_template raw_data template_fields
    = ScaleDiscovery.ParseFailure error
    /\ ScaleDiscovery.match_entry template_fields
         (successful_parses, total_attempts, parsing_errors) data_entry
       = (successful_parses, S total_attempts, parsing_errors ++ [error])
    /\ exists pre f post,
         template_fields = pre ++ f :: post
         /\ Forall (fun g => ~ too_short raw_data g /\ numeric_ok raw_data g) pre
         /\ ((too_short raw_data f /\
              error = ScaleDiscovery.data_too_short (ScaleDiscovery.name f))
             \/ (~ too_short raw_data f /\ is_numeric f = true /\
                 is_float_literal (strip (field_slice raw_data f)) = false /\
                 error = ScaleDiscovery.non_numeric (ScaleDiscovery.name f)
                           (field_slice raw_data f))).
Proof.
  intros Hex Hdata.
  destruct (parse_fields_stops raw_data template_fields Hex ∅)
    as (pre & f & post & error & Hsplit & Hpre & Herr & Hwhich).
  exists error. split; [exact Herr|]. split.
  - unfold ScaleDiscovery.match_entry. rewrite Hdata.
    unfold ScaleDiscovery._parse_with_template. rewrite Herr. reflexivity.
  - exists pre, f, post. split; [exact Hsplit|]. split; [exact Hpre | exact Hwhich].
Qed.

Lemma short_frame_fails_as_a_unit_witness :
  let raw_data := pystr_of_string "12.345kg" in
  let template_fields :=
    [ scenario_field (pystr_of_string "weight") None;
      {| ScaleDiscovery.name := pystr_of_string "unit";
         ScaleDiscovery.start := 5;
         ScaleDiscovery.length := 10;
         ScaleDiscovery.field_type := pystr_of_string "text";
         ScaleDiscovery.values := None |} ] in
  let data_entry := {| Link.data := raw_data; Link.timestamp := 0%Q |} in
  Exists (too_short raw_data) template_fields /\
  Link.data data_entry = raw_data /\
  exists error,
    ScaleDiscovery._parse_with_template raw_data template_fields
    = ScaleDiscovery.ParseFailure error
    /\ ScaleDiscovery.match_entry template_fields (2%nat, 4%nat, []) data_entry
       = (2%nat, 5%nat, [error]).
Proof.
  intros raw_data template_fields data_entry.
  assert (Exists (too_short raw_data) template_fields) as Hex.
  { apply Exists_cons_tl, Exists_cons_hd. unfold too_short. simpl. lia. }
  assert (Link.data data_entry = raw_data) as Hdata by reflexivity.
  split; [exact Hex|]. split; [exact Hdata|].
  destruct (short_frame_fails_as_a_unit raw_data template_fields data_entry
              2 4 [] Hex Hdata) as (error & Hparse & Hcount & _).
  exists error. split; [exact Hparse | exact Hcount].
Defined.

(** C10: with an empty field list every frame parses, to an empty
    [parsed_data]; a template without fields therefore has all of a
    non-empty sample counted as successes, a parse success rate of 100. *)
Theorem no_fields_always_parse (raw_data : pystr)
    (template_data : ScaleDiscovery.TemplateData)
    (test_data : list (Link.entry Q)) :
  default [] (ScaleDiscovery.fields template_data) = [] ->
  test_data <> [] ->
  let r := ScaleDiscovery._analyze_template_match template_data test_data in
  ScaleDiscovery._parse_with_template raw_data [] = ScaleDiscovery.ParseSuccess ∅
  /\ ScaleDiscovery.successful_parses r = List.length test_data
  /\ ScaleDiscovery.total_attempts r = List.length test_data
  /\ (ScaleDiscovery.parse_success_rate
        (ScaleDiscovery.successful_parses r) (ScaleDiscovery.total_attempts r)
      == 100)%Q.
Proof.
  intros Hfields Hne r.
  destruct (analyze_counts template_data test_data) as [Hs Ht].
  fold r in Hs, Ht. rewrite Hfields in Hs.
  assert (parsed_frames [] test_data = test_data) as Hall.
  { unfold parsed_frames. apply forallb_filter_id, forallb_forall.
    intros e _. reflexivity. }
  rewrite Hall in Hs.
  split; [reflexivity|]. split; [exact Hs|]. split; [exact Ht|].
  rewrite Hs, Ht. unfold ScaleDiscovery.parse_success_rate. cbn.
  assert (~ inject_Z (Z.of_nat (List.length test_data)) == 0)%Q as Hnz.
  { destruct test_data; [congruence|]. intros E.
    unfold Qeq in E. simpl in E. lia. }
  field. exact Hnz.
Qed.

Lemma no_fields_always_parse_witness :
  let no_fields :=
    {| ScaleDiscovery.template_id := None;
       ScaleDiscovery.template_name := None;
       ScaleDiscovery.delimiter := None;
       ScaleDiscovery.fields := Some [] |} in
  let test_data := scenario_frames 0%Q 1%Q 2%Q in
  let r := ScaleDiscovery._analyze_template_match no_fields test_data in
  default [] (ScaleDiscovery.fields no_fields) = [] /\
  test_data <> [] /\
  ScaleDiscovery.successful_parses r = 3%nat /\
  (ScaleDiscovery.parse_success_rate
     (ScaleDiscovery.successful_parses r) (ScaleDiscovery.total_attempts r)
   == 100)%Q.
Proof.
  intros no_fields test_data r.
  assert (default [] (ScaleDiscovery.fields no_fields) = []) as Hf by reflexivity.
  assert (test_data <> []) as Hne by discriminate.
  destruct (no_fields_always_parse [] no_fields test_data Hf Hne)
    as (_ & Hs & _ & Hrate).
  split; [exact Hf|]. split; [exact Hne|]. split; [exact Hs | exact Hrate].
Defined.

(* ===================================================================== *)
(** ** The confidence score *)
(* ===================================================================== *)

Section ScoreFacts.
Import Link ScaleDiscovery.
Local Open Scope Q_scope.

(** [num / den * 100] on counts, over the rationals. *)
Lemma ratio_percent_bounds (num den : nat) :
  (num <= den)%nat -> (0 < den)%nat ->
  0 <= inject_Z (Z.of_nat num) / inject_Z (Z.of_nat den) * inject_Z 100 <= 100.
Proof.
  intros Hle Hpos.
  assert (0 < inject_Z (Z.of_nat den)) as Hden.
  { change 0 with (inject_Z 0). rewrite <- Zlt_Qlt. lia. }
  assert (0 <= inject_Z (Z.of_nat num) / inject_Z (Z.of_nat den)) as H0.
  { apply Qle_shift_div_l; [exact Hden|]. rewrite Qmult_0_l.
    change 0 with (inject_Z 0). rewrite <- Zle_Qle. lia. }
  assert (inject_Z (Z.of_nat num) / inject_Z (Z.of_nat den) <= 1) as H1.
  { apply Qle_shift_div_r; [exact Hden|]. rewrite Qmult_1_l.
    rewrite <- Zle_Qle. lia. }
  change (inject_Z 100) with 100. lra.
Qed.

Lemma parse_success_rate_bounds (successes attempts : nat) :
  (successes <= attempts)%nat -> (0 < attempts)%nat ->
  0 <= parse_success_rate (F := Q) successes attempts <= 100.
Proof. apply ratio_percent_bounds. Qed.

Lemma data_consistency_bounds (test_data : list (entry Q)) template_fields :
  0 <= _check_data_consistency test_data template_fields <= 100.
Proof.
  unfold _check_data_consistency.
  destruct (_ <? _)%nat; [split; discriminate|].
  destruct (fltb _ _); [split; discriminate|].
  destruct (fltb _ _); split; discriminate.
Qed.

Lemma format_match_bounds (test_data : list (entry Q)) template_data :
  0 <= _check_format_characteristics test_data template_data <= 100.
Proof.
  unfold _check_format_characteristics.
  destruct (Nat.eqb_spec (List.length test_data) 0) as [_|Hne];
    [split; discriminate|].
  apply ratio_percent_bounds; [apply filter_length_le | lia].
Qed.

Lemma weighted_confidence_bounds (p c f : Q) :
  0 <= p <= 100 -> 0 <= c <= 100 -> 0 <= f <= 100 ->
  0 <= weighted_confidence p c f <= 100.
Proof.
  intros Hp Hc Hf. unfold weighted_confidence. cbn.
  lra.
Qed.

Lemma weighted_confidence_monotone (p1 p2 c f : Q) :
  p1 <= p2 -> weighted_confidence p1 c f <= weighted_confidence p2 c f.
Proof.
  intros Hp. unfold weighted_confidence. cbn.
  lra.
Qed.

End ScoreFacts.

(** C4: over the rationals, the confidence [_analyze_template_match] returns
    for any template and any sample lies between 0 and 100, and the weighted
    score does not decrease when the parse success rate increases and the two
    other factors are kept. *)
Theorem confidence_bounded_and_monotone
    (template_data : ScaleDiscovery.TemplateData)
    (test_data : list (Link.entry Q))
    (rate1 rate2 data_consistency format_match : Q) :
  (rate1 <= rate2)%Q ->
  (0 <= ScaleDiscovery.confidence
          (ScaleDiscovery._analyze_template_match template_data test_data)
     <= 100)%Q
  /\ (ScaleDiscovery.weighted_confidence rate1 data_consistency format_match
      <= ScaleDiscovery.weighted_confidence rate2 data_consistency format_match)%Q.
Proof.
  intros Hrate. split; [|apply weighted_confidence_monotone, Hrate].
  pose proof (analyze_counts template_data test_data) as [Hs Ht].
  pose proof (parsed_frames_length
                (default [] (ScaleDiscovery.fields template_data)) test_data) as Hle.
  revert Hs Ht. unfold ScaleDiscovery._analyze_template_match.
  destruct (fold_left _ test_data _) as [[successes attempts] errors].
  cbn [ScaleDiscovery.successful_parses ScaleDiscovery.total_attempts
       ScaleDiscovery.confidence].
  intros -> ->.
  destruct (Nat.eqb_spec (List.length test_data) 0) as [_|Hne];
    [split; discriminate|].
  apply weighted_confidence_bounds.
  - apply parse_success_rate_bounds; [exact Hle | lia].
  - apply data_consistency_bounds.
  - apply format_match_bounds.
Qed.

Lemma confidence_bounded_and_monotone_witness :
  let template_data :=
    scenario_template None None None (pystr_of_string "weight") None in
  let test_data := scenario_frames 0%Q 1%Q 2%Q in
  (50 <= 100)%Q /\
  (0 <= ScaleDiscovery.confidence
          (ScaleDiscovery._analyze_template_match template_data test_data)
     <= 100)%Q /\
  (ScaleDiscovery.weighted_confidence 50 90 100
   <= ScaleDiscovery.weighted_confidence 100 90 100)%Q.
Proof.
  intros template_data test_data.
  assert (50 <= 100)%Q as Hle by discriminate.
  split; [exact Hle|].
  apply (confidence_bounded_and_monotone template_data test_data 50 100 90 100 Hle).
Defined.

(** Frames that are not blank all count as format matches, whatever the
    template's delimiter is. *)
Lemma format_match_of_nonblank {F} `{PyFloat F}
    (test_data : list (Link.entry F)) template_data :
  Forall (fun e => truthy (strip (Link.data e)) = true) test_data ->
  test_data <> [] ->
  ScaleDiscovery._check_format_characteristics test_data template_data
  = fmul (fdiv (of_int (Z.of_nat (List.length test_data)))
               (of_int (Z.of_nat (List.length test_data))))
         (of_int 100).
Proof.
  intros Hall Hne. unfold ScaleDiscovery._check_format_characteristics.
  destruct (Nat.eqb_spec (List.length test_data) 0) as [E|_].
  - destruct test_data; [congruence | discriminate E].
  - rewrite forallb_filter_id; [reflexivity|].
    apply forallb_forall. intros e He.
    rewrite List.Forall_forall in Hall. specialize (Hall e He).
    destruct (strip (Link.data e)); [discriminate Hall|]. apply orb_true_r.
Qed.

(** C3: the template whose only field is numeric with start 0 and length 6,
    on the frames [12.345\r\n], [12.346\r\n], [12.344\r\n]: three parsed
    frames out of three, parse success rate 100, data consistency 90, format
    match 100 and confidence 98, in binary64 arithmetic and in exact
    arithmetic alike. *)
Theorem three_frame_scenario_scores_98
    (id template_name delimiter : option pystr) (field_name : pystr)
    (field_values : option (gmap pystr pystr)) :
  let template_data :=
    scenario_template id template_name delimiter field_name field_values in
  let template_fields := [scenario_field field_name field_values] in
  (forall t1 t2 t3 : float,
     let test_data := scenario_frames t1 t2 t3 in
     ScaleDiscovery._analyze_template_match template_data test_data
     = {| ScaleDiscovery.success := true;
          ScaleDiscovery.confidence := 98%float;
          ScaleDiscovery.successful_parses := 3;
          ScaleDiscovery.total_attempts := 3;
          ScaleDiscovery.parsing_errors := [];
          ScaleDiscovery.result_template_id := id;
          ScaleDiscovery.result_template_name := template_name |}
     /\ ScaleDiscovery.parse_success_rate 3 3 = 100%float
     /\ ScaleDiscovery._check_data_consistency test_data template_fields
        = 90%float
     /\ ScaleDiscovery._check_format_characteristics test_data template_data
        = 100%float)
  /\
  (forall t1 t2 t3 : Q,
     let test_data := scenario_frames t1 t2 t3 in
     let r := ScaleDiscovery._analyze_template_match template_data test_data in
     ScaleDiscovery.successful_parses r = 3%nat
     /\ ScaleDiscovery.total_attempts r = 3%nat
     /\ ScaleDiscovery.parsing_errors r = []
     /\ (ScaleDiscovery.parse_success_rate 3 3 == 100)%Q
     /\ (ScaleDiscovery._check_data_consistency test_data template_fields == 90)%Q
     /\ (ScaleDiscovery._check_format_characteristics test_data template_data
         == 100)%Q
     /\ (ScaleDiscovery.confidence r == 98)%Q).
Proof.
  intros template_data template_fields. split.
  - intros t1 t2 t3 test_data.
    assert (ScaleDiscovery._check_format_characteristics test_data template_data
            = 100%float) as Hformat.
    { rewrite format_match_of_nonblank; [reflexivity | | discriminate].
      repeat constructor. }
    split; [|split; [reflexivity | split; [reflexivity | exact Hformat]]].
    unfold ScaleDiscovery._analyze_template_match.
    cbn [fold_left default ScaleDiscovery.fields template_data scenario_template
         test_data scenario_frames].
    change (ScaleDiscovery.match_entry _ (ScaleDiscovery.match_entry _
              (ScaleDiscovery.match_entry _ (0%nat, 0%nat, []) _) _) _)
      with (3%nat, 3%nat, @nil pystr).
    cbn [Nat.eqb]. rewrite Hformat. reflexivity.
  - intros t1 t2 t3 test_data r.
    assert (ScaleDiscovery._check_format_characteristics test_data template_data
            == 100)%Q as Hformat.
    { rewrite format_match_of_nonblank; [reflexivity | | discriminate].
      repeat constructor. }
    split; [reflexivity|]. split; [reflexivity|]. split; [reflexivity|].
    split; [reflexivity|]. split; [reflexivity|]. split; [exact Hformat|].
    unfold r, ScaleDiscovery._analyze_template_match.
    cbn [fold_left default ScaleDiscovery.fields template_data scenario_template
         test_data scenario_frames].
    change (ScaleDiscovery.match_entry _ (ScaleDiscovery.match_entry _
              (ScaleDiscovery.match_entry _ (0%nat, 0%nat, []) _) _) _)
      with (3%nat, 3%nat, @nil pystr).
    cbn [Nat.eqb ScaleDiscovery.confidence].
    unfold ScaleDiscovery.weighted_confidence.
    cbn [fadd fmul f0_6 f0_2 PyFloat_Q].
    rewrite Hformat. reflexivity.
Qed.

(* ===================================================================== *)
(** ** Testing a template against an empty window *)
(* ===================================================================== *)

(** C6: once the link is up (the manager is connected, or the connection
    attempt [test_template] makes succeeds), a sampling window whose recent
    data is empty makes [test_template] return, for every template, the
    failure dict with confidence 0 and the error [No data received]. *)
Theorem empty_window_reports_no_data {F} `{PyFloat F} (utc_now : nat -> F)
    (socket_connect : nat -> bool)
    (sleep : F -> ScaleDiscovery.world F -> ScaleDiscovery.world F)
    (template_data : ScaleDiscovery.TemplateData) (test_duration : F)
    (w : ScaleDiscovery.world F) :
  ScaleDiscovery.connected (ScaleDiscovery.self w) = true
  \/ socket_connect (ScaleDiscovery.connect_calls w) = true ->
  window_frames utc_now socket_connect sleep test_duration w = [] ->
  (ScaleDiscovery.test_template utc_now socket_connect sleep template_data
     test_duration w).1
  = ScaleDiscovery.TestFailed 0 ScaleDiscovery.no_data_received.
Proof.
  intros Hup. unfold window_frames, ScaleDiscovery.test_template.
  destruct (ScaleDiscovery.connected (ScaleDiscovery.self w)) eqn:Hc.
  - unfold ScaleDiscovery.start_data_capture. rewrite Hc. cbn -[ScaleDiscovery.get_recent_data].
    destruct (ScaleDiscovery.get_recent_data _ _ _) as [test_data w'].
    cbn. intros ->. reflexivity.
  - destruct Hup as [Hup|Hup]; [discriminate|].
    unfold ScaleDiscovery.connect, ScaleDiscovery.start_data_capture.
    rewrite Hup. cbn -[ScaleDiscovery.get_recent_data].
    destruct (ScaleDiscovery.get_recent_data _ _ _) as [test_data w'].
    cbn. intros ->. reflexivity.
Qed.

Lemma empty_window_reports_no_data_witness :
  let template_data :=
    scenario_template None None None (pystr_of_string "weight") None in
  (ScaleDiscovery.connected (ScaleDiscovery.self discovery_world2) = true
   \/ always_connects (ScaleDiscovery.connect_calls discovery_world2) = true) /\
  window_frames clock_seconds always_connects quiet_sleep 5%Q discovery_world2 = [] /\
  (ScaleDiscovery.test_template clock_seconds always_connects quiet_sleep
     template_data 5%Q discovery_world2).1
  = ScaleDiscovery.TestFailed 0 ScaleDiscovery.no_data_received.
Proof.
  intros template_data.
  assert (ScaleDiscovery.connected (ScaleDiscovery.self discovery_world2) = true
          \/ always_connects (ScaleDiscovery.connect_calls discovery_world2) = true)
    as Hup by (left; reflexivity).
  assert (window_frames clock_seconds always_connects quiet_sleep 5%Q
            discovery_world2 = []) as Hempty by (vm_compute; reflexivity).
  split; [exact Hup|]. split; [exact Hempty|].
  apply (empty_window_reports_no_data clock_seconds always_connects quiet_sleep
           template_data 5%Q discovery_world2 Hup Hempty).
Defined.

(** [test_template] reports every failure with confidence 0. *)
Lemma test_template_failure_confidence {F} `{PyFloat F} (utc_now : nat -> F)
    (socket_connect : nat -> bool)
    (sleep : F -> ScaleDiscovery.world F -> ScaleDiscovery.world F)
    template_data test_duration w confidence error :
  (ScaleDiscovery.test_template utc_now socket_connect sleep template_data
     test_duration w).1
  = ScaleDiscovery.TestFailed confidence error ->
  confidence = 0%Z.
Proof.
  unfold ScaleDiscovery.test_template.
  destruct (if ScaleDiscovery.connected (ScaleDiscovery.self w) then _ else _)
    as [[] w1]; cbn [negb]; [|intros [= <- _]; reflexivity].
  destruct (ScaleDiscovery.start_data_capture socket_connect w1)
    as [[] w2]; cbn [negb]; [|intros [= <- _]; reflexivity].
  destruct (ScaleDiscovery.get_recent_data _ _ _) as [test_data w3].
  destruct (negb _); cbn [fst]; [intros [= <- _]; reflexivity | discriminate].
Qed.

(* ===================================================================== *)
(** ** Synthesis of a template *)
(* ===================================================================== *)

Section SynthesisFacts.
Import ScaleDiscovery.
Context {F : Type} `{PyFloat F}.

(** When [_calculate_confidence] computes scores, ['overall'] is the mean of
    the two percentages. *)
Lemma calculate_confidence_overall (e : ProtocolDiscoveryEngine (F := F)) :
  (2 <= List.length (discovery_steps e))%nat ->
  concat (map captured_data (discovery_steps e)) <> [] ->
  let all_data := concat (map captured_data (discovery_steps e)) in
  confidence_scores (_calculate_confidence e) !! "overall"
  = Some (fdiv
            (fadd
               (percentage
                  (List.length
                     (List.filter
                        (fun d => contains d [CR] || contains d [LF]) all_data))
                  (List.length all_data))
               (percentage
                  (List.length (List.filter has_numeric_pattern all_data))
                  (List.length all_data)))
            (of_int 2)).
Proof.
  intros Hlen Hne all_data. subst all_data. unfold _calculate_confidence.
  destruct (Nat.ltb_spec (List.length (discovery_steps e)) 2) as [Hlt|_]; [lia|].
  destruct (concat (map captured_data (discovery_steps e))) as [|d rest];
    [congruence|].
  cbn [truthy confidence_scores].
  rewrite lookup_insert_ne by discriminate.
  rewrite lookup_insert_ne by discriminate.
  apply lookup_insert_eq.
Qed.

Lemma calculate_confidence_steps (e : ProtocolDiscoveryEngine (F := F)) :
  discovery_steps (_calculate_confidence e) = discovery_steps e.
Proof.
  unfold _calculate_confidence.
  destruct (_ <? _)%nat; [reflexivity|]. destruct (truthy _); reflexivity.
Qed.

End SynthesisFacts.

(** What [_analyze_and_create_template] and [_finalize_discovery] do on any
    engine with a first step.  With a frame in that step, the template has
    the single field [weight], numeric, with start 0 and the length of that
    step's first frame, the escaped CRLF delimiter, the encoding ASCII and the
    score stored under ['overall'] (0 without one), and [_finalize_discovery]
    saves it.  With no frame in that step, the guard returns [None] before the
    template is built. *)
Lemma synthesis_on_first_step {F} `{PyFloat F} (write_succeeds : pystr -> bool)
    (e : ScaleDiscovery.ProtocolDiscoveryEngine (F := F))
    (first_step : ScaleDiscovery.DiscoveryStep (F := F))
    (later_steps : list (ScaleDiscovery.DiscoveryStep (F := F)))
    (unix_time : Z) (local_time : pystr) (utc_time : F) :
  ScaleDiscovery.discovery_steps e = first_step :: later_steps ->
  match ScaleDiscovery.captured_data first_step with
  | first_frame :: _ =>
      exists template,
        ScaleDiscovery._analyze_and_create_template e unix_time local_time utc_time
        = ScaleDiscovery.Returned (Some template)
        /\ ScaleDiscovery._finalize_discovery write_succeeds e unix_time
             local_time utc_time
           = (if write_succeeds
                   (ScaleDiscovery.template_path
                      (ScaleDiscovery.pt_template_id template))
              then ScaleDiscovery.Returned (true, Some template)
              else ScaleDiscovery.Raised ScaleDiscovery.OSError)
        /\ ScaleDiscovery.pt_fields template
           = [ {| ScaleDiscovery.pf_name := pystr_of_string "weight";
                  ScaleDiscovery.pf_start := 0;
                  ScaleDiscovery.pf_length := Z.of_nat (List.length first_frame);
                  ScaleDiscovery.pf_field_type := pystr_of_string "numeric";
                  ScaleDiscovery.pf_decimal_places := Some 2%Z;
                  ScaleDiscovery.pf_values := None |} ]
        /\ ScaleDiscovery.pt_delimiter template = ScaleDiscovery.escaped_crlf
        /\ ScaleDiscovery.pt_encoding template = pystr_of_string "ASCII"
        /\ ScaleDiscovery.pt_confidence_score template = overall_score e
  | [] =>
      ScaleDiscovery._analyze_and_create_template e unix_time local_time utc_time
      = ScaleDiscovery.Returned None
      /\ ScaleDiscovery._finalize_discovery write_succeeds e unix_time
           local_time utc_time
         = ScaleDiscovery.Returned (false, None)
  end.
Proof.
  intros Hsteps.
  unfold ScaleDiscovery._finalize_discovery, ScaleDiscovery._save_template,
    ScaleDiscovery._analyze_and_create_template.
  rewrite Hsteps. cbn [truthy negb].
  destruct (ScaleDiscovery.captured_data first_step) as [|first_frame frames].
  - split; reflexivity.
  - eexists. split; [reflexivity|]. cbn [truthy negb ScaleDiscovery.pt_template_id].
    split; [destruct (write_succeeds _); reflexivity|]. repeat split.
Qed.

Section SynthesisStates.
Import ScaleDiscovery.
Context {F : Type} `{PyFloat F}.

(** Computing the scores again changes nothing. *)
Lemma calculate_confidence_again (e : ProtocolDiscoveryEngine (F := F)) :
  _calculate_confidence (_calculate_confidence e) = _calculate_confidence e.
Proof.
  unfold _calculate_confidence at 2 3.
  destruct (List.length (discovery_steps e) <? 2)%nat eqn:Hlen.
  - unfold _calculate_confidence. rewrite Hlen. reflexivity.
  - destruct (truthy (concat (map captured_data (discovery_steps e)))) eqn:Hdata.
    + unfold _calculate_confidence. cbn [discovery_steps].
      rewrite Hlen, Hdata. reflexivity.
    + unfold _calculate_confidence. rewrite Hlen, Hdata. reflexivity.
Qed.

(** A capture step that recorded something appended a step with a frame. *)
Lemma capture_step_recorded utc_now sleep sleep_seconds max_age_seconds number
    action_name weight (s s' : ProtocolDiscoveryEngine (F := F) * world F) :
  DiscoverySession.capture_step utc_now sleep sleep_seconds max_age_seconds
    number action_name weight s = (true, s') ->
  exists step,
    discovery_steps s'.1 = discovery_steps s.1 ++ [step]
    /\ confidence_scores s'.1 = confidence_scores s.1
    /\ captured_data step <> []
    /\ step_number step = number
    /\ action step = action_name.
Proof.
  destruct s as [e w]. unfold DiscoverySession.capture_step.
  destruct (get_recent_data utc_now max_age_seconds _) as [l w1].
  destruct (Link.deref (store w1) l) as [|x frames]; cbn [truthy negb];
    [discriminate|].
  cbn [datetime_now]. intros [= <-]. eexists. cbn [fst discovery_steps].
  split; [reflexivity|]. split; [reflexivity|].
  split; [discriminate|]. split; reflexivity.
Qed.

(** At synthesis the first step holds a frame and the stored scores are
    those [_calculate_confidence] gives for the recorded steps. *)
Lemma at_synthesis_invariant (e : ProtocolDiscoveryEngine (F := F)) :
  at_synthesis e ->
  (exists first_step later_steps,
     discovery_steps e = first_step :: later_steps
     /\ captured_data first_step <> [])
  /\ _calculate_confidence e = e.
Proof.
  induction 1 as [utc_now sleep w s Hstep
                 |utc_now sleep e w number weight s _ IH Hstep].
  - apply capture_step_recorded in Hstep as (step & Hsteps & Hscores & Hdata & _).
    cbn [fst discovery_steps confidence_scores app] in Hsteps, Hscores.
    split; [exists step, []; split; assumption|].
    unfold _calculate_confidence. rewrite Hsteps. reflexivity.
  - destruct IH as [(first_step & later_steps & Hfirst & Hdata) _].
    unfold DiscoverySession._capture_weight_step in Hstep.
    apply capture_step_recorded in Hstep as (step & Hsteps & _).
    cbn [fst] in Hsteps. split; [|apply calculate_confidence_again].
    exists first_step, (later_steps ++ [step]).
    rewrite calculate_confidence_steps, Hsteps, Hfirst.
    split; [reflexivity | exact Hdata].
Qed.

End SynthesisStates.

(** C5: at the synthesis of a session, that is for every engine
    [_finalize_discovery] can find, [_analyze_and_create_template] builds a
    template with exactly one field, [weight], of type numeric, with start 0
    and the length of the first frame of the first recorded step (10 were
    that step without a frame, which does not occur: the first step always
    holds one), with CRLF as delimiter, written in its escaped form and read
    as CR LF by [_analyze_template_match], the encoding ASCII and the overall
    score last computed as confidence (0 when none was computed);
    [_finalize_discovery] saves this template and returns [True], unless the
    file cannot be written. *)
Theorem synthesis_builds_claimed_template {F} `{PyFloat F}
    (write_succeeds : pystr -> bool)
    (e : ScaleDiscovery.ProtocolDiscoveryEngine (F := F))
    (unix_time : Z) (local_time : pystr) (utc_time : F) :
  at_synthesis e ->
  exists first_step later_steps template,
    ScaleDiscovery.discovery_steps e = first_step :: later_steps
    /\ ScaleDiscovery._analyze_and_create_template e unix_time local_time utc_time
       = ScaleDiscovery.Returned (Some template)
    /\ ScaleDiscovery.pt_fields template
       = [ {| ScaleDiscovery.pf_name := pystr_of_string "weight";
              ScaleDiscovery.pf_start := 0;
              ScaleDiscovery.pf_length :=
                match ScaleDiscovery.captured_data first_step with
                | first_frame :: _ => Z.of_nat (List.length first_frame)
                | [] => 10
                end;
              ScaleDiscovery.pf_field_type := pystr_of_string "numeric";
              ScaleDiscovery.pf_decimal_places := Some 2%Z;
              ScaleDiscovery.pf_values := None |} ]
    /\ ScaleDiscovery.pt_delimiter template = ScaleDiscovery.escaped_crlf
    /\ ScaleDiscovery.template_delimiter
         {| ScaleDiscovery.template_id := Some (ScaleDiscovery.pt_template_id template);
            ScaleDiscovery.template_name := Some (ScaleDiscovery.pt_name template);
            ScaleDiscovery.delimiter := Some (ScaleDiscovery.pt_delimiter template);
            ScaleDiscovery.fields := None |}
       = [CR; LF]
    /\ ScaleDiscovery.pt_encoding template = pystr_of_string "ASCII"
    /\ ScaleDiscovery.pt_confidence_score template
       = overall_score (ScaleDiscovery._calculate_confidence e)
    /\ ScaleDiscovery._calculate_confidence e = e
    /\ ScaleDiscovery.captured_data first_step <> []
    /\ ScaleDiscovery._finalize_discovery write_succeeds e unix_time
         local_time utc_time
       = (if write_succeeds
               (ScaleDiscovery.template_path
                  (ScaleDiscovery.pt_template_id template))
          then ScaleDiscovery.Returned (true, Some template)
          else ScaleDiscovery.Raised ScaleDiscovery.OSError).
Proof.
  intros Hat.
  destruct (at_synthesis_invariant e Hat)
    as [(first_step & later_steps & Hsteps & Hdata) Hscores].
  pose proof (synthesis_on_first_step write_succeeds e first_step later_steps
                unix_time local_time utc_time Hsteps) as Hsyn.
  exists first_step, later_steps.
  destruct (ScaleDiscovery.captured_data first_step) as [|first_frame frames];
    [congruence|].
  destruct Hsyn as (template & Hbuilt & Hfin & Hfields & Hdelim & Henc & Hconf).
  exists template. rewrite Hscores.
  split; [exact Hsteps|]. split; [exact Hbuilt|]. split; [exact Hfields|].
  split; [exact Hdelim|].
  split; [cbn [ScaleDiscovery.delimiter]; rewrite Hdelim; reflexivity|].
  split; [exact Henc|]. split; [exact Hconf|]. split; [reflexivity|].
  split; [discriminate | exact Hfin].
Qed.

Lemma synthesis_builds_claimed_template_witness :
  at_synthesis engine_after_two_steps
  /\ exists template,
       ScaleDiscovery._finalize_discovery writable engine_after_two_steps
         1700000000 (pystr_of_string "2023-11-14 22:13:20") 1700000000%Q
       = ScaleDiscovery.Returned (true, Some template)
       /\ map ScaleDiscovery.pf_length (ScaleDiscovery.pt_fields template)
          = [14%Z]
       /\ (ScaleDiscovery.pt_confidence_score template == 50)%Q.
Proof.
  assert (at_synthesis engine_after_two_steps) as Hat.
  { apply (weight_recorded clock_seconds two_frames_per_sleep
             session_after_baseline.1 session_after_baseline.2 2 1%Q
             session_after_weight).
    - apply (baseline_recorded clock_seconds two_frames_per_sleep
               discovery_world0 session_after_baseline).
      vm_compute. reflexivity.
    - vm_compute. reflexivity. }
  split; [exact Hat|].
  destruct (synthesis_builds_claimed_template writable engine_after_two_steps
              1700000000 (pystr_of_string "2023-11-14 22:13:20") 1700000000%Q Hat)
    as (first_step & later_steps & template & Hsteps & _ & Hfields & _ & _ & _
        & Hconf & _ & _ & Hfin).
  exists template. split; [exact Hfin|]. split.
  - rewrite Hfields. vm_compute in Hsteps. injection Hsteps as <- _.
    reflexivity.
  - rewrite Hconf. vm_compute. reflexivity.
Defined.

(** The delimiter of a synthesized template, as [_analyze_template_match]
    reads it, is CR LF. *)
Lemma synthesized_delimiter_is_crlf id template_name template_fields :
  ScaleDiscovery.template_delimiter
    {| ScaleDiscovery.template_id := id;
       ScaleDiscovery.template_name := template_name;
       ScaleDiscovery.delimiter := Some ScaleDiscovery.escaped_crlf;
       ScaleDiscovery.fields := template_fields |}
  = [CR; LF].
Proof. reflexivity. Qed.

Lemma recent_data_is_filtered_snapshot_witness :
  let max_age_seconds := (3 # 2)%Q in
  let dr := ScaleDiscovery.get_recent_data clock_seconds max_age_seconds
              discovery_world2 in
  let lr := ScaleLogger.get_recent_data clock_seconds max_age_seconds
              logger_world2 in
  discovery_holds discovery_world2 (ScaleDiscovery.buffer discovery_world2) /\
  logger_holds logger_world2 (ScaleLogger.buffer logger_world2) /\
  frame_texts (ScaleDiscovery.buffer discovery_world2) = [[97]; [98]] /\
  frame_texts (Link.deref (ScaleDiscovery.store dr.2) dr.1) = [[98]] /\
  ScaleDiscovery.buffer dr.2 = ScaleDiscovery.buffer discovery_world2 /\
  ScaleLogger.buffer lr.2 = ScaleLogger.buffer logger_world2.
Proof.
  intros max_age_seconds dr lr.
  assert (discovery_holds discovery_world2 (ScaleDiscovery.buffer discovery_world2))
    as Hd by (vm_compute; reflexivity).
  assert (logger_holds logger_world2 (ScaleLogger.buffer logger_world2))
    as Hl by (vm_compute; reflexivity).
  destruct (recent_data_is_filtered_snapshot clock_seconds max_age_seconds
              discovery_world2 logger_world2 _ _ Hd Hl)
    as [(Hres & _ & _ & _ & _ & _ & Hdbuf & _) (_ & _ & _ & _ & _ & _ & Hlbuf & _)].
  split; [exact Hd|]. split; [exact Hl|].
  split; [vm_compute; reflexivity|].
  split; [|split; [exact Hdbuf | exact Hlbuf]].
  fold dr in Hres. rewrite Hres. vm_compute. reflexivity.
Defined.

(* ===================================================================== *)
(** ** More on the capture loop of the discovery tool *)
(* ===================================================================== *)

Section CaptureLoopMore.
Import Link ScaleDiscovery.
Context {F : Type} `{PyFloat F}.
Variable utc_now : nat -> F.
Implicit Types (w : world F) (buf : list (entry F)).

Lemma capture_loop_inactive partial_data recvs w :
  _running (self w) && connected (self w) = false ->
  capture_loop_from utc_now partial_data recvs w = w.
Proof. intros Hoff. destruct recvs; simpl; rewrite Hoff; reflexivity. Qed.

Lemma capture_loop_timeout partial_data recvs w :
  capture_loop_from utc_now partial_data (RecvTimeout :: recvs) w
  = capture_loop_from utc_now partial_data recvs w.
Proof.
  rewrite capture_loop_from_cons.
  destruct (_running (self w) && connected (self w)) eqn:E; [reflexivity|].
  symmetry. apply capture_loop_inactive, E.
Qed.

(** Reads and timeouts behave as the reads alone. *)
Lemma capture_loop_skips_timeouts recvs partial_data w :
  Forall live_read recvs ->
  capture_loop_from utc_now partial_data recvs w
  = capture_loop_from utc_now partial_data (map RecvData (read_chunks recvs)) w.
Proof.
  intros Hlive. revert partial_data w.
  induction Hlive as [|r recvs Hr _ IH]; intros partial_data w; [reflexivity|].
  destruct r as [recv_data| |]; [| |destruct Hr].
  - change (read_chunks (RecvData recv_data :: recvs))
      with (recv_data :: read_chunks recvs).
    cbn [map]. rewrite !capture_loop_from_cons.
    destruct (negb _); [reflexivity|]. destruct (negb _); [reflexivity|].
    apply IH.
  - rewrite capture_loop_timeout. apply IH.
Qed.

Lemma read_chunks_nonempty recvs :
  Forall live_read recvs -> Forall (fun c => c <> []) (read_chunks recvs).
Proof.
  induction 1 as [|r recvs Hr _ IH]; [constructor|].
  destruct r as [recv_data| |]; [constructor; assumption | exact IH | exact IH].
Qed.

Lemma read_chunks_concat recvs : concat (read_chunks recvs) = received_bytes recvs.
Proof.
  induction recvs as [|r recvs IH]; [reflexivity|].
  destruct r; simpl; rewrite ?IH; reflexivity.
Qed.

(** The capture loop never rebinds [self._data_buffer] and touches no other
    list object than the buffer. *)
Lemma capture_line_store w line :
  _data_buffer (self (capture_line utc_now w line)) = _data_buffer (self w) /\
  forall l, l <> _data_buffer (self w) ->
            store (capture_line utc_now w line) !! l = store w !! l.
Proof.
  unfold capture_line. destruct (truthy (strip line)); [|split; reflexivity].
  split; [reflexivity|]. intros l Hl. simpl. apply lookup_list_append_ne. congruence.
Qed.

Lemma capture_lines_store lines w :
  _data_buffer (self (fold_left (capture_line utc_now) lines w))
  = _data_buffer (self w) /\
  forall l, l <> _data_buffer (self w) ->
            store (fold_left (capture_line utc_now) lines w) !! l = store w !! l.
Proof.
  revert w. induction lines as [|line lines IH]; intros w; [split; reflexivity|].
  simpl. destruct (IH (capture_line utc_now w line)) as [Hb Hs].
  destruct (capture_line_store w line) as [Hb1 Hs1].
  split; [congruence|]. intros l Hl. rewrite Hs by congruence. apply Hs1, Hl.
Qed.

Lemma capture_loop_store recvs partial_data w :
  _data_buffer (self (capture_loop_from utc_now partial_data recvs w))
  = _data_buffer (self w) /\
  forall l, l <> _data_buffer (self w) ->
            store (capture_loop_from utc_now partial_data recvs w) !! l
            = store w !! l.
Proof.
  revert partial_data w. induction recvs as [|r recvs IH]; intros partial_data w.
  - simpl. destruct (negb _); split; reflexivity.
  - rewrite capture_loop_from_cons.
    destruct (negb (_running (self w) && connected (self w))); [split; reflexivity|].
    destruct r as [recv_data| |]; [|apply IH | split; reflexivity].
    destruct (negb (truthy recv_data)); [split; reflexivity|].
    destruct (IH (capture_received utc_now partial_data recv_data w).1
                 (capture_received utc_now partial_data recv_data w).2) as [Hb Hs].
    destruct (capture_lines_store
                (removelast (re_split_crlf
                               (partial_data ++ decode_ascii_replace recv_data))) w)
      as [Hb1 Hs1].
    unfold capture_received in *. cbn [fst snd] in *.
    split; [congruence|]. intros l Hl. rewrite Hs by congruence. apply Hs1, Hl.
Qed.

(** After the outcome that closes the link the loop has ended: what follows
    is not read, and what was buffered stays. *)
Lemma capture_loop_closed r pre rest partial_data w :
  closes_link r ->
  capture_loop_from utc_now partial_data (pre ++ r :: rest) w
  = capture_loop_from utc_now partial_data (pre ++ [r]) w
  /\ (let w' := capture_loop_from utc_now partial_data (pre ++ [r]) w in
      _running (self w') && connected (self w') = false
      /\ store w' = store (capture_loop_from utc_now partial_data pre w)).
Proof.
  intros Hr. revert partial_data w.
  induction pre as [|r0 pre IH]; intros partial_data w.
  - cbn [app]. rewrite !capture_loop_from_cons.
    destruct (_running (self w) && connected (self w)) eqn:E; cbn [negb].
    + destruct Hr as [-> | ->]; cbn [truthy negb].
      * split; [reflexivity|]. split; [apply andb_false_r|].
        simpl. rewrite E. reflexivity.
      * split; [reflexivity|]. split; [apply andb_false_r|].
        simpl. rewrite E. reflexivity.
    + split; [reflexivity|]. split; [exact E|]. simpl. rewrite E. reflexivity.
  - cbn [app]. rewrite !capture_loop_from_cons.
    destruct (_running (self w) && connected (self w)) eqn:E; cbn [negb];
      [|split; [reflexivity | split; [exact E | reflexivity]]].
    destruct r0 as [recv_data| |].
    + destruct (truthy recv_data); cbn [negb].
      * apply IH.
      * split; [reflexivity|]. split; [apply andb_false_r | reflexivity].
    + apply IH.
    + split; [reflexivity|]. split; [apply andb_false_r | reflexivity].
Qed.

End CaptureLoopMore.

(** X1: with the link up, [_capture_loop] buffers the same frame texts, in
    the same order, for any interleaving of non-empty reads and read
    timeouts as for one read of all the bytes delivered. *)
Theorem capture_loop_reads_and_timeouts {F} `{PyFloat F} (utc_now : nat -> F)
    (recvs : list ScaleDiscovery.recv_outcome) (w : ScaleDiscovery.world F) buf :
  discovery_holds w buf ->
  ScaleDiscovery._running (ScaleDiscovery.self w) = true ->
  ScaleDiscovery.connected (ScaleDiscovery.self w) = true ->
  Forall live_read recvs ->
  frame_texts (ScaleDiscovery.buffer (ScaleDiscovery._capture_loop utc_now recvs w))
  = frame_texts
      (ScaleDiscovery.buffer
         (ScaleDiscovery._capture_loop utc_now
            [ScaleDiscovery.RecvData (received_bytes recvs)] w)).
Proof.
  intros Hw Hr Hc Hlive. unfold ScaleDiscovery._capture_loop.
  rewrite (capture_loop_skips_timeouts utc_now recvs [] w Hlive).
  rewrite <- read_chunks_concat.
  apply (capture_loop_chunk_independent utc_now (read_chunks recvs) w buf Hw Hr Hc).
  apply read_chunks_nonempty, Hlive.
Qed.

Lemma capture_loop_reads_and_timeouts_witness :
  let recvs :=
    [ScaleDiscovery.RecvData (bytes_of_string "12.3");
     ScaleDiscovery.RecvTimeout;
     ScaleDiscovery.RecvData (bytes_of_string "45" ++ CRLF_bytes ++ bytes_of_string "7");
     ScaleDiscovery.RecvTimeout;
     ScaleDiscovery.RecvData (bytes_of_string ".5" ++ CRLF_bytes)] in
  discovery_holds discovery_world0 [] /\
  Forall live_read recvs /\
  frame_texts
    (ScaleDiscovery.buffer (ScaleDiscovery._capture_loop clock_seconds recvs
                              discovery_world0))
  = [pystr_of_string "12.345"; pystr_of_string "7.5"].
Proof.
  intros recvs.
  assert (discovery_holds discovery_world0 []) as Hw by reflexivity.
  assert (Forall live_read recvs) as Hlive
    by (repeat constructor; discriminate).
  split; [exact Hw|]. split; [exact Hlive|].
  rewrite (capture_loop_reads_and_timeouts clock_seconds recvs discovery_world0 []
             Hw eq_refl eq_refl Hlive).
  vm_compute. reflexivity.
Defined.

(** X2: an empty read or a socket error ends [_capture_loop]: the outcomes
    that follow are never read, the loop condition is off afterwards, and no
    list object differs from what the reads before it left. *)
Theorem capture_loop_stops_at_closed_link {F} `{PyFloat F} (utc_now : nat -> F)
    (r : ScaleDiscovery.recv_outcome)
    (pre rest : list ScaleDiscovery.recv_outcome) (partial_data : pystr)
    (w : ScaleDiscovery.world F) :
  closes_link r ->
  let w' := ScaleDiscovery.capture_loop_from utc_now partial_data
              (pre ++ r :: rest) w in
  ScaleDiscovery._running (ScaleDiscovery.self w')
  && ScaleDiscovery.connected (ScaleDiscovery.self w') = false
  /\ ScaleDiscovery.store w'
     = ScaleDiscovery.store
         (ScaleDiscovery.capture_loop_from utc_now partial_data pre w)
  /\ w' = ScaleDiscovery.capture_loop_from utc_now partial_data (pre ++ [r]) w.
Proof.
  intros Hr w'.
  destruct (capture_loop_closed utc_now r pre rest partial_data w Hr)
    as (Heq & Hoff & Hstore).
  unfold w'. rewrite Heq. split; [exact Hoff|]. split; [exact Hstore | reflexivity].
Qed.

Lemma capture_loop_stops_at_closed_link_witness :
  let pre := [ScaleDiscovery.RecvData (bytes_of_string "1.0" ++ CRLF_bytes)] in
  let rest := [ScaleDiscovery.RecvData (bytes_of_string "2.0" ++ CRLF_bytes)] in
  let w' := ScaleDiscovery.capture_loop_from clock_seconds []
              (pre ++ ScaleDiscovery.RecvData [] :: rest) discovery_world0 in
  closes_link (ScaleDiscovery.RecvData []) /\
  ScaleDiscovery.connected (ScaleDiscovery.self w') = false /\
  frame_texts (ScaleDiscovery.buffer w') = [pystr_of_string "1.0"].
Proof.
  intros pre rest w'.
  assert (closes_link (ScaleDiscovery.RecvData [])) as Hr by (right; reflexivity).
  destruct (capture_loop_stops_at_closed_link clock_seconds _ pre rest []
              discovery_world0 Hr) as (_ & _ & Heq).
  split; [exact Hr|]. fold w' in Heq. rewrite Heq.
  split; vm_compute; reflexivity.
Defined.

(* ===================================================================== *)
(** ** Snapshots and later operations *)
(* ===================================================================== *)

Section SnapshotFacts.
Import Link.
Context {F : Type} `{PyFloat F}.
Variable utc_now : nat -> F.
Variable socket_connect : nat -> bool.

(** A list object other than the buffer keeps its contents through every
    operation of the discovery tool's manager. *)
Lemma discovery_evolves_keeps (w w' : ScaleDiscovery.world F) l v :
  discovery_evolves utc_now socket_connect w w' ->
  ScaleDiscovery.store w !! l = Some v ->
  l <> ScaleDiscovery._data_buffer (ScaleDiscovery.self w) ->
  ScaleDiscovery.store w' !! l = Some v
  /\ ScaleDiscovery._data_buffer (ScaleDiscovery.self w')
     = ScaleDiscovery._data_buffer (ScaleDiscovery.self w).
Proof.
  intros Hev.
  induction Hev as [w | w w' p recvs _ IH | w w' _ IH
                   | w w' _ IH | w w' _ IH | w w' age _ IH];
    intros Hl Hne; try (destruct (IH Hl Hne) as [IHs IHb]).
  - split; [exact Hl | reflexivity].
  - destruct (capture_loop_store utc_now recvs p w') as [Hb Hs].
    split; [rewrite Hs by congruence; exact IHs | congruence].
  - split; [exact IHs | exact IHb].
  - split; [|rewrite <- IHb].
    + unfold ScaleDiscovery.start_data_capture.
      destruct (ScaleDiscovery.connected (ScaleDiscovery.self w')); cbn; [exact IHs|].
      destruct (socket_connect _); exact IHs.
    + unfold ScaleDiscovery.start_data_capture.
      destruct (ScaleDiscovery.connected (ScaleDiscovery.self w')); cbn; [reflexivity|].
      destruct (socket_connect _); reflexivity.
  - split; [|exact IHb]. unfold ScaleDiscovery.clear_buffer. simpl.
    unfold list_clear. rewrite lookup_alter_ne by congruence. exact IHs.
  - split; [|exact IHb]. unfold ScaleDiscovery.get_recent_data. cbn.
    apply alloc_preserves, alloc_preserves, IHs.
Qed.

Lemma process_line_keeps (w : ScaleLogger.world F) line l v :
  ScaleLogger.store w !! l = Some v ->
  l <> ScaleLogger._data_buffer (ScaleLogger.self w) ->
  ScaleLogger.store (ScaleLogger.process_line utc_now w line) !! l = Some v
  /\ l <> ScaleLogger._data_buffer
            (ScaleLogger.self (ScaleLogger.process_line utc_now w line)).
Proof.
  intros Hl Hne. unfold ScaleLogger.process_line.
  destruct (truthy (strip line)); [|split; assumption].
  cbn [ScaleLogger.datetime_now].
  set (w1 := ScaleLogger.set_store _ _).
  assert (ScaleLogger.store w1 !! l = Some v) as H1.
  { unfold w1. simpl. rewrite lookup_list_append_ne by congruence. exact Hl. }
  destruct (_ <? _)%nat; [|split; [exact H1 | exact Hne]].
  cbn. split; [apply alloc_preserves, H1|].
  intros E.
  exact (alloc_ne (ScaleLogger.store w1)
           (py_slice_from (ScaleLogger.buffer w1) (-500)) l v H1 (eq_sym E)).
Qed.

Lemma process_lines_keeps lines (w : ScaleLogger.world F) l v :
  ScaleLogger.store w !! l = Some v ->
  l <> ScaleLogger._data_buffer (ScaleLogger.self w) ->
  ScaleLogger.store (fold_left (ScaleLogger.process_line utc_now) lines w) !! l
  = Some v
  /\ l <> ScaleLogger._data_buffer
            (ScaleLogger.self (fold_left (ScaleLogger.process_line utc_now) lines w)).
Proof.
  revert w. induction lines as [|line lines IH]; intros w Hl Hne; [split; assumption|].
  simpl. destruct (process_line_keeps w line l v Hl Hne) as [H1 H2].
  apply IH; assumption.
Qed.

Lemma monitor_iteration_keeps partial_data it (w : ScaleLogger.world F) l v :
  ScaleLogger.store w !! l = Some v ->
  l <> ScaleLogger._data_buffer (ScaleLogger.self w) ->
  ScaleLogger.store (ScaleLogger.monitor_iteration utc_now partial_data it w) !! l
  = Some v
  /\ l <> ScaleLogger._data_buffer
            (ScaleLogger.self (ScaleLogger.monitor_iteration utc_now partial_data it w)).
Proof.
  intros Hl Hne. unfold ScaleLogger.monitor_iteration.
  assert (exists w1 ok,
             (if ScaleLogger.connected (ScaleLogger.self w) then (true, w)
              else ScaleLogger.connect utc_now (ScaleLogger.connect_succeeds it) w)
             = (ok, w1)
             /\ ScaleLogger.store w1 !! l = Some v
             /\ l <> ScaleLogger._data_buffer (ScaleLogger.self w1))
    as (w1 & ok & -> & H1 & Hne1).
  { destruct (ScaleLogger.connected (ScaleLogger.self w)).
    - exists w, true. repeat split; assumption.
    - unfold ScaleLogger.connect. destruct (ScaleLogger.connect_succeeds it);
        eexists; eexists; (split; [reflexivity|]); split; assumption. }
  destruct ok; cbn [negb]; [|split; assumption].
  destruct (ScaleLogger.received it) as [recv_data| |]; [|split; assumption..].
  destruct (truthy recv_data); cbn [negb]; [|split; assumption].
  unfold ScaleLogger._process_received_data.
  destruct (process_lines_keeps
              (removelast (re_split_crlf
                             (partial_data ++ decode_ascii_replace recv_data)))
              w1 l v H1 Hne1) as [H3 Hne3].
  split; [exact H3 | exact Hne3].
Qed.

Lemma monitor_loop_keeps its partial_data (w : ScaleLogger.world F) l v :
  ScaleLogger.store w !! l = Some v ->
  l <> ScaleLogger._data_buffer (ScaleLogger.self w) ->
  ScaleLogger.store (ScaleLogger.monitor_loop_from utc_now partial_data its w) !! l
  = Some v
  /\ l <> ScaleLogger._data_buffer
            (ScaleLogger.self
               (ScaleLogger.monitor_loop_from utc_now partial_data its w)).
Proof.
  revert w. induction its as [|it its IH]; intros w Hl Hne; simpl.
  - destruct (negb _); split; assumption.
  - destruct (negb _); [split; assumption|].
    destruct (monitor_iteration_keeps partial_data it w l v Hl Hne) as [H1 Hne1].
    apply IH; assumption.
Qed.

Lemma logger_evolves_keeps (w w' : ScaleLogger.world F) l v :
  logger_evolves utc_now w w' ->
  ScaleLogger.store w !! l = Some v ->
  l <> ScaleLogger._data_buffer (ScaleLogger.self w) ->
  ScaleLogger.store w' !! l = Some v
  /\ l <> ScaleLogger._data_buffer (ScaleLogger.self w').
Proof.
  intros Hev.
  induction Hev as [w | w w' p its _ IH | w w' ok _ IH | w w' age _ IH];
    intros Hl Hne; try (destruct (IH Hl Hne) as [IHs IHb]).
  - split; assumption.
  - apply monitor_loop_keeps; assumption.
  - unfold ScaleLogger.connect. destruct ok; split; assumption.
  - split; [|exact IHb]. unfold ScaleLogger.get_recent_data. cbn.
    apply alloc_preserves, alloc_preserves, IHs.
Qed.

End SnapshotFacts.

(** X3: the list [get_recent_data] returns is a snapshot: whatever either
    manager does afterwards (capturing, clearing or trimming the buffer,
    reconnecting, reading again), the returned list still holds the entries
    selected at the time of the call. *)
Theorem snapshot_survives_later_operations {F} `{PyFloat F} (utc_now : nat -> F)
    (socket_connect : nat -> bool) (max_age_seconds : F)
    (dw dw' : ScaleDiscovery.world F) (lw lw' : ScaleLogger.world F)
    (dbuf lbuf : list (Link.entry F)) :
  discovery_holds dw dbuf ->
  logger_holds lw lbuf ->
  discovery_evolves utc_now socket_connect
    (ScaleDiscovery.get_recent_data utc_now max_age_seconds dw).2 dw' ->
  logger_evolves utc_now
    (ScaleLogger.get_recent_data utc_now max_age_seconds lw).2 lw' ->
  Link.deref (ScaleDiscovery.store dw')
    (ScaleDiscovery.get_recent_data utc_now max_age_seconds dw).1
  = newer_than (fsub (utc_now (ScaleDiscovery.now_calls dw)) max_age_seconds) dbuf
  /\
  Link.deref (ScaleLogger.store lw')
    (ScaleLogger.get_recent_data utc_now max_age_seconds lw).1
  = newer_than (fsub (utc_now (ScaleLogger.now_calls lw)) max_age_seconds) lbuf.
Proof.
  intros Hd Hl Hdev Hlev. split.
  - pose proof (snapshot_alloc (ScaleDiscovery.store dw)
                  (newer_than
                     (fsub (utc_now (ScaleDiscovery.now_calls dw)) max_age_seconds)
                     (ScaleDiscovery.buffer dw))) as (Hres & _ & Hpres).
    set (r := ScaleDiscovery.get_recent_data utc_now max_age_seconds dw) in *.
    rewrite <- (holds_buffer _ _ Hd).
    assert (ScaleDiscovery.store r.2 !! r.1
            = Some (newer_than
                      (fsub (utc_now (ScaleDiscovery.now_calls dw)) max_age_seconds)
                      (ScaleDiscovery.buffer dw))) as Hr by exact Hres.
    assert (r.1 <> ScaleDiscovery._data_buffer (ScaleDiscovery.self r.2)) as Hne
      by apply (Hpres _ _ Hd).
    destruct (discovery_evolves_keeps utc_now socket_connect r.2 dw' r.1 _
                Hdev Hr Hne) as [Hkeep _].
    apply deref_lookup, Hkeep.
  - pose proof (snapshot_alloc (ScaleLogger.store lw)
                  (newer_than
                     (fsub (utc_now (ScaleLogger.now_calls lw)) max_age_seconds)
                     (ScaleLogger.buffer lw))) as (Hres & _ & Hpres).
    set (r := ScaleLogger.get_recent_data utc_now max_age_seconds lw) in *.
    rewrite <- (logger_holds_buffer _ _ Hl).
    assert (ScaleLogger.store r.2 !! r.1
            = Some (newer_than
                      (fsub (utc_now (ScaleLogger.now_calls lw)) max_age_seconds)
                      (ScaleLogger.buffer lw))) as Hr by exact Hres.
    assert (r.1 <> ScaleLogger._data_buffer (ScaleLogger.self r.2)) as Hne
      by apply (Hpres _ _ Hl).
    destruct (logger_evolves_keeps utc_now r.2 lw' r.1 _ Hlev Hr Hne) as [Hkeep _].
    apply deref_lookup, Hkeep.
Qed.

Lemma snapshot_survives_later_operations_witness :
  let max_age_seconds := (5 # 2)%Q in
  let dr := ScaleDiscovery.get_recent_data clock_seconds max_age_seconds
              discovery_world2 in
  let lr := ScaleLogger.get_recent_data clock_seconds max_age_seconds
              logger_world2 in
  let dw' :=
    ScaleDiscovery.capture_loop_from clock_seconds []
      [ScaleDiscovery.RecvData (bytes_of_string "c" ++ CRLF_bytes)]
      (ScaleDiscovery.clear_buffer dr.2) in
  let lw' :=
    ScaleLogger.monitor_loop_from clock_seconds [] [reads (short_lines 1001)] lr.2 in
  discovery_holds discovery_world2 (ScaleDiscovery.buffer discovery_world2) /\
  logger_holds logger_world2 (ScaleLogger.buffer logger_world2) /\
  discovery_evolves clock_seconds always_connects dr.2 dw' /\
  logger_evolves clock_seconds lr.2 lw' /\
  frame_texts (ScaleDiscovery.buffer dw') = [[99]] /\
  List.length (ScaleLogger.buffer lw') = 502%nat /\
  frame_texts (Link.deref (ScaleDiscovery.store dw') dr.1) = [[97]; [98]] /\
  frame_texts (Link.deref (ScaleLogger.store lw') lr.1) = [[98]].
Proof.
  intros max_age_seconds dr lr dw' lw'.
  assert (discovery_holds discovery_world2 (ScaleDiscovery.buffer discovery_world2))
    as Hd by (vm_compute; reflexivity).
  assert (logger_holds logger_world2 (ScaleLogger.buffer logger_world2))
    as Hl by (vm_compute; reflexivity).
  assert (discovery_evolves clock_seconds always_connects dr.2 dw') as Hdev
    by (apply de_capture, de_clear, de_refl).
  assert (logger_evolves clock_seconds lr.2 lw') as Hlev
    by (apply le_monitor, le_refl).
  destruct (snapshot_survives_later_operations clock_seconds always_connects
              max_age_seconds discovery_world2 dw' logger_world2 lw' _ _
              Hd Hl Hdev Hlev) as [Hdsnap Hlsnap].
  split; [exact Hd|]. split; [exact Hl|]. split; [exact Hdev|]. split; [exact Hlev|].
  split; [vm_compute; reflexivity|]. split; [vm_compute; reflexivity|].
  fold dr in Hdsnap. fold lr in Hlsnap. rewrite Hdsnap, Hlsnap.
  split; vm_compute; reflexivity.
Defined.

(* ===================================================================== *)
(** ** The logger while the device cannot be reached *)
(* ===================================================================== *)

Section LoggerOutage.
Import Link ScaleLogger.
Context {F : Type} `{PyFloat F}.
Variable utc_now : nat -> F.
Implicit Types (w : world F).

Lemma monitor_iteration_running partial_data it w :
  _running (self (monitor_iteration utc_now partial_data it w)) = _running (self w).
Proof.
  unfold monitor_iteration.
  destruct (connected (self w)).
  - cbn [negb]. destruct (received it) as [recv_data| |]; try reflexivity.
    destruct (truthy recv_data); cbn [negb]; [|reflexivity].
    cbn. apply process_received_flags.
  - unfold connect. destruct (connect_succeeds it); cbn [negb datetime_now].
    + destruct (received it) as [recv_data| |]; try reflexivity.
      destruct (truthy recv_data); cbn [negb]; [|reflexivity].
      cbn. rewrite (proj2 (process_received_flags utc_now recv_data partial_data _)).
      reflexivity.
    + reflexivity.
Qed.

Lemma monitor_loop_running its partial_data w :
  _running (self (monitor_loop_from utc_now partial_data its w)) = _running (self w).
Proof.
  revert w. induction its as [|it its IH]; intros w; simpl.
  - destruct (negb _); reflexivity.
  - destruct (negb _); [reflexivity|]. rewrite IH. apply monitor_iteration_running.
Qed.

Lemma monitor_loop_outage its partial_data w :
  _running (self w) = true ->
  connected (self w) = false ->
  Forall unreachable_device its ->
  let w' := monitor_loop_from utc_now partial_data its w in
  _consecutive_failures (self w')
  = (_consecutive_failures (self w) + List.length its)%nat
  /\ connected (self w') = false
  /\ _data_buffer (self w') = _data_buffer (self w)
  /\ _last_successful_read (self w') = _last_successful_read (self w)
  /\ store w' = store w.
Proof.
  intros Hr Hc Hdown. revert w Hr Hc.
  induction Hdown as [|it its Hit _ IH]; intros w Hr Hc.
  - simpl. rewrite Hr. simpl. rewrite Nat.add_0_r. repeat split; assumption.
  - cbn [monitor_loop_from]. rewrite Hr. cbn [negb].
    unfold monitor_iteration at 1 2 3 4 5. rewrite Hc. unfold connect.
    rewrite Hit. cbn [negb].
    set (w1 := set_self _ w).
    destruct (IH w1 Hr eq_refl) as (Hf & Hc' & Hb & Hl & Hs).
    rewrite Hf, Hc', Hb, Hl, Hs. cbn. repeat split. lia.
Qed.

End LoggerOutage.

(** X4: [_monitor_loop] never switches itself off; and while every
    connection attempt fails, each iteration adds one to
    [_consecutive_failures] and nothing else changes: the link stays down,
    the buffer and every list object keep their contents, and the time of
    the last successful read is kept. *)
Theorem monitor_loop_counts_failed_connections {F} `{PyFloat F}
    (utc_now : nat -> F) (its : list ScaleLogger.iteration)
    (w : ScaleLogger.world F) :
  ScaleLogger._running (ScaleLogger.self w) = true ->
  ScaleLogger.connected (ScaleLogger.self w) = false ->
  Forall unreachable_device its ->
  let w' := ScaleLogger._monitor_loop utc_now its w in
  ScaleLogger._running (ScaleLogger.self w') = true
  /\ ScaleLogger._consecutive_failures (ScaleLogger.self w')
     = (ScaleLogger._consecutive_failures (ScaleLogger.self w)
        + List.length its)%nat
  /\ ScaleLogger.connected (ScaleLogger.self w') = false
  /\ ScaleLogger._last_successful_read (ScaleLogger.self w')
     = ScaleLogger._last_successful_read (ScaleLogger.self w)
  /\ ScaleLogger.buffer w' = ScaleLogger.buffer w
  /\ ScaleLogger.store w' = ScaleLogger.store w.
Proof.
  intros Hr Hc Hdown w'.
  destruct (monitor_loop_outage utc_now its [] w Hr Hc Hdown)
    as (Hf & Hc' & Hb & Hl & Hs).
  fold (ScaleLogger._monitor_loop utc_now its w) in Hf, Hc', Hb, Hl, Hs.
  fold w' in Hf, Hc', Hb, Hl, Hs.
  split; [unfold w', ScaleLogger._monitor_loop;
          rewrite monitor_loop_running; exact Hr|].
  split; [exact Hf|]. split; [exact Hc'|]. split; [exact Hl|].
  split; [|exact Hs]. unfold ScaleLogger.buffer. rewrite Hb, Hs. reflexivity.
Qed.

Lemma monitor_loop_counts_failed_connections_witness :
  let its := [refused; refused; refused] in
  let w' := ScaleLogger._monitor_loop clock_seconds its logger_world_down in
  ScaleLogger._running (ScaleLogger.self logger_world_down) = true /\
  ScaleLogger.connected (ScaleLogger.self logger_world_down) = false /\
  Forall unreachable_device its /\
  ScaleLogger._consecutive_failures (ScaleLogger.self w') = 4%nat /\
  frame_texts (ScaleLogger.buffer w') = [[97]; [98]].
Proof.
  intros its w'.
  assert (Forall unreachable_device its) as Hdown by (repeat constructor).
  destruct (monitor_loop_counts_failed_connections clock_seconds its
              logger_world_down eq_refl eq_refl Hdown)
    as (_ & Hf & _ & _ & Hb & _).
  split; [reflexivity|]. split; [reflexivity|]. split; [exact Hdown|].
  split; [exact Hf|]. fold w' in Hb. rewrite Hb. vm_compute. reflexivity.
Defined.

Lemma monitor_loop_frames_per_read_witness :
  let chunks := [bytes_of_string "1.0" ++ CRLF_bytes ++ bytes_of_string "2.";
                 bytes_of_string "5" ++ CRLF_bytes ++ bytes_of_string "3.0"] in
  logger_holds logger_world0 [] /\
  Forall (fun c => c <> []) chunks /\
  exists new,
    logger_holds (ScaleLogger._monitor_loop clock_seconds (map reads chunks)
                    logger_world0)
      (fold_left logger_append new [])
    /\ frame_texts new = [pystr_of_string "1.0"; pystr_of_string "5"].
Proof.
  intros chunks.
  assert (logger_holds logger_world0 []) as Hw by reflexivity.
  assert (Forall (fun c => c <> []) chunks) as Hne
    by (repeat constructor; discriminate).
  split; [exact Hw|]. split; [exact Hne|].
  destruct (monitor_loop_frames_per_read clock_seconds chunks logger_world0 []
              Hw eq_refl eq_refl Hne) as (new & Hn & Ht).
  exists new. split; [exact Hn|]. rewrite Ht. vm_compute. reflexivity.
Defined.

(* ===================================================================== *)
(** ** The interactive session *)
(* ===================================================================== *)

Section SessionFacts.
Import Link ScaleDiscovery DiscoverySession.
Context {F : Type} `{PyFloat F}.
Variable utc_now : nat -> F.
Variable sleep : F -> world F -> world F.
Variable wait_operator : pystr -> world F -> outcome (world F).
Variable write_succeeds : pystr -> bool.
Variable unix_time : Z.
Variable local_time : pystr.
Variable confidence_threshold : F.
Implicit Types (e : ProtocolDiscoveryEngine (F := F)) (w : world F).

Local Abbreviation session := (ProtocolDiscoveryEngine (F := F) * world F)%type.

(** A capture step either reads nothing and leaves the engine as it is, or
    appends one step holding the texts of the entries read. *)
Lemma capture_step_spec sleep_seconds max_age_seconds number action_name weight e w :
  let frames := step_frames utc_now sleep sleep_seconds max_age_seconds w in
  let r := capture_step utc_now sleep sleep_seconds max_age_seconds number
             action_name weight (e, w) in
  match frames with
  | [] => r.1 = false /\ r.2.1 = e
  | _ :: _ =>
      r.1 = true /\
      exists step,
        r.2.1 = {| discovery_steps := discovery_steps e ++ [step];
                   confidence_scores := confidence_scores e |}
        /\ step_number step = number
        /\ action step = action_name
        /\ expected_weight step = Some weight
        /\ captured_data step = map data frames
  end.
Proof.
  unfold step_frames, capture_step. cbn zeta.
  destruct (get_recent_data utc_now max_age_seconds
              (sleep sleep_seconds (clear_buffer w))) as [l w1].
  cbn [fst snd]. destruct (deref (store w1) l) as [|x frames].
  - split; reflexivity.
  - cbn [truthy negb datetime_now fst snd]. split; [reflexivity|].
    eexists. split; [reflexivity|]. repeat split.
Qed.

Lemma weight_step_ok_weaken i j (step : DiscoveryStep (F := F)) :
  (i <= j)%Z -> weight_step_ok j step -> weight_step_ok i step.
Proof. intros Hij (Hn & Ha & Hc). split; [lia | split; assumption]. Qed.

(** The weight loop only appends steps, each with at least one frame, with
    increasing numbers.  It ends normally unless a prompt raises, and then
    with the exception of that prompt. *)
Lemma weight_tests_append weights i e w :
  (i + Z.of_nat (List.length weights) <= 6)%Z ->
  let out := weight_tests_from utc_now sleep wait_operator confidence_threshold
               i weights (e, w) in
  exists later,
    discovery_steps out.2.1 = discovery_steps e ++ later
    /\ (List.length later <= List.length weights)%nat
    /\ Forall (weight_step_ok i) later
    /\ StronglySorted Z.lt (map step_number later)
    /\ (out.1 = Returned tt
        \/ exists exn w',
             out.1 = Raised exn /\ wait_operator stable_prompt w' = Raised exn)
    /\ ((forall w' exn, wait_operator stable_prompt w' <> Raised exn) ->
        out.1 = Returned tt).
Proof.
  revert i e w. induction weights as [|weight rest IH]; intros i e w Hi.
  - exists []. simpl. rewrite app_nil_r.
    split; [reflexivity|]. split; [lia|]. split; [constructor|].
    split; [constructor|]. split; [left; reflexivity | reflexivity].
  - cbn [weight_tests_from fst snd]. unfold _capture_weight_step.
    destruct (wait_operator stable_prompt w) as [w0|exn] eqn:Hwait.
    2:{ exists []. cbn [fst snd]. rewrite app_nil_r.
        split; [reflexivity|]. split; [simpl; lia|]. split; [constructor|].
        split; [constructor|]. split.
        - right. exists exn, w. split; [reflexivity | exact Hwait].
        - intros Hnever. destruct (Hnever w exn Hwait). }
    pose proof (capture_step_spec (of_int 3) (of_int 4) i
                  (pystr_of_string "add_weight") weight e w0) as Hstep.
    cbn zeta in Hstep.
    destruct (capture_step utc_now sleep (of_int 3) (of_int 4) i
                (pystr_of_string "add_weight") weight (e, w0))
      as [captured [e1 w1]].
    cbn [fst snd] in Hstep. cbn [List.length] in Hi.
    destruct (step_frames utc_now sleep (of_int 3) (of_int 4) w0)
      as [|x frames].
    + destruct Hstep as [-> ->]. cbn [negb].
      destruct (IH (i + 1)%Z e w1)
        as (later & Heq & Hlen & Hok & Hsorted & Hend & Htotal); [lia|].
      exists later. split; [exact Heq|]. split; [simpl; lia|].
      split; [|split; [exact Hsorted | split; assumption]].
      eapply List.Forall_impl; [|exact Hok]. intros s. apply weight_step_ok_weaken. lia.
    + destruct Hstep as (-> & step & -> & Hn & Ha & _ & Hc). cbn [negb fst snd].
      assert (weight_step_ok i step) as Hstepok.
      { split; [lia|]. split; [exact Ha|]. rewrite Hc. discriminate. }
      destruct (fltb confidence_threshold _).
      * exists [step]. cbn [fst snd]. rewrite calculate_confidence_steps. cbn.
        split; [reflexivity|]. split; [lia|].
        split; [apply List.Forall_cons; [exact Hstepok | apply List.Forall_nil]|].
        split; [constructor; constructor|].
        split; [left; reflexivity | reflexivity].
      * destruct (IH (i + 1)%Z
                    (_calculate_confidence
                       {| discovery_steps := discovery_steps e ++ [step];
                          confidence_scores := confidence_scores e |}) w1)
          as (later & Heq & Hlen & Hok & Hsorted & Hend & Htotal); [lia|].
        exists (step :: later). rewrite Heq, calculate_confidence_steps.
        cbn [discovery_steps]. rewrite <- app_assoc.
        split; [reflexivity|]. split; [simpl; lia|]. split; [|split].
        -- constructor; [exact Hstepok|].
           eapply List.Forall_impl; [|exact Hok]. intros s. apply weight_step_ok_weaken. lia.
        -- cbn [map]. constructor; [exact Hsorted|].
           apply List.Forall_map. eapply List.Forall_impl; [|exact Hok].
           intros s ((Hs & _) & _). lia.
        -- split; assumption.
Qed.

(** The weight loop keeps the engine among those synthesis can find. *)
Lemma weight_tests_at_synthesis weights i e w :
  at_synthesis e ->
  at_synthesis
    (weight_tests_from utc_now sleep wait_operator confidence_threshold
       i weights (e, w)).2.1.
Proof.
  revert i e w. induction weights as [|weight rest IH]; intros i e w He;
    [exact He|].
  cbn [weight_tests_from fst snd].
  destruct (wait_operator stable_prompt w) as [w0|exn]; [|exact He].
  pose proof (capture_step_spec (of_int 3) (of_int 4) i
                (pystr_of_string "add_weight") weight e w0) as Hstep.
  cbn zeta in Hstep.
  destruct (_capture_weight_step utc_now sleep i (pystr_of_string "add_weight")
              weight (e, w0)) as [captured [e1 w1]] eqn:Hcap.
  unfold _capture_weight_step in Hcap. rewrite Hcap in Hstep.
  cbn [fst snd] in Hstep.
  destruct captured; cbn [negb].
  - assert (at_synthesis (_calculate_confidence e1)) as He1.
    { apply (weight_recorded utc_now sleep e w0 i weight (e1, w1) He).
      exact Hcap. }
    cbn [fst snd]. destruct (fltb confidence_threshold _); [exact He1|].
    apply IH, He1.
  - assert (e1 = e) as ->.
    { destruct (step_frames utc_now sleep (of_int 3) (of_int 4) w0);
        [apply Hstep | destruct Hstep as [Hfalse _]; discriminate Hfalse]. }
    apply IH, He.
Qed.

(** Whenever [_capture_baseline], entered as [start_discovery_session]
    enters it, records a step, the engine it ends with is one synthesis can
    find. *)
Lemma capture_baseline_at_synthesis w :
  let r := _capture_baseline utc_now sleep wait_operator write_succeeds
             unix_time local_time confidence_threshold
             ({| discovery_steps := []; confidence_scores := ∅ |}, w) in
  discovery_steps r.2.1 <> [] -> at_synthesis r.2.1.
Proof.
  unfold _capture_baseline.
  destruct (capture_step utc_now sleep (of_int 5) (of_int 6) 1
              (pystr_of_string "baseline") (of_int 0)
              ({| discovery_steps := []; confidence_scores := ∅ |}, w))
    as [captured [e1 w1]] eqn:Hcap.
  destruct captured; cbn [negb].
  - pose proof (baseline_recorded utc_now sleep w (e1, w1) Hcap) as He1.
    cbn [fst] in He1. intros _. unfold _run_weight_tests.
    pose proof (weight_tests_at_synthesis test_weights 2 e1 w1 He1) as He2.
    destruct (weight_tests_from utc_now sleep wait_operator confidence_threshold
                2 test_weights (e1, w1)) as [[[]|exn] [e2 w2]];
      cbn [fst snd] in He2; [|exact He2].
    unfold finalize.
    destruct (_finalize_discovery _ _ _ _ _) as [[[|] ?]|?]; exact He2.
  - pose proof (capture_step_spec (of_int 5) (of_int 6) 1
                  (pystr_of_string "baseline") (of_int 0)
                  {| discovery_steps := []; confidence_scores := ∅ |} w) as Hstep.
    cbn zeta in Hstep. rewrite Hcap in Hstep. cbn [fst snd] in *.
    destruct (step_frames utc_now sleep (of_int 5) (of_int 6) w).
    + destruct Hstep as [_ ->]. intros Hne. destruct (Hne eq_refl).
    + destruct Hstep as [Hfalse _]. discriminate Hfalse.
Qed.

End SessionFacts.



Section SessionScore.
Import Link ScaleDiscovery DiscoverySession.
Local Open Scope Q_scope.
Variable utc_now : nat -> Q.
Variable sleep : Q -> world Q -> world Q.
Variable wait_operator : pystr -> world Q -> outcome (world Q).
Hypothesis sleep_keeps_buffer :
  forall seconds w, well_formed_buffer w -> well_formed_buffer (sleep seconds w).
Hypothesis wait_keeps_buffer :
  forall prompt w w',
    well_formed_buffer w -> wait_operator prompt w = Returned w' ->
    well_formed_buffer w'.

Lemma contains_char c d :
  contains d [c] = existsb (fun x => (x =? c)%N) d.
Proof.
  induction d as [|x d IH]; [reflexivity|].
  cbn [contains existsb]. rewrite IH. f_equal.
  cbn [startswith]. destruct d; apply andb_true_r.
Qed.

Lemma no_crlf_contains d :
  no_crlf d -> contains d [CR] || contains d [LF] = false.
Proof.
  rewrite !contains_char. induction 1 as [|x d Hx _ IH]; [reflexivity|].
  simpl. unfold is_crlf in Hx. apply orb_false_iff in Hx as [-> ->]. exact IH.
Qed.

Lemma recent_data_frames_ok max_age_seconds w :
  well_formed_buffer w ->
  let r := get_recent_data utc_now max_age_seconds w in
  well_formed_buffer r.2
  /\ Forall frame_ok (frame_texts (deref (store r.2) r.1)).
Proof.
  intros (buf & Hw & Hok) r. split.
  - exists buf. split; [apply get_recent_data_holds, Hw | exact Hok].
  - pose proof (snapshot_alloc (store w)
                  (newer_than (fsub (utc_now (now_calls w)) max_age_seconds)
                     (buffer w))) as (Hres & _).
    assert (deref (store r.2) r.1
            = newer_than (fsub (utc_now (now_calls w)) max_age_seconds) (buffer w))
      as -> by (apply deref_lookup; exact Hres).
    rewrite (holds_buffer _ _ Hw). unfold frame_texts, newer_than.
    unfold frame_texts in Hok. clear Hres Hw.
    induction buf as [|x buf IH]; [constructor|].
    cbn [map] in Hok. apply List.Forall_cons_iff in Hok as [Hx Hrest].
    cbn [List.filter]. destruct (fltb _ _); cbn [map];
      [apply List.Forall_cons; [exact Hx|]|]; apply IH, Hrest.
Qed.

Lemma calculate_confidence_capped (e : ProtocolDiscoveryEngine (F := Q)) :
  Forall (fun step => Forall no_crlf (captured_data step)) (discovery_steps e) ->
  0 <= overall_score e <= 50 ->
  0 <= overall_score (_calculate_confidence e) <= 50.
Proof.
  intros Hframes Hscore. unfold _calculate_confidence.
  destruct (_ <? _)%nat; [exact Hscore|].
  destruct (concat (map captured_data (discovery_steps e))) as [|d rest] eqn:E;
    [exact Hscore|].
  cbn [truthy]. unfold overall_score. cbn [confidence_scores].
  rewrite lookup_insert_ne by discriminate.
  rewrite lookup_insert_ne by discriminate.
  rewrite lookup_insert_eq. cbn [default].
  assert (Forall no_crlf (d :: rest)) as Hall.
  { rewrite <- E. apply List.Forall_concat, List.Forall_map, Hframes. }
  assert (List.filter (fun d0 => contains d0 [CR] || contains d0 [LF]) (d :: rest)
          = []) as ->.
  { clear - Hall. induction Hall as [|x l Hx _ IH]; [reflexivity|].
    simpl. rewrite (no_crlf_contains x Hx). exact IH. }
  pose proof (ratio_percent_bounds
                (List.length (List.filter has_numeric_pattern (d :: rest)))
                (List.length (d :: rest))
                (filter_length_le _ _) ltac:(simpl; lia)) as Hnum.
  unfold percentage. cbn [fmul fdiv fadd of_int PyFloat_Q] in *.
  set (nc := inject_Z _ / inject_Z _ * inject_Z 100) in *.
  change (inject_Z (Z.of_nat (List.length (@nil pystr)))) with 0.
  change (inject_Z 2) with 2. change (inject_Z 100) with 100.
  assert (0 / inject_Z (Z.of_nat (List.length (d :: rest))) * 100 == 0) as Hzero.
  { unfold Qdiv. rewrite Qmult_0_l, Qmult_0_l. reflexivity. }
  rewrite Hzero. unfold id. clearbody nc. unfold Qdiv. change (/ 2) with (1 # 2). lra.
Qed.

(** A capture step keeps the session in order. *)
Lemma capture_step_ok sleep_seconds max_age_seconds number action_name weight s :
  session_ok s ->
  session_ok (capture_step utc_now sleep sleep_seconds max_age_seconds number
                action_name weight s).2.
Proof.
  destruct s as [e w]. intros (Hw & Hframes & Hscore). unfold capture_step.
  assert (well_formed_buffer (sleep sleep_seconds (clear_buffer w))) as Hw1.
  { apply sleep_keeps_buffer. destruct Hw as (buf & Hb & _).
    exists []. split; [eapply clear_buffer_holds, Hb | constructor]. }
  destruct (recent_data_frames_ok max_age_seconds _ Hw1) as [Hw2 Hok].
  destruct (get_recent_data utc_now max_age_seconds
              (sleep sleep_seconds (clear_buffer w))) as [l w2].
  cbn [fst snd] in *.
  destruct (deref (store w2) l) as [|x frames] eqn:E; cbn [truthy negb].
  - split; [exact Hw2|]. split; assumption.
  - cbn [datetime_now snd]. split; [|split; [|exact Hscore]].
    + destruct Hw2 as (buf & Hb & Hbok). exists buf. split; assumption.
    + cbn [fst discovery_steps]. apply Forall_app. split; [exact Hframes|].
      apply List.Forall_cons; [|apply List.Forall_nil]. cbn [captured_data].
      unfold frame_texts in Hok. eapply List.Forall_impl; [|exact Hok].
      intros d (_ & _ & Hd). exact Hd.
Qed.

(** The weight loop keeps the session in order, and with a threshold of 50
    or more its exit test never holds. *)
Lemma weight_tests_ok weights i threshold s :
  session_ok s ->
  session_ok
    (weight_tests_from utc_now sleep wait_operator threshold i weights s).2.
Proof.
  revert i s. induction weights as [|weight rest IH]; intros i s Hs; [exact Hs|].
  cbn [weight_tests_from]. unfold _capture_weight_step.
  destruct (wait_operator stable_prompt s.2) as [w0|exn] eqn:Hwait; [|exact Hs].
  assert (session_ok (s.1, w0)) as Hs1.
  { destruct Hs as (Hw & Hf & Hsc).
    split; [exact (wait_keeps_buffer _ _ _ Hw Hwait)|]. split; assumption. }
  pose proof (capture_step_ok (of_int 3) (of_int 4) i
                (pystr_of_string "add_weight") weight _ Hs1) as Hs2.
  destruct (capture_step utc_now sleep (of_int 3) (of_int 4) i
              (pystr_of_string "add_weight") weight (s.1, w0))
    as [captured s2].
  cbn [snd] in Hs2. destruct captured; cbn [negb]; [|apply IH, Hs2].
  assert (session_ok (_calculate_confidence s2.1, s2.2)) as Hs3.
  { destruct Hs2 as (Hw & Hf & Hsc). split; [exact Hw|]. cbn [fst snd].
    split; [rewrite calculate_confidence_steps; exact Hf|].
    apply calculate_confidence_capped; assumption. }
  destruct (fltb threshold _); [exact Hs3 | apply IH, Hs3].
Qed.

Lemma weight_tests_threshold weights i threshold1 threshold2 s :
  50 <= threshold1 -> 50 <= threshold2 ->
  session_ok s ->
  weight_tests_from utc_now sleep wait_operator threshold1 i weights s
  = weight_tests_from utc_now sleep wait_operator threshold2 i weights s.
Proof.
  intros H1 H2. revert i s.
  induction weights as [|weight rest IH]; intros i s Hs; [reflexivity|].
  cbn [weight_tests_from]. unfold _capture_weight_step.
  destruct (wait_operator stable_prompt s.2) as [w0|exn] eqn:Hwait;
    [|reflexivity].
  assert (session_ok (s.1, w0)) as Hs1.
  { destruct Hs as (Hw & Hf & Hsc).
    split; [exact (wait_keeps_buffer _ _ _ Hw Hwait)|]. split; assumption. }
  pose proof (capture_step_ok (of_int 3) (of_int 4) i
                (pystr_of_string "add_weight") weight _ Hs1) as Hs2.
  destruct (capture_step utc_now sleep (of_int 3) (of_int 4) i
              (pystr_of_string "add_weight") weight (s.1, w0))
    as [captured s2].
  cbn [snd] in Hs2. destruct captured; cbn [negb]; [|apply IH, Hs2].
  assert (session_ok (_calculate_confidence s2.1, s2.2)) as Hs3.
  { destruct Hs2 as (Hw & Hf & Hsc). split; [exact Hw|]. cbn [fst snd].
    split; [rewrite calculate_confidence_steps; exact Hf|].
    apply calculate_confidence_capped; assumption. }
  destruct Hs3 as (Hw3 & Hf3 & Hsc3). cbn [fst snd] in *.
  fold (overall_score (_calculate_confidence s2.1)).
  assert (forall t, 50 <= t ->
                    fltb t (overall_score (_calculate_confidence s2.1)) = false)
    as Hno.
  { intros t Ht. cbn [fltb PyFloat_Q]. apply negb_false_iff, Qle_bool_iff. lra. }
  rewrite (Hno _ H1), (Hno _ H2). apply IH. split; [exact Hw3|]. split; assumption.
Qed.

(** [_finalize_discovery] within a session leaves the engine and the buffer
    as they are. *)
Lemma finalize_ok write_succeeds unix_time local_time s :
  session_ok s ->
  session_ok (finalize utc_now write_succeeds unix_time local_time s).2.
Proof.
  destruct s as [e w]. intros Hs. unfold finalize.
  destruct (_finalize_discovery _ _ _ _ _) as [[[|] ?]|?]; exact Hs.
Qed.

End SessionScore.

Lemma capturing_sleep_well_formed recvs seconds (w : ScaleDiscovery.world Q) :
  well_formed_buffer w -> well_formed_buffer (capturing_sleep recvs seconds w).
Proof.
  intros (buf & Hw & Hok). unfold capturing_sleep.
  destruct (capture_loop_grows clock_seconds recvs [] w buf Hw)
    as (_ & new & Hn & Hnew).
  exists (buf ++ new). split; [exact Hn|].
  unfold frame_texts in *. rewrite map_app. apply Forall_app. split; assumption.
Qed.

(** X7: interactive discovery in exact arithmetic, started by
    [_capture_baseline] on a fresh engine over a buffer of well-formed frames,
    when the capture thread keeps the buffer well formed.  The overall score
    never exceeds 50, because no buffered frame holds a CR or LF; so a
    template, when one is produced, carries a confidence between 0 and 50,
    and with a threshold of 50 or more the loop over the test weights never
    exits early: the whole session does not depend on the threshold. *)
Theorem interactive_discovery_score_capped (utc_now : nat -> Q)
    (sleep : Q -> ScaleDiscovery.world Q -> ScaleDiscovery.world Q)
    (wait_operator :
       pystr -> ScaleDiscovery.world Q
       -> ScaleDiscovery.outcome (ScaleDiscovery.world Q))
    (write_succeeds : pystr -> bool)
    (unix_time : Z) (local_time : pystr) (threshold threshold' : Q)
    (w : ScaleDiscovery.world Q) :
  (forall seconds w, well_formed_buffer w -> well_formed_buffer (sleep seconds w)) ->
  (forall prompt w w',
     well_formed_buffer w ->
     wait_operator prompt w = ScaleDiscovery.Returned w' ->
     well_formed_buffer w') ->
  well_formed_buffer w ->
  let r := DiscoverySession._capture_baseline utc_now sleep wait_operator
             write_succeeds unix_time local_time threshold (fresh_engine, w) in
  (0 <= overall_score r.2.1 <= 50)%Q
  /\ (forall ok template,
        r.1 = ScaleDiscovery.Returned (ok, Some template) ->
        (0 <= ScaleDiscovery.pt_confidence_score template <= 50)%Q)
  /\ ((50 <= threshold)%Q -> (50 <= threshold')%Q ->
      r = DiscoverySession._capture_baseline utc_now sleep wait_operator
            write_succeeds unix_time local_time threshold' (fresh_engine, w)).
Proof.
  intros Hsleep Hwait Hw r.
  assert (session_ok (fresh_engine, w)) as Hs.
  { split; [exact Hw|]. split; [constructor|]. vm_compute. split; discriminate. }
  pose proof (capture_step_ok utc_now sleep Hsleep (of_int 5) (of_int 6) 1
                (pystr_of_string "baseline") (of_int 0) _ Hs) as Hs1.
  unfold r, DiscoverySession._capture_baseline.
  destruct (DiscoverySession.capture_step utc_now sleep (of_int 5) (of_int 6) 1
              (pystr_of_string "baseline") (of_int 0) (fresh_engine, w))
    as [captured s1].
  cbn [snd] in Hs1. destruct captured; cbn [negb].
  - unfold DiscoverySession._run_weight_tests.
    pose proof (weight_tests_ok utc_now sleep wait_operator Hsleep Hwait
                  DiscoverySession.test_weights 2 threshold s1 Hs1) as Hs2.
    split; [|split].
    + destruct (DiscoverySession.weight_tests_from _ _ _ _ _ _ _)
        as [[[]|exn] s2]; cbn [snd] in Hs2.
      * apply (finalize_ok utc_now write_succeeds unix_time local_time s2 Hs2).
      * apply Hs2.
    + intros ok template.
      destruct (DiscoverySession.weight_tests_from _ _ _ _ _ _ _)
        as [[[]|exn] [e2 w2]]; [|intros E; discriminate E].
      destruct Hs2 as (_ & _ & Hscore). cbn [fst snd] in Hscore.
      unfold DiscoverySession.finalize, ScaleDiscovery._finalize_discovery,
        ScaleDiscovery._save_template, ScaleDiscovery._analyze_and_create_template.
      destruct (ScaleDiscovery.discovery_steps e2) as [|first_step steps];
        [cbn; intros E; discriminate E|].
      cbn [truthy negb].
      destruct (ScaleDiscovery.captured_data first_step) as [|first_frame frames];
        cbn [truthy negb fst]; [intros E; discriminate E|].
      destruct (write_succeeds _); cbn [fst]; intros E; [|discriminate E].
      injection E as _ <-. exact Hscore.
    + intros H1 H2.
      rewrite (weight_tests_threshold utc_now sleep wait_operator Hsleep Hwait
                 DiscoverySession.test_weights 2 threshold threshold' s1 H1 H2 Hs1).
      reflexivity.
  - destruct Hs1 as (_ & _ & Hscore).
    split; [exact Hscore|]. split; [|reflexivity].
    intros ok template E. discriminate E.
Qed.

Lemma interactive_discovery_score_capped_witness :
  let r := DiscoverySession._capture_baseline clock_seconds two_frames_per_sleep
             no_wait writable 1700000000 (pystr_of_string "2023-11-14 22:13:20")
             85%Q (fresh_engine, discovery_world0) in
  well_formed_buffer discovery_world0
  /\ overall_score r.2.1 == 50
  /\ r = DiscoverySession._capture_baseline clock_seconds two_frames_per_sleep
           no_wait writable 1700000000 (pystr_of_string "2023-11-14 22:13:20")
           50%Q (fresh_engine, discovery_world0).
Proof.
  intros r.
  assert (well_formed_buffer discovery_world0) as Hw.
  { exists []. split; [reflexivity | constructor]. }
  split; [exact Hw|]. split; [vm_compute; reflexivity|].
  refine (proj2 (proj2 (interactive_discovery_score_capped clock_seconds
            two_frames_per_sleep no_wait writable 1700000000
            (pystr_of_string "2023-11-14 22:13:20") 85%Q 50%Q discovery_world0
            _ _ Hw)) _ _).
  - intros seconds w. apply capturing_sleep_well_formed.
  - intros prompt w w' Hwf [= <-]. exact Hwf.
  - vm_compute. discriminate.
  - vm_compute. discriminate.
Defined.

(* ===================================================================== *)
(** ** The logger's data processor *)
(* ===================================================================== *)

Section ProcessorFacts.
Import Link ScaleService.

Lemma span_digits_spec s :
  s = (span_digits s).1 ++ (span_digits s).2
  /\ forallb is_digit (span_digits s).1 = true
  /\ match (span_digits s).2 with
     | c :: _ => is_digit c = false
     | [] => True
     end.
Proof.
  induction s as [|c s (IH1 & IH2 & IH3)]; [repeat split|].
  cbn [span_digits]. destruct (is_digit c) eqn:E.
  - destruct (span_digits s) as [digits rest]. cbn [fst snd] in *.
    split; [rewrite IH1 at 1; reflexivity|].
    split; [cbn; rewrite E; exact IH2 | exact IH3].
  - cbn [fst snd]. repeat split. exact E.
Qed.

Lemma span_digits_nil s :
  (span_digits s).1 = [] ->
  match s with c :: _ => is_digit c = false | [] => True end.
Proof.
  destruct s as [|c s]; [trivial|]. cbn [span_digits].
  destruct (is_digit c); [|reflexivity].
  destruct (span_digits s). discriminate.
Qed.

(** A match at the head of [s] is a prefix of [s] of the shape
    [[sign] digits ["." digits]]. *)
Lemma weight_match_at_shape s m :
  weight_match_at s = Some m ->
  plain_decimal m /\ exists rest, s = m ++ rest.
Proof.
  unfold weight_match_at.
  set (split := match s with
                | c :: s' => if (c =? 43) || (c =? 45) then ([c], s') else ([], s)
                | [] => ([], [])
                end).
  assert (s = split.1 ++ split.2
          /\ (split.1 = [] \/ split.1 = [43] \/ split.1 = [45])) as [Hs Hsign].
  { unfold split. destruct s as [|c s]; [split; [reflexivity | left; reflexivity]|].
    destruct (N.eqb_spec c 43) as [->|_];
      [split; [reflexivity | right; left; reflexivity]|].
    destruct (N.eqb_spec c 45) as [->|_];
      [split; [reflexivity | right; right; reflexivity]|].
    split; [reflexivity | left; reflexivity]. }
  destruct split as [sign body]. cbn [fst snd] in *.
  destruct (span_digits_spec body) as (Hb & Hd & _).
  destruct (span_digits body) as [[|d integer] rest]; [discriminate|].
  cbn [fst snd] in *.
  destruct rest as [|c rest'].
  - intros E. injection E as <-. split.
    + exists sign, (d :: integer), []. rewrite app_nil_r.
      split; [reflexivity|]. split; [exact Hsign|].
      split; [discriminate|]. split; [exact Hd | left; reflexivity].
    + exists []. rewrite app_nil_r, Hs, Hb, app_nil_r. reflexivity.
  - destruct (N.eqb_spec c 46) as [->|Hc].
    + destruct (span_digits_spec rest') as (Hr & Hf & _).
      intros E. injection E as <-. split.
      * exists sign, (d :: integer), (46 :: (span_digits rest').1).
        split; [reflexivity|]. split; [exact Hsign|].
        split; [discriminate|]. split; [exact Hd|].
        right. eexists. split; [reflexivity | exact Hf].
      * exists (span_digits rest').2. rewrite Hs, Hb. rewrite Hr at 1.
        rewrite <- !app_assoc. cbn [app]. rewrite <- !app_assoc. reflexivity.
    + assert (match c with 46 => Some (sign ++ (d :: integer)
                                         ++ 46 :: (span_digits rest').1)
                         | _ => Some (sign ++ d :: integer) end
              = Some (sign ++ d :: integer)) as ->.
      { destruct c as [|q]; [reflexivity|].
        do 6 (destruct q as [q|q|]; try reflexivity). congruence. }
      intros E. injection E as <-. split.
      * exists sign, (d :: integer), []. rewrite app_nil_r.
        split; [reflexivity|]. split; [exact Hsign|].
        split; [discriminate|]. split; [exact Hd | left; reflexivity].
      * exists (c :: rest'). rewrite Hs, Hb, <- app_assoc. reflexivity.
Qed.

Lemma weight_match_at_digit c s :
  is_digit c = true -> is_Some (weight_match_at (c :: s)).
Proof.
  intros Hc. unfold weight_match_at.
  assert ((c =? 43) || (c =? 45) = false) as ->.
  { unfold is_digit in Hc. apply andb_true_iff in Hc as [H1 H2].
    apply N.leb_le in H1. apply orb_false_iff.
    split; apply N.eqb_neq; lia. }
  cbn [span_digits]. rewrite Hc. destruct (span_digits s) as [digits rest].
  destruct rest as [|[|q] rest']; try (eexists; reflexivity).
  do 6 (destruct q as [q|q|]; try (eexists; reflexivity)).
Qed.

Lemma weight_match_at_some_digit s m :
  weight_match_at s = Some m -> existsb is_digit s = true.
Proof.
  intros E. destruct (weight_match_at_shape s m E)
    as ((sign & integer & fraction & -> & _ & Hne & Hd & _) & rest & ->).
  destruct integer as [|d integer]; [congruence|].
  cbn in Hd. apply andb_true_iff in Hd as [Hd _].
  rewrite <- !app_assoc, existsb_app. cbn. rewrite Hd, orb_true_r. reflexivity.
Qed.

(** [re.search] finds a weight exactly when the text holds a digit. *)
Lemma weight_search_digit s :
  is_Some (weight_search s) <-> existsb is_digit s = true.
Proof.
  induction s as [|c s IH].
  - cbn. split; [intros [m E]; discriminate | discriminate].
  - cbn [weight_search existsb].
    destruct (weight_match_at (c :: s)) as [m|] eqn:E.
    + split; [intros _ | intros _; eexists; reflexivity].
      apply (weight_match_at_some_digit _ _ E).
    + destruct (is_digit c) eqn:Hc.
      * destruct (weight_match_at_digit c s Hc) as [m Hm]. congruence.
      * cbn [orb]. exact IH.
Qed.

Lemma weight_search_shape s m :
  weight_search s = Some m ->
  plain_decimal m /\ exists before after, s = before ++ m ++ after.
Proof.
  induction s as [|c s IH]; cbn [weight_search].
  - destruct (weight_match_at []) eqn:E; [|discriminate].
    intros H. injection H as ->.
    destruct (weight_match_at_shape _ _ E) as (Hm & rest & Hs).
    split; [exact Hm|]. exists [], rest. exact Hs.
  - destruct (weight_match_at (c :: s)) eqn:E.
    + intros H. injection H as ->.
      destruct (weight_match_at_shape _ _ E) as (Hm & rest & Hs).
      split; [exact Hm|]. exists [], rest. exact Hs.
    + intros H. destruct (IH H) as (Hm & before & after & ->).
      split; [exact Hm|]. exists (c :: before), after. reflexivity.
Qed.

Lemma digitpart_rest_digits digits rest :
  forallb is_digit digits = true ->
  digitpart_rest (digits ++ rest) = digitpart_rest rest.
Proof.
  induction digits as [|d digits IH]; [reflexivity|].
  cbn. intros Hd. apply andb_true_iff in Hd as [-> Hd]. exact (IH Hd).
Qed.

Lemma float_lstrip_head c s :
  is_float_space c = false -> float_lstrip (c :: s) = c :: s.
Proof. intros Hc. cbn. rewrite Hc. reflexivity. Qed.

Lemma digit_not_space c : is_digit c = true -> is_float_space c = false.
Proof.
  unfold is_digit, is_float_space. intros Hc.
  apply andb_true_iff in Hc as [H1 H2]. apply N.leb_le in H1, H2.
  destruct (N.ltb_spec c 127) as [_|Hge]; [|lia].
  apply orb_false_iff. split; [|apply N.eqb_neq; lia].
  apply andb_false_iff. right. apply N.leb_gt. lia.
Qed.

Lemma digit_not_sign c : is_digit c = true -> (c =? 43) || (c =? 45) = false.
Proof.
  unfold is_digit. intros Hc. apply andb_true_iff in Hc as [H1 _].
  apply N.leb_le in H1. apply orb_false_iff. split; apply N.eqb_neq; lia.
Qed.

Lemma digit_lower c : is_digit c = true -> lower c = c.
Proof.
  unfold is_digit, lower. intros Hc. apply andb_true_iff in Hc as [_ H2].
  apply N.leb_le in H2.
  destruct (N.leb_spec 65 c) as [H65|_]; [|reflexivity].
  lia.
Qed.

(** [float] accepts every text of the shape [[sign] digits ["." digits]]. *)
Lemma plain_decimal_float m : plain_decimal m -> is_float_literal m = true.
Proof.
  intros (sign & integer & fraction & -> & Hsign & Hne & Hd & Hfrac).
  destruct integer as [|d integer]; [congruence|].
  pose proof Hd as Hd0. cbn in Hd0. apply andb_true_iff in Hd0 as [Hd1 Hd2].
  assert (float_strip (sign ++ (d :: integer) ++ fraction)
          = sign ++ (d :: integer) ++ fraction) as Hstrip.
  { unfold float_strip.
    assert (float_lstrip (sign ++ (d :: integer) ++ fraction)
            = sign ++ (d :: integer) ++ fraction) as ->.
    { destruct Hsign as [->|[->| ->]]; cbn [app]; apply float_lstrip_head;
        try reflexivity. apply digit_not_space, Hd1. }
    assert (exists body c, sign ++ (d :: integer) ++ fraction = body ++ [c]
                           /\ is_float_space c = false) as (body & c & -> & Hc).
    { destruct Hfrac as [->|(digits & -> & Hdigits)].
      - rewrite app_nil_r.
        destruct (exists_last (l := d :: integer)) as (body & c & E); [discriminate|].
        exists (sign ++ body), c. rewrite E, app_assoc. split; [reflexivity|].
        apply digit_not_space. rewrite E in Hd. rewrite forallb_app in Hd.
        apply andb_true_iff in Hd as [_ Hd]. cbn in Hd.
        apply andb_true_iff in Hd as [Hd _]. exact Hd.
      - destruct digits as [|x digits].
        + exists (sign ++ d :: integer), 46. rewrite <- app_assoc.
          split; reflexivity.
        + destruct (exists_last (l := x :: digits)) as (body & c & E); [discriminate|].
          exists (sign ++ (d :: integer) ++ 46 :: body), c. rewrite E.
          split; [rewrite <- ?app_assoc; cbn [app]; rewrite <- ?app_assoc;
                  reflexivity|].
          apply digit_not_space. rewrite E in Hdigits. rewrite forallb_app in Hdigits.
          apply andb_true_iff in Hdigits as [_ Hx]. cbn in Hx.
          apply andb_true_iff in Hx as [Hx _]. exact Hx. }
    rewrite rev_app_distr. cbn [rev app]. rewrite (float_lstrip_head c _ Hc).
    change (c :: rev body) with ([c] ++ rev body).
    rewrite rev_app_distr, rev_involutive. reflexivity. }
  unfold is_float_literal. rewrite Hstrip.
  assert (skip_sign (sign ++ (d :: integer) ++ fraction)
          = (d :: integer) ++ fraction) as ->.
  { destruct Hsign as [->|[->| ->]]; try reflexivity.
    cbn [app skip_sign]. rewrite (digit_not_sign d Hd1). reflexivity. }
  assert (pystr_eqb (map lower ((d :: integer) ++ fraction)) (pystr_of_string "inf")
          || pystr_eqb (map lower ((d :: integer) ++ fraction))
               (pystr_of_string "infinity")
          || pystr_eqb (map lower ((d :: integer) ++ fraction)) (pystr_of_string "nan")
          = false) as ->.
  { cbn [app map pystr_of_string pystr_eqb]. rewrite (digit_lower d Hd1).
    unfold is_digit in Hd1. apply andb_true_iff in Hd1 as [_ H2].
    apply N.leb_le in H2.
    assert (forall k, 57 < k -> (d =? k) = false) as Hk
      by (intros k Hlt; apply N.eqb_neq; lia).
    cbn. rewrite !Hk by reflexivity. reflexivity. }
  unfold float_number, digitpart. cbn [app]. rewrite Hd1.
  rewrite (digitpart_rest_digits integer fraction Hd2).
  destruct Hfrac as [->|(digits & -> & Hdigits)]; [reflexivity|].
  cbn [digitpart_rest is_digit]. cbn.
  destruct digits as [|x digits]; [reflexivity|].
  cbn in Hdigits. apply andb_true_iff in Hdigits as [-> Hdigits].
  rewrite <- (app_nil_r digits), (digitpart_rest_digits digits [] Hdigits).
  reflexivity.
Qed.

Lemma startswith_prefix s p :
  startswith s p = true <-> exists rest, s = p ++ rest.
Proof.
  revert s. induction p as [|d p IH]; intros s.
  - destruct s; (split; [intros _; eexists; reflexivity | reflexivity]).
  - destruct s as [|c s]; cbn [startswith].
    + split; [discriminate | intros [rest E]; discriminate E].
    + rewrite andb_true_iff, IH, N.eqb_eq. split.
      * intros [-> [rest ->]]. exists rest. reflexivity.
      * intros [rest E]. injection E as -> ->. split; [reflexivity | eauto].
Qed.

(** [p in s]: [p] occurs somewhere in [s]. *)
Lemma contains_substring s p :
  contains s p = true <-> exists before after, s = before ++ p ++ after.
Proof.
  induction s as [|c s IH]; cbn [contains].
  - rewrite orb_false_r, startswith_prefix. split.
    + intros [rest E]. exists [], rest. exact E.
    + intros (before & after & E). destruct before; [|discriminate E].
      exists after. exact E.
  - rewrite orb_true_iff, startswith_prefix, IH. split.
    + intros [[rest E]|(before & after & ->)].
      * exists [], rest. exact E.
      * exists (c :: before), after. reflexivity.
    + intros (before & after & E). destruct before as [|b before].
      * left. exists after. exact E.
      * right. injection E as -> ->. exists before, after. reflexivity.
Qed.

Lemma contains_part s a p b :
  contains s (a ++ p ++ b) = true -> contains s p = true.
Proof.
  rewrite !contains_substring. intros (before & after & ->).
  exists (before ++ a), (b ++ after). rewrite <- !app_assoc. reflexivity.
Qed.

Lemma unit_match_at_some s u :
  unit_match_at s = Some u ->
  In u [pystr_of_string "kg"; pystr_of_string "lb"; pystr_of_string "g";
        pystr_of_string "oz"]
  /\ startswith s u = true.
Proof.
  unfold unit_match_at.
  destruct (startswith s (pystr_of_string "kg")) eqn:E1;
    [intros E; injection E as <-; split; [left; reflexivity | exact E1]|].
  destruct (startswith s (pystr_of_string "lb")) eqn:E2;
    [intros E; injection E as <-; split; [right; left; reflexivity | exact E2]|].
  destruct (startswith s (pystr_of_string "g")) eqn:E3;
    [intros E; injection E as <-;
     split; [right; right; left; reflexivity | exact E3]|].
  destruct (startswith s (pystr_of_string "oz")) eqn:E4;
    [intros E; injection E as <-;
     split; [right; right; right; left; reflexivity | exact E4]|].
  discriminate.
Qed.

Lemma unit_match_at_none s :
  unit_match_at s = None ->
  startswith s (pystr_of_string "g") || startswith s (pystr_of_string "lb")
  || startswith s (pystr_of_string "oz") = false.
Proof.
  unfold unit_match_at.
  destruct (startswith s (pystr_of_string "kg")); [discriminate|].
  destruct (startswith s (pystr_of_string "lb")); [discriminate|].
  destruct (startswith s (pystr_of_string "g")); [discriminate|].
  destruct (startswith s (pystr_of_string "oz")); [discriminate|].
  reflexivity.
Qed.

(** The unit found is one of the four, it occurs in the text, and one is
    found exactly when the text holds [g], [lb] or [oz]. *)
Lemma unit_search_spec s :
  match unit_search s with
  | Some u =>
      In u [pystr_of_string "kg"; pystr_of_string "lb"; pystr_of_string "g";
            pystr_of_string "oz"]
      /\ contains s u = true
  | None => True
  end
  /\ bool_decide (is_Some (unit_search s))
     = contains s (pystr_of_string "g") || contains s (pystr_of_string "lb")
       || contains s (pystr_of_string "oz").
Proof.
  induction s as [|c s [IH1 IH2]].
  - split; [exact I | reflexivity].
  - cbn [unit_search contains].
    destruct (unit_match_at (c :: s)) as [u|] eqn:E.
    + destruct (unit_match_at_some _ _ E) as [Hin Hstart]. split.
      * split; [exact Hin|]. cbn [contains]. rewrite Hstart. reflexivity.
      * rewrite bool_decide_eq_true_2 by (eexists; reflexivity).
        symmetry. destruct Hin as [<-|[<-|[<-|[<-|[]]]]].
        -- pose proof (contains_part (c :: s) (pystr_of_string "k")
                         (pystr_of_string "g") []) as Hg.
           change (pystr_of_string "k" ++ pystr_of_string "g" ++ [])
             with (pystr_of_string "kg") in Hg.
           cbn [contains] in Hg. rewrite Hstart in Hg. rewrite (Hg eq_refl).
           reflexivity.
        -- rewrite Hstart. cbn [orb]. rewrite ?orb_true_r. reflexivity.
        -- rewrite Hstart. reflexivity.
        -- rewrite Hstart. cbn [orb]. rewrite ?orb_true_r. reflexivity.
    + apply unit_match_at_none in E.
      apply orb_false_iff in E as [E E3]. apply orb_false_iff in E as [E1 E2].
      rewrite E1, E2, E3. cbn [orb]. split; [|exact IH2].
      destruct (unit_search s) as [u|]; [|exact I].
      destruct IH1 as [Hin Hc]. split; [exact Hin|].
      cbn [contains]. rewrite Hc. apply orb_true_r.
Qed.

Lemma weight_search_leftmost s m :
  weight_search s = Some m ->
  exists before after,
    s = before ++ m ++ after /\ existsb is_digit before = false.
Proof.
  induction s as [|c s IH]; cbn [weight_search].
  - destruct (weight_match_at []) eqn:E; [|discriminate].
    intros H. injection H as ->.
    destruct (weight_match_at_shape _ _ E) as (_ & rest & Hs).
    exists [], rest. split; [exact Hs | reflexivity].
  - destruct (weight_match_at (c :: s)) eqn:E.
    + intros H. injection H as ->.
      destruct (weight_match_at_shape _ _ E) as (_ & rest & Hs).
      exists [], rest. split; [exact Hs | reflexivity].
    + intros H. destruct (IH H) as (before & after & -> & Hb).
      exists (c :: before), after. split; [reflexivity|].
      cbn [existsb]. rewrite Hb, orb_false_r.
      destruct (is_digit c) eqn:Hc; [|reflexivity].
      destruct (weight_match_at_digit c (before ++ m ++ after) Hc) as [x Hx].
      congruence.
Qed.

(** [float] never raises on the text the weight pattern matched, so a
    reading is always built. *)
Lemma process_raw_data_some {F} `{PyFloat F} (utc_now : nat -> F)
    raw_data device_id (w : ScaleLogger.world F) :
  process_raw_data utc_now raw_data device_id w
  = (Some (reading_of (utc_now (ScaleLogger.now_calls w)) raw_data device_id),
     (ScaleLogger.datetime_now utc_now w).2).
Proof.
  unfold process_raw_data, reading_of. cbn [ScaleLogger.datetime_now snd].
  assert (contains (map upper raw_data) (pystr_of_string "ST")
          || contains (map upper raw_data) (pystr_of_string "STABLE")
          = contains (map upper raw_data) (pystr_of_string "ST")) as ->.
  { destruct (contains (map upper raw_data) (pystr_of_string "ST")) eqn:E;
      [reflexivity|].
    destruct (contains (map upper raw_data) (pystr_of_string "STABLE")) eqn:E';
      [|reflexivity].
    pose proof (contains_part (map upper raw_data) [] (pystr_of_string "ST")
                  (pystr_of_string "ABLE") E') as Hst.
    congruence. }
  assert (bool_decide (is_Some (weight_search raw_data))
          = existsb is_digit raw_data) as ->.
  { destruct (existsb is_digit raw_data) eqn:E.
    - apply bool_decide_eq_true_2, weight_search_digit, E.
    - apply bool_decide_eq_false_2. rewrite weight_search_digit, E. discriminate. }
  destruct (weight_search raw_data) as [m|] eqn:E; [|reflexivity].
  destruct (weight_search_shape _ _ E) as [Hm _].
  rewrite (plain_decimal_float m Hm). reflexivity.
Qed.

End ProcessorFacts.

(** X8: [process_raw_data] on the text of a buffered frame always builds a
    reading, at the cost of one clock reading: [float] cannot raise on what
    the weight pattern matched.  The weight is the leftmost text of the shape
    [[sign] digits ["." digits]], present exactly when the frame holds a
    digit; the unit is one of kg, lb, g and oz; and the reading is stable
    exactly when the upper-cased frame contains [ST], so that a frame
    containing [UNSTABLE] is reported stable. *)
Theorem process_raw_data_reading {F} `{PyFloat F} (utc_now : nat -> F)
    (raw_data device_id : pystr) (w : ScaleLogger.world F) :
  link_text raw_data ->
  exists reading,
    ScaleService.process_raw_data utc_now raw_data device_id w
    = (Some reading, (ScaleLogger.datetime_now utc_now w).2)
    /\ ScaleService.raw_data reading = raw_data
    /\ ScaleService.device_id reading = device_id
    /\ ScaleService.timestamp reading = utc_now (ScaleLogger.now_calls w)
    /\ match ScaleService.weight reading with
       | Some m =>
           plain_decimal m /\ is_float_literal m = true
           /\ exists before after,
                raw_data = before ++ m ++ after
                /\ existsb is_digit before = false
       | None => existsb is_digit raw_data = false
       end
    /\ (exists u,
          ScaleService.unit reading = Some u
          /\ In u [pystr_of_string "kg"; pystr_of_string "lb";
                   pystr_of_string "g"; pystr_of_string "oz"])
    /\ ScaleService.stable reading
       = Some (contains (map ScaleService.upper raw_data) (pystr_of_string "ST"))
    /\ (contains (map ScaleService.upper raw_data) (pystr_of_string "UNSTABLE")
        = true ->
        ScaleService.stable reading = Some true).
Proof.
  intros _. eexists. split; [apply process_raw_data_some|]. unfold reading_of.
  cbn [ScaleService.raw_data ScaleService.device_id ScaleService.timestamp
       ScaleService.weight ScaleService.unit ScaleService.stable].
  do 3 (split; [reflexivity|]). split; [|split; [|split]].
  - destruct (ScaleService.weight_search raw_data) as [m|] eqn:E.
    + destruct (weight_search_shape _ _ E) as [Hm _].
      split; [exact Hm|]. split; [apply plain_decimal_float, Hm|].
      apply weight_search_leftmost, E.
    + destruct (existsb is_digit raw_data) eqn:Hd; [|reflexivity].
      apply weight_search_digit in Hd as [m Hm]. congruence.
  - destruct (unit_search_spec (map lower raw_data)) as [Hu _].
    destruct (ScaleService.unit_search (map lower raw_data)) as [u|].
    + exists u. split; [reflexivity | apply Hu].
    + eexists. split; [reflexivity|]. left. reflexivity.
  - reflexivity.
  - intros Hun. f_equal.
    apply (contains_part _ (pystr_of_string "UN") (pystr_of_string "ST")
             (pystr_of_string "ABLE")).
    exact Hun.
Qed.

Lemma process_raw_data_reading_witness :
  link_text (pystr_of_string "UNSTABLE -12.5lb") /\
  exists reading,
    (ScaleService.process_raw_data clock_seconds
       (pystr_of_string "UNSTABLE -12.5lb") (pystr_of_string "scale-1")
       logger_world0).1 = Some reading
    /\ ScaleService.weight reading = Some (pystr_of_string "-12.5")
    /\ ScaleService.unit reading = Some (pystr_of_string "lb")
    /\ ScaleService.stable reading = Some true.
Proof.
  assert (link_text (pystr_of_string "UNSTABLE -12.5lb")) as Htext.
  { unfold link_text. repeat (apply List.Forall_cons; [left; reflexivity|]).
    apply List.Forall_nil. }
  split; [exact Htext|].
  destruct (process_raw_data_reading clock_seconds
              (pystr_of_string "UNSTABLE -12.5lb") (pystr_of_string "scale-1")
              logger_world0 Htext)
    as (reading & Hr & _ & _ & _ & _ & _ & _ & Hst).
  exists reading. rewrite Hr. split; [reflexivity|].
  split; [|split; [|apply Hst; vm_compute; reflexivity]].
  - vm_compute in Hr. injection Hr as <-. reflexivity.
  - vm_compute in Hr. injection Hr as <-. reflexivity.
Defined.

(* ===================================================================== *)
(** ** The service's poll *)
(* ===================================================================== *)

Section ServiceFacts.
Import Link ScaleLogger ScaleService.
Context {F : Type} `{PyFloat F}.
Variable utc_now : nat -> F.
Variable save_succeeds : nat -> bool.
Implicit Types (w : world F) (buf : list (entry F)).

Lemma decode_link_text recv_data : link_text (decode_ascii_replace recv_data).
Proof.
  unfold link_text, decode_ascii_replace. apply List.Forall_map.
  apply List.Forall_forall. intros b _. unfold link_char.
  destruct (N.ltb_spec (Byte.to_N b) 128); [left; assumption | right; reflexivity].
Qed.

Lemma scan_frames_link_text cur s d :
  link_text cur -> link_text s -> In d (scan_frames cur s) -> link_text d.
Proof.
  revert cur. induction s as [|c s IH]; intros cur Hcur Hs Hd; simpl in Hd.
  - destruct Hd.
  - apply List.Forall_cons_iff in Hs as [Hc Hs]. destruct (is_crlf c).
    + apply in_app_or in Hd. destruct Hd as [Hd|Hd].
      * unfold emit in Hd. destruct (truthy (strip cur)); [|destruct Hd].
        destruct Hd as [<-|[]]. apply strip_Forall, Hcur.
      * apply (IH []); [constructor | exact Hs | exact Hd].
    + apply (IH (cur ++ [c])); [|exact Hs | exact Hd].
      apply Forall_app.
      split; [exact Hcur | apply List.Forall_cons; [exact Hc | apply List.Forall_nil]].
Qed.

Lemma monitor_iteration_link_text partial_data it w buf :
  logger_holds w buf -> link_text partial_data ->
  Forall link_text (frame_texts buf) ->
  exists buf',
    logger_holds (monitor_iteration utc_now partial_data it w) buf'
    /\ Forall link_text (frame_texts buf').
Proof.
  intros Hw Hp Hb. unfold monitor_iteration.
  assert (exists w1 ok, (if connected (self w) then (true, w)
                         else connect utc_now (connect_succeeds it) w) = (ok, w1)
                        /\ logger_holds w1 buf) as (w1 & ok & -> & H1).
  { destruct (connected (self w)); [exists w, true; split; [reflexivity | exact Hw]|].
    pose proof (logger_connect_holds utc_now (connect_succeeds it) w buf Hw) as Hc.
    destruct (connect utc_now (connect_succeeds it) w) as [ok w1].
    exists w1, ok. split; [reflexivity | exact Hc]. }
  destruct ok; cbn [negb]; [|exists buf; split; assumption].
  destruct (received it) as [recv_data| |];
    [|exists buf; split; assumption|exists buf; split; assumption].
  destruct (truthy recv_data); cbn [negb]; [|exists buf; split; assumption].
  destruct (process_received_spec utc_now recv_data partial_data w1 buf H1)
    as (new & Hn & Ht).
  exists (fold_left logger_append new buf). split; [exact Hn|].
  unfold frame_texts in *. apply List.Forall_map. apply logger_extend_Forall.
  - apply List.Forall_map, Hb.
  - apply List.Forall_map. rewrite Ht. apply List.Forall_forall. intros d Hd.
    eapply (scan_frames_link_text []); [constructor | | exact Hd].
    apply Forall_app. split; [exact Hp | apply decode_link_text].
Qed.

Lemma monitor_loop_link_text its partial_data w buf :
  logger_holds w buf -> link_text partial_data ->
  Forall link_text (frame_texts buf) ->
  exists buf',
    logger_holds (monitor_loop_from utc_now partial_data its w) buf'
    /\ Forall link_text (frame_texts buf').
Proof.
  revert w buf. induction its as [|it its IH]; intros w buf Hw Hp Hb; simpl.
  - destruct (negb _); exists buf; split; assumption.
  - destruct (negb _); [exists buf; split; assumption|].
    destruct (monitor_iteration_link_text partial_data it w buf Hw Hp Hb)
      as (buf1 & H1 & Hb1).
    apply (IH _ _ H1 Hp Hb1).
Qed.

(** Every frame the logger's manager buffers is text as the link decodes
    it. *)
Lemma logger_link_text w :
  logger_reachable utc_now w ->
  exists buf, logger_holds w buf /\ Forall link_text (frame_texts buf).
Proof.
  induction 1 as [w Hw | w its _ (buf & Hw & Hb) | w ok _ (buf & Hw & Hb)
                 | w age _ (buf & Hw & Hb)].
  - exists []. split; [exact Hw | constructor].
  - apply (monitor_loop_link_text its [] w buf Hw); [constructor | exact Hb].
  - exists buf. split; [apply logger_connect_holds, Hw | exact Hb].
  - exists buf. split; [apply logger_get_recent_data_holds, Hw | exact Hb].
Qed.

(** The loop over the entries read: one reading per entry, in order, each
    offered to [save_reading] once. *)
Lemma process_entries_spec device entries (sv : service F) :
  let sv' := fold_left (process_entry utc_now save_succeeds device) entries sv in
  save_calls sv' = (save_calls sv + List.length entries)%nat
  /\ accepted sv'
     = accepted sv
       ++ stored_by save_succeeds (save_calls sv)
            (readings_at utc_now device (now_calls (adam_manager sv)) entries)
  /\ self (adam_manager sv') = self (adam_manager sv)
  /\ store (adam_manager sv') = store (adam_manager sv)
  /\ now_calls (adam_manager sv')
     = (now_calls (adam_manager sv) + List.length entries)%nat.
Proof.
  revert sv. induction entries as [|e entries IH]; intros sv sv'.
  - cbn. rewrite app_nil_r, !Nat.add_0_r. repeat split.
  - cbn [fold_left] in sv'.
    destruct (IH (process_entry utc_now save_succeeds device sv e))
      as (Hcalls & Hacc & Hself & Hstore & Hnow).
    fold sv' in Hcalls, Hacc, Hself, Hstore, Hnow.
    rewrite Hcalls, Hacc, Hself, Hstore, Hnow. clear Hcalls Hacc Hself Hstore Hnow IH.
    unfold process_entry. rewrite process_raw_data_some.
    unfold save_reading. cbn [datetime_now snd set_adam_manager save_calls
                              accepted adam_manager readings_at stored_by].
    destruct (save_succeeds (save_calls sv));
      cbn [snd save_calls accepted adam_manager self store now_calls
           List.length app];
      rewrite <- ?app_assoc; cbn [app]; repeat split; lia.
Qed.

End ServiceFacts.

(** X9: one poll of the service, [_process_recent_data], on a manager in a
    reachable state.  Every buffered frame newer than the time of the poll
    minus [poll_interval + 1] seconds is turned into a reading and offered to
    [save_reading] exactly once, in buffer order, each at the cost of one
    clock reading; no frame of the window is skipped, the rows stored are the
    readings whose save succeeded, and the manager and its buffer are left as
    they were. *)
Theorem poll_offers_every_recent_frame {F} `{PyFloat F} (utc_now : nat -> F)
    (save_succeeds : nat -> bool) (poll_interval : F) (device_id : pystr)
    (sv : ScaleService.service F) :
  logger_reachable utc_now (ScaleService.adam_manager sv) ->
  let w := ScaleService.adam_manager sv in
  let window :=
    newer_than (fsub (utc_now (ScaleLogger.now_calls w))
                     (fadd poll_interval (of_int 1)))
      (ScaleLogger.buffer w) in
  let sv' := ScaleService._process_recent_data utc_now save_succeeds
               poll_interval device_id sv in
  Forall link_text (frame_texts window)
  /\ ScaleService.save_calls sv'
     = (ScaleService.save_calls sv + List.length window)%nat
  /\ ScaleService.accepted sv'
     = ScaleService.accepted sv
       ++ stored_by save_succeeds (ScaleService.save_calls sv)
            (readings_at utc_now device_id (S (ScaleLogger.now_calls w)) window)
  /\ ScaleLogger.self (ScaleService.adam_manager sv') = ScaleLogger.self w
  /\ ScaleLogger.buffer (ScaleService.adam_manager sv') = ScaleLogger.buffer w
  /\ ScaleLogger.now_calls (ScaleService.adam_manager sv')
     = (S (ScaleLogger.now_calls w) + List.length window)%nat.
Proof.
  intros Hreach w window sv'.
  destruct (logger_link_text utc_now w Hreach) as (buf & Hw & Htext).
  set (r := ScaleLogger.get_recent_data utc_now (fadd poll_interval (of_int 1)) w).
  change sv' with
    (fold_left (ScaleService.process_entry utc_now save_succeeds device_id)
       (Link.deref (ScaleLogger.store r.2) r.1)
       (ScaleService.set_adam_manager r.2 sv)).
  pose proof (snapshot_alloc (ScaleLogger.store w) window) as (Hres & _ & Hpres).
  assert (Link.deref (ScaleLogger.store r.2) r.1 = window) as ->
    by (apply deref_lookup; exact Hres).
  destruct (process_entries_spec utc_now save_succeeds device_id window
              (ScaleService.set_adam_manager r.2 sv))
    as (Hcalls & Hacc & Hself & Hstore & Hnow).
  split; [|split; [exact Hcalls|split; [exact Hacc|split; [exact Hself|split]]]].
  - unfold window, newer_than, frame_texts in *.
    rewrite (logger_holds_buffer _ _ Hw). clear - Htext.
    induction buf as [|x buf IH]; [constructor|].
    cbn [map] in Htext. apply List.Forall_cons_iff in Htext as [Hx Hrest].
    cbn [List.filter]. destruct (fltb _ _); cbn [map];
      [apply List.Forall_cons; [exact Hx|]|]; apply IH, Hrest.
  - unfold ScaleLogger.buffer. rewrite Hself, Hstore.
    destruct (Hpres _ _ Hw) as [Hkeep _].
    rewrite (deref_lookup _ _ _ Hw). apply deref_lookup. exact Hkeep.
  - exact Hnow.
Qed.

Lemma poll_offers_every_recent_frame_witness :
  let sv := {| ScaleService.adam_manager := logger_world_two_frames;
               ScaleService.accepted := [];
               ScaleService.save_calls := 0 |} in
  let sv' := ScaleService._process_recent_data clock_seconds refuses_first_row
               10%Q (pystr_of_string "scale-1") sv in
  logger_reachable clock_seconds (ScaleService.adam_manager sv)
  /\ ScaleService.save_calls sv' = 2%nat
  /\ map (fun r => (ScaleService.raw_data r, ScaleService.weight r,
                    ScaleService.stable r))
       (ScaleService.accepted sv')
     = [(pystr_of_string "US,-0000.75 lb", Some (pystr_of_string "-0000.75"),
         Some false)].
Proof.
  intros sv sv'.
  assert (logger_reachable clock_seconds (ScaleService.adam_manager sv)) as Hreach.
  { apply lr_monitor, lr_init. reflexivity. }
  split; [exact Hreach|].
  destruct (poll_offers_every_recent_frame clock_seconds refuses_first_row 10%Q
              (pystr_of_string "scale-1") sv Hreach)
    as (_ & Hcalls & Hacc & _).
  fold sv' in Hcalls, Hacc. rewrite Hcalls, Hacc.
  split; vm_compute; reflexivity.
Defined.

(* ===================================================================== *)
(** ** The template catalog *)
(* ===================================================================== *)

Section DictFacts.
Context {K V : Type} `{EqDecision K}.
Implicit Types (d : list (K * V)) (k : K) (v : V).

Lemma dict_get_set_eq d k v : PyDict.get (PyDict.set d k v) k = Some v.
Proof.
  induction d as [|[k' v'] d IH]; cbn.
  - rewrite decide_True by reflexivity. reflexivity.
  - destruct (decide (k = k')) as [->|Hne]; cbn.
    + rewrite decide_True by reflexivity. reflexivity.
    + rewrite decide_False by exact Hne. exact IH.
Qed.

Lemma dict_get_set_ne d k k' v :
  k <> k' -> PyDict.get (PyDict.set d k v) k' = PyDict.get d k'.
Proof.
  intros Hne. induction d as [|[k0 v0] d IH]; cbn.
  - rewrite decide_False by congruence. reflexivity.
  - destruct (decide (k = k0)) as [->|Hne0]; cbn.
    + rewrite !decide_False by congruence. reflexivity.
    + destruct (decide (k' = k0)); [reflexivity | exact IH].
Qed.

Lemma dict_get_None d k : PyDict.get d k = None <-> ~ In k (map fst d).
Proof.
  induction d as [|[k' v'] d IH]; cbn; [tauto|].
  destruct (decide (k = k')) as [->|Hne].
  - split; [discriminate | intros Hn; exfalso; apply Hn; left; reflexivity].
  - rewrite IH. split; [intros Hn [E|Hin]; [congruence | tauto] | tauto].
Qed.

Lemma dict_set_keys d k v :
  map fst (PyDict.set d k v)
  = match PyDict.get d k with
    | Some _ => map fst d
    | None => map fst d ++ [k]
    end.
Proof.
  induction d as [|[k' v'] d IH]; cbn; [reflexivity|].
  destruct (decide (k = k')) as [->|Hne]; cbn; [reflexivity|].
  rewrite IH. destruct (PyDict.get d k); reflexivity.
Qed.

Lemma dict_set_NoDup d k v :
  NoDup (map fst d) -> NoDup (map fst (PyDict.set d k v)).
Proof.
  intros Hd. rewrite dict_set_keys.
  destruct (PyDict.get d k) eqn:E; [exact Hd|].
  apply dict_get_None in E. apply NoDup_app. split; [exact Hd|].
  split; [|apply NoDup_singleton].
  intros x Hx Hk. apply list_elem_of_In in Hx.
  apply list_elem_of_singleton in Hk as ->. exact (E Hx).
Qed.

End DictFacts.

Section CatalogFacts.
Import ScaleDiscovery KnownTemplates.
Implicit Types (templates : list (pystr * TemplateDocument))
  (files : list (option TemplateDocument)).

Lemma first_occurrence_unique {A} (Q : A -> Prop) l l' (x x' : A) r r' :
  l ++ x :: r = l' ++ x' :: r' ->
  Forall Q l -> Forall Q l' -> ~ Q x -> ~ Q x' -> x = x'.
Proof.
  intros E Hl Hl' Hx Hx'. revert l' E Hl'.
  induction l as [|y l IH]; intros [|y' l'] E Hl'; cbn in E.
  - congruence.
  - injection E as -> _. apply List.Forall_cons_iff in Hl' as [Hy _]. tauto.
  - injection E as -> _. apply List.Forall_cons_iff in Hl as [Hy _]. tauto.
  - injection E as _ E. apply List.Forall_cons_iff in Hl as [_ Hl].
    apply List.Forall_cons_iff in Hl' as [_ Hl']. exact (IH Hl l' E Hl').
Qed.

(** A file that does not carry the id [id]. *)
Local Abbreviation other_id id :=
  (fun file : option TemplateDocument =>
     match file with
     | Some d => template_id (document d) <> Some id
     | None => True
     end).

Lemma load_templates_snoc files file templates :
  load_templates (files ++ [file]) templates
  = load_template (load_templates files templates) file.
Proof. unfold load_templates. rewrite fold_left_app. reflexivity. Qed.

Lemma load_template_keeps templates file id :
  is_Some (PyDict.get templates id) ->
  is_Some (PyDict.get (load_template templates file) id).
Proof.
  intros Hid. unfold load_template.
  destruct file as [d|]; [|exact Hid].
  destruct (template_id (document d)) as [id'|]; [|exact Hid].
  destruct (truthy id'); [|exact Hid].
  destruct (decide (id' = id)) as [->|Hne].
  - rewrite dict_get_set_eq. eexists. reflexivity.
  - rewrite dict_get_set_ne by exact Hne. exact Hid.
Qed.

Lemma load_templates_NoDup files :
  NoDup (map fst (load_templates files [])).
Proof.
  induction files as [|file files IH] using rev_ind; [constructor|].
  rewrite load_templates_snoc. unfold load_template.
  destruct file as [d|]; [|exact IH].
  destruct (template_id (document d)) as [id'|]; [|exact IH].
  destruct (truthy id'); [|exact IH]. apply dict_set_NoDup, IH.
Qed.

Lemma load_templates_lookup files id doc :
  get_template (load_templates files []) id = Some doc ->
  template_id (document doc) = Some id /\ id <> []
  /\ exists before after,
       files = before ++ Some doc :: after /\ Forall (other_id id) after.
Proof.
  unfold get_template. revert doc.
  induction files as [|file files IH] using rev_ind; intros doc; [discriminate|].
  rewrite load_templates_snoc.
  assert (PyDict.get (load_templates files []) id = Some doc ->
          other_id id file ->
          template_id (document doc) = Some id /\ id <> []
          /\ exists before after,
               files ++ [file] = before ++ Some doc :: after
               /\ Forall (other_id id) after) as Hkeep.
  { intros Hget Hfile. destruct (IH doc Hget) as (Hid & Hne & before & after & -> & Ha).
    split; [exact Hid|]. split; [exact Hne|].
    exists before, (after ++ [file]). rewrite <- app_assoc. split; [reflexivity|].
    apply Forall_app. split; [exact Ha|].
    apply List.Forall_cons; [exact Hfile | apply List.Forall_nil]. }
  unfold load_template. destruct file as [d|]; [|intros Hget; apply Hkeep; trivial].
  destruct (template_id (document d)) as [id'|] eqn:Eid;
    [|intros Hget; apply Hkeep; [exact Hget | cbn; congruence]].
  destruct (truthy id') eqn:Etruthy.
  - destruct (decide (id' = id)) as [->|Hne].
    + rewrite dict_get_set_eq. intros E. injection E as <-.
      split; [exact Eid|]. split; [intros ->; discriminate Etruthy|].
      exists files, []. split; [reflexivity | constructor].
    + rewrite dict_get_set_ne by exact Hne. intros Hget.
      apply Hkeep; [exact Hget|]. cbn. congruence.
  - intros Hget. apply Hkeep; [exact Hget|]. cbn.
    destruct (IH doc Hget) as (_ & Hne & _). destruct id'; [congruence | discriminate].
Qed.

Lemma load_templates_complete files id doc :
  In (Some doc) files -> template_id (document doc) = Some id -> id <> [] ->
  is_Some (get_template (load_templates files []) id).
Proof.
  unfold get_template. intros Hin Hid Hne.
  induction files as [|file files IH] using rev_ind; [destruct Hin|].
  rewrite load_templates_snoc. apply in_app_or in Hin as [Hin|[->|[]]].
  - apply load_template_keeps, IH, Hin.
  - unfold load_template. rewrite Hid.
    destruct id; [congruence|]. cbn [truthy]. rewrite dict_get_set_eq.
    eexists. reflexivity.
Qed.

(** The ids of the templates of brand [b], in catalog order. *)
Local Abbreviation ids_of b templates :=
  (map fst (List.filter (fun item : pystr * TemplateDocument =>
                           bool_decide (brand_of item.2 = b)) templates)).

Lemma add_manufacturer_template_get manufacturers item b :
  PyDict.get (add_manufacturer_template manufacturers item) b
  = if bool_decide (brand_of item.2 = b)
    then Some (default [] (PyDict.get manufacturers b) ++ [item.1])
    else PyDict.get manufacturers b.
Proof.
  destruct item as [id doc]. unfold add_manufacturer_template. cbn [fst snd].
  destruct (bool_decide_reflect (brand_of doc = b)) as [<-|Hne].
  - rewrite dict_get_set_eq. f_equal. f_equal.
    destruct (PyDict.get manufacturers (brand_of doc)) eqn:E.
    + rewrite bool_decide_eq_true_2 by (eexists; reflexivity). cbn [negb].
      rewrite E. reflexivity.
    + rewrite bool_decide_eq_false_2 by (intros [x Hx]; discriminate Hx).
      cbn [negb]. rewrite dict_get_set_eq. reflexivity.
  - rewrite dict_get_set_ne by exact Hne.
    destruct (negb _); [|reflexivity]. apply dict_get_set_ne, Hne.
Qed.

Lemma add_manufacturer_template_NoDup manufacturers item :
  NoDup (map fst manufacturers) ->
  NoDup (map fst (add_manufacturer_template manufacturers item)).
Proof.
  intros Hm. destruct item as [id doc]. unfold add_manufacturer_template.
  apply dict_set_NoDup. destruct (negb _); [apply dict_set_NoDup|]; exact Hm.
Qed.

Lemma manufacturer_templates_from templates manufacturers b :
  PyDict.get (fold_left add_manufacturer_template templates manufacturers) b
  = match ids_of b templates with
    | [] => PyDict.get manufacturers b
    | ids => Some (default [] (PyDict.get manufacturers b) ++ ids)
    end.
Proof.
  revert manufacturers.
  induction templates as [|item templates IH]; intros manufacturers; [reflexivity|].
  cbn [fold_left List.filter]. rewrite IH, add_manufacturer_template_get.
  destruct (bool_decide (brand_of item.2 = b)); cbn [map default].
  - destruct (ids_of b templates) as [|id ids]; [reflexivity|].
    unfold Datatypes.id. rewrite <- app_assoc. reflexivity.
  - reflexivity.
Qed.

End CatalogFacts.

(** X10: the catalog [load_templates] builds from an empty one.  Its keys
    are distinct; the document found under an id carries that id, which is
    not empty, and is the last file with that id, so a later file silently
    replaces an earlier one; a file that cannot be read, or that has no id or
    an empty one, is left out; and every non-empty id of a file is a key. *)
Theorem catalog_holds_last_document_per_id
    (files : list (option KnownTemplates.TemplateDocument)) :
  let templates := KnownTemplates.load_templates files [] in
  NoDup (map fst templates)
  /\ (forall id doc,
        KnownTemplates.get_template templates id = Some doc <->
        ScaleDiscovery.template_id (KnownTemplates.document doc) = Some id
        /\ id <> []
        /\ exists before after,
             files = before ++ Some doc :: after
             /\ Forall (fun file =>
                          match file with
                          | Some d =>
                              ScaleDiscovery.template_id (KnownTemplates.document d)
                              <> Some id
                          | None => True
                          end) after).
Proof.
  intros templates. split; [apply load_templates_NoDup|].
  intros id doc. split; [apply load_templates_lookup|].
  intros (Hid & Hne & before & after & Hfiles & Hafter).
  destruct (load_templates_complete files id doc) as [doc' Hdoc'];
    [rewrite Hfiles; apply in_or_app; right; left; reflexivity | exact Hid
    | exact Hne |].
  fold templates in Hdoc'. rewrite Hdoc'. f_equal.
  destruct (load_templates_lookup files id doc' Hdoc')
    as (Hid' & _ & before' & after' & Hfiles' & Hafter').
  rewrite Hfiles in Hfiles'. symmetry.
  assert (Some doc = Some doc') as Hsame; [|congruence].
  apply (first_occurrence_unique
           (fun file => match file with
                        | Some d =>
                            ScaleDiscovery.template_id (KnownTemplates.document d)
                            <> Some id
                        | None => True
                        end)
           (rev after) (rev after') (Some doc) (Some doc') (rev before) (rev before')).
  - apply (f_equal (@rev _)) in Hfiles'.
    rewrite !rev_app_distr in Hfiles'. cbn [rev] in Hfiles'.
    rewrite <- !app_assoc in Hfiles'. exact Hfiles'.
  - apply Forall_rev, Hafter.
  - apply Forall_rev, Hafter'.
  - intros Hbad. exact (Hbad Hid).
  - intros Hbad. exact (Hbad Hid').
Qed.

(** X11: [get_manufacturer_templates] lists every brand once, and under a
    brand exactly the ids of the templates of that brand, in catalog order;
    a brand without template is no key. *)
Theorem manufacturer_templates_grouping
    (templates : list (pystr * KnownTemplates.TemplateDocument)) (b : pystr) :
  let manufacturers := KnownTemplates.get_manufacturer_templates templates in
  NoDup (map fst manufacturers)
  /\ PyDict.get manufacturers b
     = match map fst (List.filter
                        (fun item : pystr * KnownTemplates.TemplateDocument =>
                           bool_decide (KnownTemplates.brand_of item.2 = b))
                        templates) with
       | [] => None
       | ids => Some ids
       end.
Proof.
  intros manufacturers. split.
  - unfold manufacturers, KnownTemplates.get_manufacturer_templates.
    assert (NoDup (map fst (@nil (pystr * list pystr)))) as Hnil by constructor.
    revert Hnil. generalize (@nil (pystr * list pystr)).
    induction templates as [|item templates IH]; intros acc Hacc; [exact Hacc|].
    cbn [fold_left]. apply IH, add_manufacturer_template_NoDup, Hacc.
  - unfold manufacturers, KnownTemplates.get_manufacturer_templates.
    rewrite manufacturer_templates_from. reflexivity.
Qed.

(* ===================================================================== *)
(** ** Phase 1: testing the known templates *)
(* ===================================================================== *)

Section KnownTemplatesFacts.
Import Link ScaleDiscovery KnownTemplates.
Local Open Scope Q_scope.
Variable utc_now : nat -> Q.
Variable socket_connect : nat -> bool.
Variable sleep : Q -> world Q -> world Q.
Implicit Types (r : KnownResult Q) (best : KnownTemplatesResult Q)
  (results : list (KnownResult Q)) (w : world Q).

Lemma fltb_Q (a b : Q) : fltb a b = true <-> a < b.
Proof.
  cbn [fltb PyFloat_Q]. rewrite negb_true_iff. split.
  - intros Hle. apply Qnot_le_lt. intros Hba. apply Qle_bool_iff in Hba. congruence.
  - intros Hlt. destruct (Qle_bool b a) eqn:E; [|reflexivity].
    apply Qle_bool_iff in E. exfalso. exact (Qlt_not_le _ _ Hlt E).
Qed.

Lemma fltb_Q_false (a b : Q) : fltb a b = false <-> b <= a.
Proof.
  cbn [fltb PyFloat_Q]. rewrite negb_false_iff. apply Qle_bool_iff.
Qed.

Lemma fgeb_Q (a b : Q) : fgeb a b = true <-> b <= a.
Proof. cbn [fgeb PyFloatGe_Q]. apply Qle_bool_iff. Qed.

Lemma fgeb_Q_false (a b : Q) : fgeb a b = false <-> a < b.
Proof.
  cbn [fgeb PyFloatGe_Q]. split.
  - intros E. apply Qnot_le_lt. intros Hba. apply Qle_bool_iff in Hba. congruence.
  - intros Hlt. destruct (Qle_bool b a) eqn:E; [|reflexivity].
    apply Qle_bool_iff in E. exfalso. exact (Qlt_not_le _ _ Hlt E).
Qed.

(** The best result so far is a successful one of positive confidence that
    no successful result exceeds; without one, no successful result has a
    positive confidence. *)
Local Abbreviation best_of best results :=
  (match best with
   | BestResult b =>
       In b results /\ result_success b = true /\ 0 < result_confidence b
       /\ forall r, In r results -> result_success r = true ->
                    result_confidence r <= result_confidence b
   | _ =>
       forall r, In r results -> result_success r = true ->
                 result_confidence r <= 0
   end).

Local Abbreviation below_95 := (fun r : KnownResult Q => result_confidence r < 95).

(** A failed test has confidence 0; an analysed one is a success. *)
Local Abbreviation well_tested :=
  (fun r : KnownResult Q =>
     match tested r with
     | TestFailed c _ => c = 0%Z
     | TestAnalysed m => success m = true
     end).

Lemma test_template_tested template_data test_duration w :
  match (test_template utc_now socket_connect sleep template_data
           test_duration w).1 with
  | TestFailed c _ => c = 0%Z
  | TestAnalysed m => success m = true
  end.
Proof.
  unfold test_template.
  destruct (if connected (self w) then (true, w) else connect socket_connect w)
    as [ok w1].
  destruct ok; cbn [negb]; [|reflexivity].
  destruct (start_data_capture socket_connect w1) as [ok w2].
  destruct ok; cbn [negb]; [|reflexivity].
  destruct (get_recent_data utc_now _ _) as [l w3].
  destruct (truthy _); cbn [negb fst]; [|reflexivity].
  unfold _analyze_template_match.
  destruct (fold_left _ _ _) as [[? ?] ?]. reflexivity.
Qed.

Lemma known_confidence_bound best results :
  best_of best results -> Forall below_95 results -> known_confidence best < 95.
Proof.
  intros Hbest Hall. destruct best as [| |b]; try reflexivity.
  destruct Hbest as (Hin & _). rewrite List.Forall_forall in Hall.
  apply (Hall b Hin).
Qed.

Lemma best_of_step best results r :
  best_of best results ->
  best_of (if result_success r
              && fltb (known_confidence best) (result_confidence r)
           then BestResult r else best)
          (results ++ [r]).
Proof.
  intros Hbest.
  assert (forall x, In x results -> result_success x = true ->
                    result_confidence x <= known_confidence best
                    /\ 0 <= known_confidence best) as Hle.
  { intros x Hx Hs. destruct best as [| |b].
    - split; [apply (Hbest x Hx Hs) | apply Qle_refl].
    - split; [apply (Hbest x Hx Hs) | apply Qle_refl].
    - destruct Hbest as (_ & _ & Hpos & Hmax).
      split; [apply (Hmax x Hx Hs) | apply Qlt_le_weak, Hpos]. }
  destruct (result_success r) eqn:Hs; cbn [andb].
  - destruct (fltb (known_confidence best) (result_confidence r)) eqn:Hlt.
    + apply fltb_Q in Hlt.
      split; [apply in_or_app; right; left; reflexivity|].
      split; [exact Hs|]. split.
      * destruct best as [| |b]; try exact Hlt.
        destruct Hbest as (_ & _ & Hpos & _). exact (Qlt_trans _ _ _ Hpos Hlt).
      * intros x Hx Hxs. apply in_app_or in Hx as [Hx|[<-|[]]]; [|apply Qle_refl].
        destruct (Hle x Hx Hxs) as [Hxb _].
        apply Qlt_le_weak. exact (Qle_lt_trans _ _ _ Hxb Hlt).
    + apply fltb_Q_false in Hlt. destruct best as [| |b].
      * intros x Hx Hxs. apply in_app_or in Hx as [Hx|[<-|[]]];
          [apply (Hbest x Hx Hxs) | exact Hlt].
      * intros x Hx Hxs. apply in_app_or in Hx as [Hx|[<-|[]]];
          [apply (Hbest x Hx Hxs) | exact Hlt].
      * destruct Hbest as (Hin & Hbs & Hpos & Hmax).
        split; [apply in_or_app; left; exact Hin|]. split; [exact Hbs|].
        split; [exact Hpos|].
        intros x Hx Hxs. apply in_app_or in Hx as [Hx|[<-|[]]];
          [apply (Hmax x Hx Hxs) | exact Hlt].
  - destruct best as [| |b].
    + intros x Hx Hxs. apply in_app_or in Hx as [Hx|[<-|[]]];
        [apply (Hbest x Hx Hxs) | congruence].
    + intros x Hx Hxs. apply in_app_or in Hx as [Hx|[<-|[]]];
        [apply (Hbest x Hx Hxs) | congruence].
    + destruct Hbest as (Hin & Hbs & Hpos & Hmax).
      split; [apply in_or_app; left; exact Hin|]. split; [exact Hbs|].
      split; [exact Hpos|].
      intros x Hx Hxs. apply in_app_or in Hx as [Hx|[<-|[]]];
        [apply (Hmax x Hx Hxs) | congruence].
Qed.

(** The loop over the catalog. *)
Lemma try_templates_spec templates best results w :
  best <> NoTemplates -> best_of best results -> Forall below_95 results ->
  let out := try_templates utc_now socket_connect sleep templates best results w in
  exists new untested,
    out.1.2 = results ++ new
    /\ map fst templates = map known_template_id new ++ untested
    /\ Forall below_95 (removelast new)
    /\ out.1.1 <> NoTemplates
    /\ best_of out.1.1 out.1.2
    /\ (untested <> [] ->
        exists front r,
          new = front ++ [r] /\ 95 <= result_confidence r
          /\ out.1.1 = BestResult r).
Proof.
  revert best results w.
  induction templates as [|[id doc] templates IH]; intros best results w Hno Hbest Hall.
  - exists [], []. cbn. rewrite app_nil_r.
    repeat split; try assumption; try constructor. congruence.
  - cbn [try_templates].
    pose proof (test_template_tested (document doc) (of_int 5) w) as Htested.
    destruct (test_template utc_now socket_connect sleep (document doc) (of_int 5) w)
      as [result w1].
    cbn [fst] in Htested.
    set (r := {| tested := result; known_template_id := id;
                 known_template_name := default id (template_name (document doc));
                 brand := brand_of doc |}).
    pose proof (best_of_step best results r Hbest) as Hstep.
    set (best1 := if result_success r
                     && fltb (known_confidence best) (result_confidence r)
                  then BestResult r else best) in *.
    assert (best1 <> NoTemplates) as Hno1.
    { unfold best1. destruct (_ && _); [discriminate | exact Hno]. }
    destruct (fgeb (result_confidence r) (of_int 95)) eqn:Hge.
    + apply fgeb_Q in Hge. change (inject_Z 95) with 95 in Hge.
      exists [r], (map fst templates). cbn [fst snd map app removelast].
      split; [reflexivity|]. split; [reflexivity|]. split; [constructor|].
      split; [exact Hno1|]. split; [exact Hstep|].
      intros _. exists [], r. split; [reflexivity|]. split; [exact Hge|].
      unfold best1.
      assert (result_success r = true) as ->.
      { unfold result_success, result_confidence in *. cbn [tested r] in *.
        destruct result as [c error|m]; [|exact Htested].
        subst c. exfalso. revert Hge. cbn. unfold Qle. cbn. lia. }
      assert (fltb (known_confidence best) (result_confidence r) = true) as ->;
        [|reflexivity].
      apply fltb_Q. eapply Qlt_le_trans; [|exact Hge].
      apply (known_confidence_bound best results Hbest Hall).
    + apply fgeb_Q_false in Hge. change (inject_Z 95) with 95 in Hge.
      destruct (IH best1 (results ++ [r]) w1 Hno1 Hstep)
        as (new & untested & Hout & Hids & Hbelow & Hno2 & Hbest2 & Hlast).
      { apply Forall_app. split; [exact Hall|].
        apply List.Forall_cons; [exact Hge | apply List.Forall_nil]. }
      exists (r :: new), untested.
      split; [rewrite Hout, <- app_assoc; reflexivity|].
      split; [cbn [map app fst]; rewrite Hids; reflexivity|].
      split; [destruct new; [constructor|];
              cbn [removelast]; apply List.Forall_cons; [exact Hge | exact Hbelow]|].
      split; [exact Hno2|]. split; [exact Hbest2|].
      intros Hun. destruct (Hlast Hun) as (front & last_r & -> & H95 & Hb).
      exists (r :: front), last_r. split; [reflexivity|]. split; assumption.
Qed.

End KnownTemplatesFacts.

(** X12: [_try_known_templates] in exact arithmetic.  The templates are
    tested in catalog order, each once, and testing stops at the first
    confidence of 95 or more, which is then the result returned; every test
    before the last scored below 95.  In general the result is a successful
    test of positive confidence that no other successful test of the run
    exceeds, or the initial result when there is none; and the answer for an
    empty catalog is given exactly for an empty catalog. *)
Theorem known_templates_best_result (utc_now : nat -> Q)
    (socket_connect : nat -> bool)
    (sleep : Q -> ScaleDiscovery.world Q -> ScaleDiscovery.world Q)
    (templates : list (pystr * KnownTemplates.TemplateDocument))
    (w : ScaleDiscovery.world Q) :
  let out := KnownTemplates._try_known_templates utc_now socket_connect sleep
               templates w in
  let best := out.1.1 in
  let results := out.1.2 in
  (best = KnownTemplates.NoTemplates <-> templates = [])
  /\ (exists untested,
        map fst templates
        = map KnownTemplates.known_template_id results ++ untested
        /\ (untested <> [] ->
            exists front r,
              results = front ++ [r]
              /\ (95 <= KnownTemplates.result_confidence r)%Q
              /\ best = KnownTemplates.BestResult r))
  /\ Forall (fun r => (KnownTemplates.result_confidence r < 95)%Q)
       (removelast results)
  /\ match best with
     | KnownTemplates.BestResult b =>
         In b results /\ KnownTemplates.result_success b = true
         /\ (0 < KnownTemplates.result_confidence b)%Q
         /\ forall r, In r results -> KnownTemplates.result_success r = true ->
                      (KnownTemplates.result_confidence r
                       <= KnownTemplates.result_confidence b)%Q
     | _ =>
         forall r, In r results -> KnownTemplates.result_success r = true ->
                   (KnownTemplates.result_confidence r <= 0)%Q
     end.
Proof.
  intros out best results. unfold best, results, out.
  unfold KnownTemplates._try_known_templates.
  destruct templates as [|item templates]; cbn [truthy negb].
  - cbn. split; [split; reflexivity|].
    split; [exists []; split; [reflexivity | congruence]|].
    split; [constructor|]. intros r [].
  - destruct (try_templates_spec utc_now socket_connect sleep (item :: templates)
                KnownTemplates.NoneSucceeded [] w)
      as (new & untested & Hout & Hids & Hbelow & Hno & Hbest & Hlast);
      [discriminate | intros r [] | constructor |].
    cbn [app] in Hout. rewrite Hout in *.
    split; [split; [intros E; congruence | discriminate]|].
    split; [exists untested; split; [exact Hids | exact Hlast]|].
    split; [exact Hbelow | exact Hbest].
Qed.

(* ===================================================================== *)
(** ** A whole discovery session *)
(* ===================================================================== *)

Section SessionWhole.
Import Link ScaleDiscovery DiscoverySession KnownTemplates.
Context {F : Type} `{PyFloat F} `{PyFloatGe F}.
Variable utc_now : nat -> F.
Variable socket_connect : nat -> bool.
Variable sleep : F -> world F -> world F.
Variable wait_operator : pystr -> world F -> outcome (world F).
Variable write_succeeds : pystr -> bool.
Variable unix_time : Z.
Variable local_time : pystr.
Variable confidence_threshold : F.

(** How interactive discovery ends, from an empty list of steps. *)
Lemma capture_baseline_shape (e : ProtocolDiscoveryEngine (F := F)) (w : world F) :
  discovery_steps e = [] ->
  let r := _capture_baseline utc_now sleep wait_operator write_succeeds
             unix_time local_time confidence_threshold (e, w) in
  match r.1 with
  | Returned (true, Some template) =>
      discovery_steps r.2.1 <> []
      /\ pt_confidence_score template = overall_score r.2.1
      /\ write_succeeds (template_path (pt_template_id template)) = true
  | Returned (true, None) => False
  | Returned (false, template) => template = None /\ discovery_steps r.2.1 = []
  | Raised exn =>
      discovery_steps r.2.1 <> []
      /\ ((exists w', wait_operator stable_prompt w' = Raised exn)
          \/ (exn = OSError
              /\ write_succeeds
                   (template_path
                      (pystr_of_string "discovered_" ++ str_of_Z unix_time))
                 = false))
  end.
Proof.
  intros Hsteps r. unfold r, _capture_baseline.
  pose proof (capture_step_spec utc_now sleep (of_int 5) (of_int 6) 1
                (pystr_of_string "baseline") (of_int 0) e w) as Hstep.
  cbn zeta in Hstep.
  destruct (capture_step utc_now sleep (of_int 5) (of_int 6) 1
              (pystr_of_string "baseline") (of_int 0) (e, w))
    as [captured [e1 w1]].
  cbn [fst snd] in Hstep.
  destruct (step_frames utc_now sleep (of_int 5) (of_int 6) w)
    as [|first_frame frames].
  - destruct Hstep as [-> ->]. cbn [negb fst snd]. split; [reflexivity | exact Hsteps].
  - destruct Hstep as (-> & baseline & -> & _ & _ & _ & Hc). cbn [negb].
    rewrite Hsteps. cbn [app]. unfold _run_weight_tests.
    destruct (weight_tests_append utc_now sleep wait_operator confidence_threshold
                test_weights 2
                {| discovery_steps := [baseline];
                   confidence_scores := confidence_scores e |} w1)
      as (later & Heq & _ & _ & _ & Hend & _); [simpl; lia|].
    destruct (weight_tests_from utc_now sleep wait_operator
                confidence_threshold 2 test_weights _) as [ended [e2 w2]].
    cbn [fst snd discovery_steps app] in Heq, Hend.
    destruct ended as [[]|exn].
    + unfold finalize, _finalize_discovery, _save_template,
        _analyze_and_create_template.
      rewrite Heq, Hc. cbn [truthy negb map pt_template_id].
      destruct (write_succeeds _) eqn:Hwrite; cbn [fst snd pt_template_id].
      * rewrite Heq. split; [discriminate|].
        split; [reflexivity | first [exact Hwrite | reflexivity]].
      * rewrite Heq. split; [discriminate|]. right.
        split; [reflexivity | first [exact Hwrite | reflexivity]].
    + cbn [fst snd]. rewrite Heq. split; [discriminate|].
      destruct Hend as [Hend|(exn' & w' & Hend & Hraise)]; [discriminate Hend|].
      injection Hend as <-. left. exists w'. exact Hraise.
Qed.

(** The best result of the loop over the catalog is the one it started
    with or the result of one of the templates. *)
Lemma try_templates_best_id templates best results (w : world F) b :
  (try_templates utc_now socket_connect sleep templates best results w).1.1
  = BestResult b ->
  best = BestResult b \/ In (known_template_id b) (map fst templates).
Proof.
  revert best results w.
  induction templates as [|[id doc] templates IH]; intros best results w;
    [intros E; left; exact E|].
  cbn [try_templates].
  destruct (test_template utc_now socket_connect sleep (document doc) (of_int 5) w)
    as [result w1].
  set (r := {| tested := result; known_template_id := id;
               known_template_name := default id (template_name (document doc));
               brand := brand_of doc |}).
  assert (forall best1,
            best1 = (if result_success r
                        && fltb (known_confidence best) (result_confidence r)
                     then BestResult r else best) ->
            best1 = BestResult b ->
            best = BestResult b \/ In (known_template_id b) (map fst ((id, doc) :: templates)))
    as Hone.
  { intros best1 -> E. destruct (_ && _); [|left; exact E].
    injection E as <-. right. left. reflexivity. }
  destruct (fgeb (result_confidence r) (of_int 95)); cbn [fst].
  - intros E. exact (Hone _ eq_refl E).
  - intros E. apply IH in E as [E|Hin].
    + exact (Hone _ eq_refl E).
    + right. right. exact Hin.
Qed.

End SessionWhole.


(* ===================================================================== *)
(** ** A discovered template read back from its file *)
(* ===================================================================== *)

Lemma py_slice_prefix {A} (s : list A) (n : nat) :
  (n <= List.length s)%nat ->
  py_slice s 0 (0 + Z.of_nat n) = firstn n s.
Proof.
  intros Hn. unfold py_slice, slice_index. rewrite Z.add_0_l.
  change (0 <? 0)%Z with false. cbn iota.
  destruct (Z.ltb_spec (Z.of_nat n) 0) as [Hneg|_]; [lia|].
  rewrite Z.min_l by lia. rewrite Z.min_l by lia.
  rewrite Z.sub_0_r, Nat2Z.id. reflexivity.
Qed.

(** X14: the template interactive discovery synthesizes, saved and read back
    as a catalog document, has the single numeric field
    [{start: 0, length: len(sample)}], where [sample] is the first frame of
    the first step.  It parses a frame exactly when the frame is at least as
    long as the sample and its first [len(sample)] characters, trimmed, are
    a literal of [float]; so it parses its own sample exactly when the sample
    as a whole is such a literal. *)
Theorem discovered_template_parses_numbers_only {F} `{PyFloat F}
    (e : ScaleDiscovery.ProtocolDiscoveryEngine (F := F))
    (unix_time : Z) (local_time : pystr) (utc_time : F)
    (template : ScaleDiscovery.ProtocolTemplate (F := F)) :
  ScaleDiscovery._analyze_and_create_template e unix_time local_time utc_time
  = ScaleDiscovery.Returned (Some template) ->
  exists first_step later sample frames doc field,
    ScaleDiscovery.discovery_steps e = first_step :: later
    /\ ScaleDiscovery.captured_data first_step = sample :: frames
    /\ TemplateFiles.template_document template = Some doc
    /\ ScaleDiscovery.template_id (KnownTemplates.document doc)
       = Some (pystr_of_string "discovered_" ++ str_of_Z unix_time)
    /\ ScaleDiscovery.fields (KnownTemplates.document doc) = Some [field]
    /\ (forall raw_data,
          ScaleDiscovery.parse_success
            (ScaleDiscovery._parse_with_template raw_data [field])
          = (List.length sample <=? List.length raw_data)%nat
            && is_float_literal (strip (firstn (List.length sample) raw_data)))
    /\ ScaleDiscovery.parse_success
         (ScaleDiscovery._parse_with_template sample [field])
       = is_float_literal (strip sample).
Proof.
  unfold ScaleDiscovery._analyze_and_create_template.
  destruct (ScaleDiscovery.discovery_steps e) as [|first_step later] eqn:Hsteps;
    [discriminate|].
  destruct (ScaleDiscovery.captured_data first_step) as [|sample frames] eqn:Hdata;
    cbn [truthy negb]; [discriminate|].
  intros E. injection E as <-.
  eexists first_step, later, sample, frames, _, _.
  split; [reflexivity|]. split; [exact Hdata|].
  split; [reflexivity|]. split; [reflexivity|]. split; [reflexivity|].
  assert (forall raw_data,
            ScaleDiscovery.parse_success
              (ScaleDiscovery._parse_with_template raw_data
                 [{| ScaleDiscovery.name := pystr_of_string "weight";
                     ScaleDiscovery.start := 0;
                     ScaleDiscovery.length := Z.of_nat (List.length sample);
                     ScaleDiscovery.field_type := pystr_of_string "numeric";
                     ScaleDiscovery.values := None |}])
            = (List.length sample <=? List.length raw_data)%nat
              && is_float_literal (strip (firstn (List.length sample) raw_data)))
    as Hparse.
  { intros raw_data. unfold ScaleDiscovery._parse_with_template.
    rewrite parse_fields_cons. unfold field_slice, is_numeric.
    cbn [ScaleDiscovery.start ScaleDiscovery.length ScaleDiscovery.field_type
         ScaleDiscovery.name].
    destruct (Nat.leb_spec (List.length sample) (List.length raw_data)) as [Hle|Hgt].
    - destruct (Z.leb_spec (0 + Z.of_nat (List.length sample))
                  (Z.of_nat (List.length raw_data))) as [_|Hbad]; [|lia].
      rewrite (py_slice_prefix raw_data _ Hle).
      change (pystr_eqb (pystr_of_string "numeric") (pystr_of_string "numeric"))
        with true. cbn [andb].
      destruct (is_float_literal _); reflexivity.
    - destruct (Z.leb_spec (0 + Z.of_nat (List.length sample))
                  (Z.of_nat (List.length raw_data))) as [Hbad|_]; [lia|].
      reflexivity. }
  split; [exact Hparse|].
  rewrite Hparse, Nat.leb_refl, firstn_all. reflexivity.
Qed.

Lemma discovered_template_parses_numbers_only_witness :
  exists template doc field,
    ScaleDiscovery._analyze_and_create_template engine_with_frames 1700000000
      (pystr_of_string "2023-11-14 22:13:20") 1700000000%Q
    = ScaleDiscovery.Returned (Some template)
    /\ TemplateFiles.template_document template = Some doc
    /\ ScaleDiscovery.fields (KnownTemplates.document doc) = Some [field]
    /\ ScaleDiscovery.parse_success
         (ScaleDiscovery._parse_with_template (pystr_of_string "0.000 kg") [field])
       = false
    /\ ScaleDiscovery.parse_success
         (ScaleDiscovery._parse_with_template (pystr_of_string "12.34567") [field])
       = true.
Proof.
  eexists.
  destruct (discovered_template_parses_numbers_only engine_with_frames 1700000000
              (pystr_of_string "2023-11-14 22:13:20") 1700000000%Q _ eq_refl)
    as (first_step & later & sample & frames & doc & field & Hsteps & Hdata
        & Hdoc & _ & Hfields & Hparse & _).
  exists doc, field. split; [reflexivity|]. split; [exact Hdoc|].
  split; [exact Hfields|].
  vm_compute in Hsteps. injection Hsteps as <- _.
  vm_compute in Hdata. injection Hdata as <- _.
  rewrite !Hparse. split; vm_compute; reflexivity.
Defined.

(* ===================================================================== *)
(** ** Configuration *)
(* ===================================================================== *)

Section ConfigFacts.
Import Config.
Context {F : Type} `{PyFloat F}.
Implicit Types (v : json F) (items default override : list (pystr * json F))
  (path : list pystr).

(** What [_merge_configs] stores under a key of the override. *)
Local Abbreviation merged_value default_value v :=
  (match default_value, v with
   | Some (JDict d), JDict _ => JDict (merge_value d v)
   | _, _ => v
   end).

(** The value under a key after the merge. *)
Lemma merge_value_get default items k :
  NoDup (map fst items) ->
  PyDict.get (merge_value default (JDict items)) k
  = match PyDict.get items k with
    | None => PyDict.get default k
    | Some v => Some (merged_value (PyDict.get default k) v)
    end.
Proof.
  cbn [merge_value]. revert default.
  induction items as [|[k0 v0] items IH]; intros default Hnodup; [reflexivity|].
  cbn [map fst] in Hnodup. apply NoDup_cons in Hnodup as [Hk0 Hnodup].
  cbn [fold_left fst snd PyDict.get]. rewrite (IH _ Hnodup).
  destruct (decide (k = k0)) as [->|Hne].
  - assert (PyDict.get items k0 = None) as ->.
    { apply dict_get_None. intros Hin. apply Hk0, list_elem_of_In, Hin. }
    apply dict_get_set_eq.
  - rewrite dict_get_set_ne by congruence. reflexivity.
Qed.

Lemma json_wf_get items k v :
  json_wf (JDict items) -> PyDict.get items k = Some v ->
  json_wf v.
Proof.
  intros [_ Hall]. induction items as [|[k0 v0] items IH]; [discriminate|].
  cbn [fold_right snd] in Hall. destruct Hall as [Hv0 Hall]. cbn [PyDict.get].
  destruct (decide (k = k0)); [intros E; injection E as <-; exact Hv0|].
  apply IH, Hall.
Qed.

Lemma get_path_not_dict v key path : is_dict v = false -> get_path v (key :: path) = None.
Proof. destruct v; try reflexivity. discriminate. Qed.

Lemma silent_on_get_path v path : silent_on v path -> get_path v path = None.
Proof.
  revert v. induction path as [|key path IH]; intros v; [intros []|].
  cbn [silent_on get_path]. destruct v; try reflexivity.
  destruct (PyDict.get items key); [apply IH | reflexivity].
Qed.

Lemma merge_silent path : forall default override,
  json_wf (JDict override) -> silent_on (JDict override) path ->
  get_path (JDict (_merge_configs default override)) path
  = get_path (JDict default) path.
Proof.
  unfold _merge_configs.
  induction path as [|key path IH]; intros default override Hwf; [intros []|].
  cbn [silent_on get_path]. rewrite merge_value_get by apply Hwf.
  destruct (PyDict.get override key) as [v|] eqn:Ev; [|reflexivity].
  pose proof (json_wf_get _ _ _ Hwf Ev) as Hv. intros Hsilent.
  destruct path as [|key2 path]; [destruct Hsilent|].
  destruct v as [| | | | | |oo]; try destruct Hsilent.
  destruct (PyDict.get default key) as [[| | | | | |dd]|];
    try (rewrite (silent_on_get_path _ _ Hsilent); reflexivity).
  apply (IH dd oo Hv Hsilent).
Qed.

Lemma merge_leaf path : forall default override v,
  json_wf (JDict override) ->
  get_path (JDict override) path = Some v -> is_dict v = false ->
  get_path (JDict (_merge_configs default override)) path = Some v.
Proof.
  unfold _merge_configs.
  induction path as [|key path IH]; intros default override v Hwf.
  - cbn. intros E. injection E as <-. discriminate.
  - cbn [get_path]. rewrite merge_value_get by apply Hwf.
    destruct (PyDict.get override key) as [ov|] eqn:Ev; [|discriminate].
    pose proof (json_wf_get _ _ _ Hwf Ev) as Hov. intros Hpath Hleaf.
    destruct ov as [| | | | | |oo];
      try (destruct (PyDict.get default key) as [[]|]; exact Hpath).
    destruct (PyDict.get default key) as [[| | | | | |dd]|]; try exact Hpath.
    apply (IH dd oo v Hov Hpath Hleaf).
Qed.

End ConfigFacts.

(** X15: [_merge_configs] on a file as [json.load] builds it.  Every value
    of the file that is not an object is found in the result under the same
    path of keys, whatever the defaults hold there; and wherever the file is
    silent on a path, the result holds what the defaults hold, at any
    depth. *)
Theorem merged_config_paths {F} `{PyFloat F}
    (default override : list (pystr * Config.json F)) (path : list pystr) :
  json_wf (Config.JDict override) ->
  let result := Config.JDict (Config._merge_configs default override) in
  (forall v,
     get_path (Config.JDict override) path = Some v -> is_dict v = false ->
     get_path result path = Some v)
  /\ (silent_on (Config.JDict override) path ->
      get_path result path = get_path (Config.JDict default) path).
Proof.
  intros Hwf result. split.
  - intros v Hv Hleaf. apply merge_leaf; assumption.
  - intros Hsilent. apply merge_silent; assumption.
Qed.

Lemma merged_config_paths_witness :
  let result := Config.JDict (Config._merge_configs default_items poll_override) in
  json_wf (Config.JDict poll_override)
  /\ get_path result [pystr_of_string "monitoring"; pystr_of_string "poll_interval"]
     = Some (Config.JInt 30)
  /\ get_path result
       [pystr_of_string "monitoring"; pystr_of_string "health_check_interval"]
     = Some (Config.JFloat 60%Q).
Proof.
  intros result.
  assert (json_wf (Config.JDict poll_override)) as Hwf.
  { cbn. split; [|repeat split; apply NoDup_singleton].
    apply NoDup_cons. split; [|apply NoDup_singleton].
    intros Hin. apply list_elem_of_singleton in Hin. discriminate Hin. }
  split; [exact Hwf|].
  pose proof (merged_config_paths default_items poll_override
                [pystr_of_string "monitoring"; pystr_of_string "poll_interval"]
                Hwf) as [Hleaf _].
  pose proof (merged_config_paths default_items poll_override
                [pystr_of_string "monitoring";
                 pystr_of_string "health_check_interval"] Hwf) as [_ Hsilent].
  split.
  - apply Hleaf; reflexivity.
  - cbn zeta in Hsilent. fold result in Hsilent. rewrite Hsilent; [reflexivity|].
    vm_compute. exact I.
Defined.

Section ConfigInit.
Import Config.
Context {F : Type} `{PyFloat F}.
Variable getenv : pystr -> option pystr.
Variable py_int : pystr -> option Z.
Variable py_float : pystr -> option F.
Variable POSTGRES_AVAILABLE : bool.
Implicit Types (config v : json F) (items : list (pystr * json F)).

Lemma bind_Returned {A B} (r : outcome A) (f : A -> outcome B) b :
  bind r f = Returned b -> exists a, r = Returned a /\ f a = Returned b.
Proof. destruct r as [a|exn]; [|discriminate]. intros E. exists a. split; [reflexivity | exact E]. Qed.

Lemma Returned_inj {A} (a b : A) : Returned a = Returned b -> a = b.
Proof. congruence. Qed.

Lemma dict_set_keeps items k k' v :
  is_Some (PyDict.get items k') -> is_Some (PyDict.get (PyDict.set items k v) k').
Proof.
  intros Hk. destruct (decide (k = k')) as [->|Hne].
  - rewrite dict_get_set_eq. eexists. reflexivity.
  - rewrite dict_get_set_ne by exact Hne. exact Hk.
Qed.

Lemma setitem2_has_database config section key v config' :
  setitem2 config section key v = Returned config' ->
  has_database config -> has_database config'.
Proof.
  intros Hset (items & db & -> & Hdb & Ht & Hp & Hs). cbn [setitem2] in Hset.
  destruct (PyDict.get items section) as [[| | | | | |section_items]|] eqn:Es;
    try discriminate Hset.
  injection Hset as <-.
  destruct (decide (section = pystr_of_string "database")) as [->|Hne].
  - rewrite Hdb in Es. injection Es as <-.
    eexists _, _. split; [reflexivity|]. split; [apply dict_get_set_eq|].
    split; [|split]; apply dict_set_keeps; assumption.
  - exists (PyDict.set items section (JDict (PyDict.set section_items key v))), db.
    split; [reflexivity|]. split; [|split; [|split]; assumption].
    rewrite dict_get_set_ne by exact Hne. exact Hdb.
Qed.

Lemma setitem3_has_database config section subsection key v config' :
  setitem3 config section subsection key v = Returned config' ->
  has_database config -> has_database config'.
Proof.
  intros Hset Hconfig. unfold setitem3 in Hset.
  apply bind_Returned in Hset as (section_value & Hget & Hset).
  apply bind_Returned in Hset as (section_value' & Hset2 & Hset).
  destruct Hconfig as (items & db & -> & Hdb & Ht & Hp & Hs).
  injection Hset as <-. cbn [getitem] in Hget.
  destruct (decide (section = pystr_of_string "database")) as [->|Hne].
  - rewrite Hdb in Hget. injection Hget as <-.
    cbn [setitem2] in Hset2.
    destruct (PyDict.get db subsection) as [[| | | | | |sub_items]|];
      try discriminate Hset2.
    injection Hset2 as <-.
    eexists _, _. split; [reflexivity|]. split; [apply dict_get_set_eq|].
    split; [|split]; apply dict_set_keeps; assumption.
  - exists (PyDict.set items section section_value'), db.
    split; [reflexivity|]. split; [|split; [|split]; assumption].
    rewrite dict_get_set_ne by exact Hne. exact Hdb.
Qed.

Lemma from_env_has_database name convert assign config config' :
  (forall c v c', assign c v = Returned c' -> has_database c -> has_database c') ->
  from_env getenv name convert assign config = Returned config' ->
  has_database config -> has_database config'.
Proof.
  intros Hassign. unfold from_env.
  destruct (getenv (pystr_of_string name)) as [text|];
    [|intros E; injection E as <-; trivial].
  destruct (truthy text); [|intros E; injection E as <-; trivial].
  intros Hbind. apply bind_Returned in Hbind as (v & _ & Hset).
  apply (Hassign _ _ _ Hset).
Qed.

Lemma default_config_has_database : has_database (DEFAULT_CONFIG (F := F)).
Proof.
  unfold DEFAULT_CONFIG. eexists _, _. split; [reflexivity|].
  split; [reflexivity|]. repeat split; eexists; reflexivity.
Qed.

(** One assignment from the environment keeps the database section. *)
Ltac env_step :=
  match goal with
  | Hload : bind (from_env _ _ _ _ ?c) _ = Returned _, Hc : has_database ?c |- _ =>
      let x := fresh "c" in
      let Hs := fresh "Hs" in
      apply bind_Returned in Hload as (x & Hs & Hload);
      eapply from_env_has_database in Hs;
      [|first [intros ? ? ?; apply setitem2_has_database
              |intros ? ? ?; apply setitem3_has_database]
       |exact Hc];
      clear Hc
  end.

Lemma load_from_environment_has_database config :
  _load_from_environment getenv py_int py_float DEFAULT_CONFIG = Returned config ->
  has_database config.
Proof.
  unfold _load_from_environment. intros Hload.
  pose proof default_config_has_database as H0.
  repeat env_step.
  eapply from_env_has_database in Hload; [exact Hload| |eassumption].
  intros ? ? ?. apply setitem2_has_database.
Qed.

(** After the merge with a file, the database section, if it is still an
    object, has its three keys. *)
Lemma merge_has_database (default override db : list (pystr * json F)) :
  json_wf (JDict override) ->
  has_database (JDict default) ->
  PyDict.get (_merge_configs default override) (pystr_of_string "database")
  = Some (JDict db) ->
  has_database (JDict (_merge_configs default override)).
Proof.
  intros Hwf (items & db0 & E & Hdb & Ht & Hp & Hs) Hget.
  injection E as <-. exists (_merge_configs default override), db.
  split; [reflexivity|]. split; [exact Hget|].
  unfold _merge_configs in Hget. rewrite merge_value_get in Hget by apply Hwf.
  rewrite Hdb in Hget.
  destruct (PyDict.get override (pystr_of_string "database")) as [v|] eqn:Ev.
  - pose proof (json_wf_get _ _ _ Hwf Ev) as Hv.
    destruct v as [| | | | | |o]; try discriminate Hget.
    change (Some (JDict (merge_value db0 (JDict o))) = Some (JDict db)) in Hget.
    assert (db = merge_value db0 (JDict o)) as -> by congruence.
    rewrite !merge_value_get by apply Hv.
    repeat split; destruct (PyDict.get o _); try assumption; eexists; reflexivity.
  - injection Hget as <-. repeat split; assumption.
Qed.

Lemma is_str_eq v s : is_str v s = true <-> v = JStr (pystr_of_string s).
Proof.
  destruct v; cbn [is_str]; try (split; [discriminate | intros E; discriminate E]).
  rewrite pystr_eqb_eq. split; [intros ->; reflexivity | intros E; injection E; trivial].
Qed.

End ConfigInit.

(** X16: a configuration that [ConfigManager.__init__] accepts, whatever the
    environment and the file (an object tree as [json.load] builds it).
    [DatabaseFactory.create_database] returns a database for it and never
    raises: a PostgreSQL one only if [psycopg2] is available and the type is
    [postgresql], a SQLite one otherwise, with the type [sqlite]; and the
    poll interval is a number [x] for which neither [x < 1.0] nor
    [x > 3600.0] holds. *)
Theorem accepted_config_builds_database {F} `{PyFloat F}
    (getenv : pystr -> option pystr) (py_int : pystr -> option Z)
    (py_float : pystr -> option F) (POSTGRES_AVAILABLE : bool)
    (config_file : option (option (Config.json F))) (config : Config.json F) :
  (forall file_config, config_file = Some (Some file_config) -> json_wf file_config) ->
  Config.init getenv py_int py_float POSTGRES_AVAILABLE config_file
  = Config.Returned config ->
  (exists section,
     (Config.create_database config
      = Config.Returned (Config.PostgreSQLDatabase section)
      /\ POSTGRES_AVAILABLE = true
      /\ get_path config [pystr_of_string "database"; pystr_of_string "type"]
         = Some (Config.JStr (pystr_of_string "postgresql"))
      /\ get_path config [pystr_of_string "database"; pystr_of_string "postgresql"]
         = Some section)
     \/
     (Config.create_database config
      = Config.Returned (Config.SQLiteDatabase section)
      /\ get_path config [pystr_of_string "database"; pystr_of_string "type"]
         = Some (Config.JStr (pystr_of_string "sqlite"))
      /\ get_path config [pystr_of_string "database"; pystr_of_string "sqlite"]
         = Some section))
  /\ exists v x,
       get_path config [pystr_of_string "monitoring"; pystr_of_string "poll_interval"]
       = Some v
       /\ Config.as_number v = Some x
       /\ fltb x (of_int 1) = false /\ fltb (of_int 3600) x = false.
Proof.
  intros Hwf Hinit. unfold Config.init in Hinit.
  apply bind_Returned in Hinit as (c1 & Henv & Hinit).
  apply bind_Returned in Hinit as (c2 & Hmerge & Hvalid).
  pose proof (load_from_environment_has_database _ _ _ _ Henv) as H1.
  (* validation *)
  unfold Config._validate_config in Hvalid.
  apply bind_Returned in Hvalid as (database & Hdb & Hvalid).
  apply bind_Returned in Hvalid as (db_type & Htype & Hvalid).
  destruct (Config.is_str db_type "postgresql" || Config.is_str db_type "sqlite")
    eqn:Hknown; cbn [negb] in Hvalid; [|discriminate Hvalid].
  apply bind_Returned in Hvalid as (c3 & Hfallback & Hvalid).
  apply bind_Returned in Hvalid as (monitoring & Hmon & Hvalid).
  apply bind_Returned in Hvalid as (poll_interval & Hpoll & Hvalid).
  destruct (Config.as_number poll_interval) as [x|] eqn:Hx; [|discriminate Hvalid].
  destruct (fltb x (of_int 1) || fltb (of_int 3600) x) eqn:Hrange;
    [discriminate Hvalid|].
  injection Hvalid as <-. apply orb_false_iff in Hrange as [Hlow Hhigh].
  (* the database section of the merged configuration *)
  assert (has_database c2) as H2.
  { destruct c2 as [| | | | | |items2]; try discriminate Hdb. cbn [Config.getitem] in Hdb.
    destruct (PyDict.get items2 (pystr_of_string "database")) as [dbv|] eqn:Edb;
      [|discriminate Hdb].
    injection Hdb as ->. destruct database as [| | | | | |db]; try discriminate Htype.
    destruct config_file as [[file_config|]|];
      try (injection Hmerge as <-; exact H1).
    destruct H1 as (items1 & db1 & -> & Hrest).
    destruct file_config as [| | | | | |override]; try discriminate Hmerge.
    injection Hmerge as <-.
    apply (merge_has_database items1 override db);
      [apply Hwf; reflexivity | exists items1, db1; split; [reflexivity | exact Hrest]
      | exact Edb]. }
  destruct H2 as (items2 & db & -> & Edb & (t & Et) & (p & Ep) & (q & Eq)).
  cbn [Config.getitem] in Hdb. rewrite Edb in Hdb. injection Hdb as <-.
  cbn [Config.getitem] in Htype. rewrite Et in Htype. injection Htype as <-.
  split.
  - destruct (Config.is_str t "postgresql" && negb POSTGRES_AVAILABLE) eqn:Hfb.
    + (* fallback to SQLite *)
      cbn [Config.setitem2] in Hfallback. rewrite Edb in Hfallback.
      apply Returned_inj in Hfallback as <-.
      exists q. right. unfold Config.create_database, Config.getitem.
      cbn [get_path].
      rewrite !dict_get_set_eq. cbn [Config.bind].
      rewrite !dict_get_set_eq. cbn [Config.bind].
      change (Config.is_str (Config.JStr (pystr_of_string "sqlite")) "postgresql")
        with false.
      change (Config.is_str (Config.JStr (pystr_of_string "sqlite")) "sqlite")
        with true.
      cbn iota.
      rewrite !dict_get_set_ne by discriminate. rewrite Eq.
      split; [reflexivity|]. split; reflexivity.
    + apply Returned_inj in Hfallback as <-.
      unfold Config.create_database, Config.getitem. cbn [get_path].
      rewrite Edb. cbn [Config.bind]. rewrite Et. cbn [Config.bind].
      destruct (Config.is_str t "postgresql") eqn:Hpg.
      * exists p. left. rewrite Ep. cbn [Config.bind].
        apply is_str_eq in Hpg. subst t.
        split; [reflexivity|].
        split; [destruct POSTGRES_AVAILABLE; [reflexivity | discriminate Hfb]|].
        split; reflexivity.
      * cbn [orb] in Hknown. rewrite Hknown. exists q. right.
        rewrite Eq. cbn [Config.bind]. apply is_str_eq in Hknown. subst t.
        split; [reflexivity|]. split; reflexivity.
  - exists poll_interval, x.
    split; [|split; [exact Hx | split; assumption]].
    destruct c3 as [| | | | | |items3]; try discriminate Hmon.
    cbn [Config.getitem] in Hmon. cbn [get_path].
    destruct (PyDict.get items3 (pystr_of_string "monitoring")) as [m|];
      [|discriminate Hmon].
    injection Hmon as ->.
    destruct monitoring as [| | | | | |mitems]; try discriminate Hpoll.
    cbn [Config.getitem] in Hpoll.
    destruct (PyDict.get mitems (pystr_of_string "poll_interval")) as [pv|];
      [|discriminate Hpoll].
    injection Hpoll as ->. reflexivity.
Qed.

Lemma accepted_config_builds_database_witness :
  exists config section,
    Config.init poll_environment no_int float_2_5 false
      (Some (Some (Config.JDict poll_override))) = Config.Returned config
    /\ Config.create_database config
       = Config.Returned (Config.SQLiteDatabase section)
    /\ get_path config [pystr_of_string "monitoring"; pystr_of_string "poll_interval"]
       = Some (Config.JInt 30).
Proof.
  assert (forall file_config,
            Some (Some (Config.JDict poll_override)) = Some (Some file_config) ->
            json_wf file_config) as Hwf.
  { intros file_config E. injection E as <-.
    cbn. split; [|repeat split; apply NoDup_singleton].
    apply NoDup_cons. split; [|apply NoDup_singleton].
    intros Hin. apply list_elem_of_singleton in Hin. discriminate Hin. }
  destruct (Config.init poll_environment no_int float_2_5 false
              (Some (Some (Config.JDict poll_override)))) as [config|exn] eqn:E;
    [|vm_compute in E; discriminate E].
  destruct (accepted_config_builds_database poll_environment no_int float_2_5 false
              (Some (Some (Config.JDict poll_override))) config Hwf E)
    as [(section & Hdb) _].
  exists config, section. split; [reflexivity|].
  destruct Hdb as [(_ & Hpg & _)|(Hsq & _)]; [discriminate Hpg|].
  split; [exact Hsq|].
  vm_compute in E. apply Returned_inj in E as <-. vm_compute. reflexivity.
Defined.

(* ===================================================================== *)
(** ** The dict objects of the configuration *)
(* ===================================================================== *)

Section ConfigObjectsFacts.
Import Config ConfigObjects.
Context {F : Type} `{PyFloat F}.
Variable getenv : pystr -> option pystr.
Variable py_int : pystr -> option Z.
Variable py_float : pystr -> option F.
Implicit Types (h : config_objects F) (items : list (pystr * field F)).

(** No reference of [h] leads to [d] or to [c], and none dangles. *)
Local Abbreviation refs_avoid h d c :=
  (forall l items k p,
     h !! l = Some items -> In (k, Ref p) items ->
     p <> d /\ p <> c /\ is_Some (h !! p)).

Lemma dict_get_In {K V} `{EqDecision K} (d : list (K * V)) k v :
  PyDict.get d k = Some v -> In (k, v) d.
Proof.
  induction d as [|[k' v'] d IH]; [discriminate|]. cbn.
  destruct (decide (k = k')) as [->|_].
  - intros E. injection E as ->. left. reflexivity.
  - intros E. right. apply IH, E.
Qed.

Lemma dict_set_In {K V} `{EqDecision K} (d : list (K * V)) k v k' v' :
  In (k', v') (PyDict.set d k v) -> (k', v') = (k, v) \/ In (k', v') d.
Proof.
  induction d as [|[k0 v0] d IH]; cbn.
  - intros [E|[]]. left. congruence.
  - destruct (decide (k = k0)) as [->|_]; cbn.
    + intros [E|Hin]; [left; congruence | right; right; exact Hin].
    + intros [E|Hin]; [right; left; exact E|].
      destruct (IH Hin) as [E|Hd]; [left; exact E | right; right; exact Hd].
Qed.

Lemma refs_ok_spec h d l items k p :
  refs_ok h d = true -> h !! l = Some items -> In (k, Ref p) items ->
  p <> d /\ is_Some (h !! p).
Proof.
  unfold refs_ok. rewrite forallb_forall. intros Hall Hl Hin.
  assert (In (l, items) (map_to_list h)) as Hobj.
  { apply list_elem_of_In, elem_of_map_to_list, Hl. }
  specialize (Hall _ Hobj). cbn [snd] in Hall. rewrite forallb_forall in Hall.
  specialize (Hall _ Hin). cbn [snd] in Hall.
  apply andb_true_iff in Hall as [Hd Hp]. split.
  - apply negb_true_iff, bool_decide_eq_false in Hd. exact Hd.
  - apply bool_decide_eq_true in Hp. exact Hp.
Qed.

(** An assignment below [l] leaves [d] and [c] as they are, and keeps the
    references away from them. *)
Lemma assign_keeps path : forall l key v h d c,
  refs_avoid h d c ->
  is_Some (h !! l) -> (path = [] -> l <> d /\ l <> c) ->
  let h' := (assign l path key v h).2 in
  h' !! d = h !! d /\ h' !! c = h !! c /\ refs_avoid h' d c.
Proof.
  induction path as [|k path IH]; intros l key v h d c Hrefs Hl Hne.
  - destruct (Hne eq_refl) as [Hd Hc]. cbn [assign setitem snd].
    split; [apply lookup_insert_ne; exact Hd|].
    split; [apply lookup_insert_ne; exact Hc|].
    intros l' items' k' p Hl' Hin.
    assert (exists items0, h !! l' = Some items0 /\ In (k', Ref p) items0)
      as (items0 & Hl0 & Hin0).
    { destruct (decide (l = l')) as [<-|Hll].
      - rewrite lookup_insert_eq in Hl'. injection Hl' as <-.
        destruct Hl as [items_l Hitems]. rewrite Hitems in Hin.
        cbn [default] in Hin. unfold id in Hin.
        exists items_l. split; [exact Hitems|].
        apply dict_set_In in Hin as [E|Hin]; [discriminate E | exact Hin].
      - rewrite lookup_insert_ne in Hl' by exact Hll. exists items'. split; assumption. }
    destruct (Hrefs _ _ _ _ Hl0 Hin0) as (Hpd & Hpc & Hp).
    split; [exact Hpd|]. split; [exact Hpc|].
    destruct (decide (l = p)) as [<-|Hlp].
    + rewrite lookup_insert_eq. eexists. reflexivity.
    + rewrite lookup_insert_ne by exact Hlp. exact Hp.
  - cbn [assign]. unfold then_, subdict.
    destruct Hl as [items_l Hitems]. rewrite Hitems. cbn [default]. unfold id.
    destruct (PyDict.get items_l k) as [[s|x]|] eqn:Ek;
      try (cbn [snd]; split; [reflexivity|]; split; [reflexivity | exact Hrefs]).
    apply dict_get_In in Ek.
    destruct (Hrefs _ _ _ _ Hitems Ek) as (Hsd & Hsc & Hs).
    apply (IH s key v h d c Hrefs Hs). intros _. split; assumption.
Qed.

Lemma from_env_keeps name conversion path key c h d :
  path <> [] ->
  refs_avoid h d c -> is_Some (h !! c) ->
  let h' := (from_env getenv name conversion path key c h).2 in
  h' !! d = h !! d /\ h' !! c = h !! c /\ refs_avoid h' d c.
Proof.
  intros Hpath Hrefs Hc. unfold from_env.
  destruct (getenv (pystr_of_string name)) as [text|];
    [|split; [reflexivity|]; split; [reflexivity | exact Hrefs]].
  destruct (truthy text);
    [|split; [reflexivity|]; split; [reflexivity | exact Hrefs]].
  unfold then_, convert. destruct (conversion text) as [v|exn];
    [|split; [reflexivity|]; split; [reflexivity | exact Hrefs]].
  apply assign_keeps; [exact Hrefs | exact Hc|].
  intros E. destruct path; [congruence | discriminate E].
Qed.

(** Reading does not see a dict object that no reference leads to. *)
Lemma read_insert_fresh path : forall h l d c c' x,
  refs_avoid h d c -> is_Some (h !! l) -> h !! c' = None ->
  read (<[c' := x]> h) l path = read h l path.
Proof.
  induction path as [|key path IH]; intros h l d c c' x Hrefs Hl Hc; [reflexivity|].
  cbn [read]. assert (c' <> l) as Hcl by (intros ->; destruct Hl; congruence).
  rewrite lookup_insert_ne by exact Hcl.
  destruct Hl as [items Hitems]. rewrite Hitems. cbn [default]. unfold id.
  destruct (PyDict.get items key) as [[s|v]|] eqn:Ek; try reflexivity.
  apply dict_get_In in Ek. destruct (Hrefs _ _ _ _ Hitems Ek) as (_ & _ & Hs).
  apply (IH h s d c c' x); assumption.
Qed.

(** One step of the chain of [_load_from_environment]. *)
Lemma load_step name conversion path key c d items0 (rest : run (F := F) loc)
    h result h1 :
  path <> [] ->
  h !! d = Some items0 /\ h !! c = Some items0 /\ refs_avoid h d c ->
  then_ (from_env getenv name conversion path key c) (fun _ => rest) h
  = (Returned result, h1) ->
  exists h',
    (h' !! d = Some items0 /\ h' !! c = Some items0 /\ refs_avoid h' d c)
    /\ rest h' = (Returned result, h1).
Proof.
  intros Hpath (Hd & Hc & Hrefs) Hrun. unfold then_ in Hrun.
  pose proof (from_env_keeps name conversion path key c h d Hpath Hrefs
                ltac:(rewrite Hc; eexists; reflexivity)) as Hkeep.
  cbn zeta in Hkeep.
  destruct (from_env getenv name conversion path key c h) as [[[]|exn] h'];
    [|discriminate Hrun].
  cbn [snd] in Hkeep. destruct Hkeep as (Hd' & Hc' & Hrefs').
  exists h'. split; [|exact Hrun].
  split; [rewrite Hd'; exact Hd|]. split; [rewrite Hc'; exact Hc | exact Hrefs'].
Qed.

End ConfigObjectsFacts.

(** X17: [_load_from_environment] on the dict objects.  The configuration it
    returns is a new dict, but one that holds the very section objects of
    [DEFAULT_CONFIG]: every value read through one is read through the
    other, so what the environment sets is written into the defaults.  A
    later call under an empty environment therefore returns a configuration
    that reads, at every path, as the earlier one, not as the defaults the
    class was written with. *)
Theorem environment_values_outlive_config {F} `{PyFloat F}
    (getenv : pystr -> option pystr) (py_int : pystr -> option Z)
    (py_float : pystr -> option F) (h0 : config_objects F) (d0 : loc)
    (items0 : list (pystr * ConfigObjects.field F)) (c1 : loc)
    (h1 : config_objects F) :
  h0 !! d0 = Some items0 ->
  ConfigObjects.refs_ok h0 d0 = true ->
  ConfigObjects._load_from_environment getenv py_int py_float d0 h0
  = (Config.Returned c1, h1) ->
  h0 !! c1 = None
  /\ h1 !! c1 = Some items0
  /\ h1 !! d0 = Some items0
  /\ (forall path, path <> [] ->
        ConfigObjects.read h1 c1 path = ConfigObjects.read h1 d0 path)
  /\ exists c2 h2,
       ConfigObjects._load_from_environment (fun _ => None) py_int py_float d0 h1
       = (Config.Returned c2, h2)
       /\ h1 !! c2 = None
       /\ forall path, path <> [] ->
            ConfigObjects.read h2 c2 path = ConfigObjects.read h1 c1 path.
Proof.
  intros Hd0 Hok Hload.
  unfold ConfigObjects._load_from_environment in Hload.
  unfold ConfigObjects.then_ at 1, ConfigObjects.dict_copy in Hload.
  rewrite Hd0 in Hload. cbn [default] in Hload. unfold id in Hload.
  set (c := fresh (dom h0)) in *.
  assert (h0 !! c = None) as Hfresh by apply not_elem_of_dom, is_fresh.
  assert (c <> d0) as Hcd by (intros E; rewrite E in Hfresh; congruence).
  assert (<[c := items0]> h0 !! d0 = Some items0
          /\ <[c := items0]> h0 !! c = Some items0
          /\ forall l items k p,
               <[c := items0]> h0 !! l = Some items ->
               In (k, ConfigObjects.Ref p) items ->
               p <> d0 /\ p <> c /\ is_Some (<[c := items0]> h0 !! p)) as Hinv.
  { split; [rewrite lookup_insert_ne by exact Hcd; exact Hd0|].
    split; [apply lookup_insert_eq|].
    intros l items k p Hl Hin.
    assert (p <> d0 /\ is_Some (h0 !! p)) as [Hpd Hp].
    { destruct (decide (c = l)) as [<-|Hcl].
      - rewrite lookup_insert_eq in Hl. injection Hl as <-.
        apply (refs_ok_spec h0 d0 d0 items0 k p Hok Hd0 Hin).
      - rewrite lookup_insert_ne in Hl by exact Hcl.
        apply (refs_ok_spec h0 d0 l items k p Hok Hl Hin). }
    split; [exact Hpd|].
    assert (p <> c) as Hpc by (intros ->; destruct Hp; congruence).
    split; [exact Hpc|]. rewrite lookup_insert_ne by congruence. exact Hp. }
  do 9 (apply (load_step getenv _ _ _ _ c d0 items0) in Hload
          as (? & Hinv' & Hload);
        [clear Hinv; rename Hinv' into Hinv | discriminate | exact Hinv]).
  unfold ConfigObjects.ret in Hload. injection Hload as <- <-.
  destruct Hinv as (Hd1 & Hc1 & Hrefs).
  split; [exact Hfresh|]. split; [exact Hc1|]. split; [exact Hd1|].
  split.
  - intros [|key path] Hpath; [congruence|].
    cbn [ConfigObjects.read]. rewrite Hd1, Hc1. reflexivity.
  - eexists (fresh (dom _)), _. split; [reflexivity|].
    match goal with |- ?h !! fresh (dom ?h) = None /\ _ =>
      assert (h !! fresh (dom h) = None) as Hfresh2
        by apply not_elem_of_dom, is_fresh
    end.
    split; [exact Hfresh2|].
    intros [|key path] Hpath; [congruence|].
    cbn [ConfigObjects.read]. rewrite lookup_insert_eq, Hd1, Hc1.
    cbn [default]. unfold id.
    destruct (PyDict.get items0 key) as [[s|v]|] eqn:Ek; try reflexivity.
    apply dict_get_In in Ek. destruct (Hrefs _ _ _ _ Hc1 Ek) as (_ & _ & Hs).
    eapply read_insert_fresh; [exact Hrefs | exact Hs | exact Hfresh2].
Qed.

Lemma environment_values_outlive_config_witness :
  let h0 := default_objects.2 in
  let d0 := default_config_object in
  let host := [pystr_of_string "adam4571"; pystr_of_string "host"] in
  exists items0 c1 h1 c2 h2,
    h0 !! d0 = Some items0
    /\ ConfigObjects.refs_ok h0 d0 = true
    /\ ConfigObjects._load_from_environment host_environment no_int float_2_5 d0 h0
       = (Config.Returned c1, h1)
    /\ ConfigObjects._load_from_environment (fun _ => None) no_int float_2_5 d0 h1
       = (Config.Returned c2, h2)
    /\ ConfigObjects.read h0 d0 host
       = Some (ConfigObjects.Val (Config.JStr (pystr_of_string "192.168.1.101")))
    /\ ConfigObjects.read h2 c2 host
       = Some (ConfigObjects.Val (Config.JStr (pystr_of_string "10.0.0.9"))).
Proof.
  intros h0 d0 host.
  destruct (h0 !! d0) as [items0|] eqn:Hd0; [|vm_compute in Hd0; discriminate Hd0].
  assert (ConfigObjects.refs_ok h0 d0 = true) as Hok by (vm_compute; reflexivity).
  destruct (ConfigObjects._load_from_environment host_environment no_int float_2_5
              d0 h0) as [[c1|exn] h1] eqn:Hload;
    [|vm_compute in Hload; discriminate Hload].
  destruct (environment_values_outlive_config host_environment no_int float_2_5
              h0 d0 items0 c1 h1 Hd0 Hok Hload)
    as (_ & _ & _ & _ & c2 & h2 & Hload2 & _ & Hread).
  exists items0, c1, h1, c2, h2.
  split; [reflexivity|]. split; [exact Hok|]. split; [reflexivity|].
  split; [exact Hload2|]. split; [vm_compute; reflexivity|].
  rewrite Hread by discriminate.
  vm_compute in Hload. injection Hload as <- <-. vm_compute. reflexivity.
Defined.

(* ===================================================================== *)
(** ** Capture threads started by template tests *)
(* ===================================================================== *)

Section CaptureThreads.
Import Link ScaleDiscovery KnownTemplates.
Context {F : Type} `{PyFloat F} `{PyFloatGe F}.
Variable threads : world F -> world F.
Variable utc_now : nat -> F.
Variable socket_connect : nat -> bool.
Variable sleep : F -> world F -> world F.
Hypothesis sleep_keeps_threads :
  forall seconds w, capture_threads (sleep seconds w) = capture_threads w.
Hypothesis threads_keep_threads :
  forall w, capture_threads (threads w) = capture_threads w.

(** With idle capture threads the test is the one of a single thread. *)
Lemma test_template_idle template_data test_duration (w : world F) :
  Concurrent.test_template idle_threads utc_now socket_connect sleep
    template_data test_duration w
  = test_template utc_now socket_connect sleep template_data test_duration w.
Proof. reflexivity. Qed.

Lemma try_templates_idle templates : forall best results (w : world F),
  Concurrent.try_templates idle_threads utc_now socket_connect sleep templates
    best results w
  = try_templates utc_now socket_connect sleep templates best results w.
Proof.
  induction templates as [|[id doc] templates IH]; intros best results w;
    [reflexivity|].
  cbn [Concurrent.try_templates try_templates]. rewrite test_template_idle.
  destruct (test_template utc_now socket_connect sleep (document doc) (of_int 5) w)
    as [result w1].
  destruct (fgeb _ _); [reflexivity | apply IH].
Qed.

(** Whatever the capture threads do, a test fails at the connection, fails
    at the start of the capture, or reaches its sampling window; an empty
    window is then reported as "No data received" and any other window is
    analysed. *)
Lemma test_template_window template_data test_duration (w : world F) :
  let out := Concurrent.test_template threads utc_now socket_connect sleep
               template_data test_duration w in
  out.1 = TestFailed 0 connection_failed
  \/ out.1 = TestFailed 0 data_capture_failed
  \/ exists w2,
       let frames :=
         step_frames utc_now sleep test_duration
           (fadd test_duration (of_int 1)) w2 in
       out.1 = match frames with
               | [] => TestFailed 0 no_data_received
               | _ :: _ =>
                   TestAnalysed (_analyze_template_match template_data frames)
               end.
Proof.
  unfold Concurrent.test_template.
  destruct (if connected (self w) then (true, w) else connect socket_connect w)
    as [[|] w1]; cbn [negb]; [|left; reflexivity].
  destruct (start_data_capture socket_connect (threads w1)) as [[|] w2];
    cbn [negb]; [|right; left; reflexivity].
  right. right. exists w2. unfold step_frames. cbn zeta.
  destruct (get_recent_data utc_now _ _) as [l w3]. cbn [fst snd].
  destruct (deref (store w3) l); reflexivity.
Qed.

(** The link was up at the first read, the capture threads closed it before
    the second read and the new connection attempt was refused. *)
Local Abbreviation link_lost :=
  (exists w' : world F,
     connected (self w') = true
     /\ connected (self (threads w')) = false
     /\ socket_connect (connect_calls (threads w')) = false).

(** A test starts one capture thread unless the connection or the start of
    the capture fails. *)
Lemma test_template_threads template_data test_duration (w : world F) :
  let out := Concurrent.test_template threads utc_now socket_connect sleep
               template_data test_duration w in
  match out.1 with
  | TestFailed c error =>
      (error = connection_failed /\ capture_threads out.2 = capture_threads w)
      \/ (error = data_capture_failed
          /\ capture_threads out.2 = capture_threads w /\ link_lost)
      \/ (error = no_data_received
          /\ capture_threads out.2 = S (capture_threads w))
  | TestAnalysed _ => capture_threads out.2 = S (capture_threads w)
  end.
Proof.
  unfold Concurrent.test_template.
  assert (exists ok w1,
            (if connected (self w) then (true, w) else connect socket_connect w)
            = (ok, w1)
            /\ capture_threads w1 = capture_threads w
            /\ (ok = true -> connected (self w1) = true)) as (ok & w1 & -> & Ht & Hc).
  { destruct (connected (self w)) eqn:E.
    - exists true, w. repeat split. intros _. exact E.
    - unfold connect. eexists _, _. split; [reflexivity|]. split; [reflexivity|].
      intros ->. reflexivity. }
  destruct ok; cbn [negb]; [|left; split; [reflexivity | exact Ht]].
  specialize (Hc eq_refl).
  pose proof (threads_keep_threads w1) as Ht1. rewrite Ht in Ht1.
  unfold start_data_capture.
  destruct (connected (self (threads w1))) eqn:Hlink.
  - cbn [negb]. set (w2 := {| self := _ |}).
    assert (capture_threads w2 = S (capture_threads w)) as Ht2
      by (unfold w2; cbn; rewrite Ht1; reflexivity).
    assert (capture_threads
              (get_recent_data utc_now (fadd test_duration (of_int 1))
                 (sleep test_duration (clear_buffer w2))).2
            = S (capture_threads w)) as Ht3.
    { unfold get_recent_data. cbn. rewrite sleep_keeps_threads. exact Ht2. }
    destruct (get_recent_data utc_now _ _) as [l w3]. cbn [snd] in Ht3.
    destruct (truthy _); cbn [negb fst snd];
      [exact Ht3 | right; right; split; [reflexivity | exact Ht3]].
  - unfold connect.
    destruct (socket_connect (connect_calls (threads w1))) eqn:Hconnect;
      cbn [negb fst snd].
    + set (w2 := {| self := _ |}).
      assert (capture_threads w2 = S (capture_threads w)) as Ht2
        by (unfold w2; cbn; rewrite Ht1; reflexivity).
      assert (capture_threads
                (get_recent_data utc_now (fadd test_duration (of_int 1))
                   (sleep test_duration (clear_buffer w2))).2
              = S (capture_threads w)) as Ht3.
      { unfold get_recent_data. cbn. rewrite sleep_keeps_threads. exact Ht2. }
      destruct (get_recent_data utc_now _ _) as [l w3]. cbn [snd] in Ht3.
      destruct (truthy _); cbn [negb fst snd];
        [exact Ht3 | right; right; split; [reflexivity | exact Ht3]].
    + right. left. split; [reflexivity|]. split; [cbn; exact Ht1|].
      exists w1. split; [exact Hc|]. split; [exact Hlink | exact Hconnect].
Qed.

Lemma try_templates_threads templates : forall best results (w : world F),
  let out := Concurrent.try_templates threads utc_now socket_connect sleep
               templates best results w in
  exists new,
    out.1.2 = results ++ new
    /\ capture_threads out.2
       = (capture_threads w + List.length (List.filter started_capture new))%nat
    /\ Forall (fun r => forall c, tested r = TestFailed c data_capture_failed ->
                                  link_lost) new.
Proof.
  induction templates as [|[id doc] templates IH]; intros best results w.
  - exists []. cbn. rewrite app_nil_r, Nat.add_0_r. repeat split. constructor.
  - cbn [Concurrent.try_templates].
    pose proof (test_template_threads (document doc) (of_int 5) w) as Htest.
    cbn zeta in Htest.
    destruct (Concurrent.test_template threads utc_now socket_connect sleep
                (document doc) (of_int 5) w) as [result w1].
    cbn [fst snd] in Htest.
    set (r := {| tested := result; known_template_id := id;
                 known_template_name := default id (template_name (document doc));
                 brand := brand_of doc |}).
    assert (capture_threads w1
            = (capture_threads w + List.length (List.filter started_capture [r]))%nat
            /\ forall c, tested r = TestFailed c data_capture_failed -> link_lost)
      as [Hr Hlost].
    { unfold started_capture. cbn [List.filter tested r].
      destruct result as [c error|m].
      - destruct Htest as [[-> Ht]|[(-> & Ht & Hl)|[-> Ht]]].
        + change (pystr_eqb connection_failed connection_failed) with true.
          cbn [negb andb List.length].
          split; [rewrite Ht; lia | intros c' E; vm_compute in E; discriminate E].
        + change (pystr_eqb data_capture_failed connection_failed) with false.
          change (pystr_eqb data_capture_failed data_capture_failed) with true.
          cbn [negb andb List.length].
          split; [rewrite Ht; lia | intros c' _; exact Hl].
        + change (pystr_eqb no_data_received connection_failed) with false.
          change (pystr_eqb no_data_received data_capture_failed) with false.
          cbn [negb andb List.length].
          split; [rewrite Ht; lia | intros c' E; vm_compute in E; discriminate E].
      - cbn [List.length].
        split; [rewrite Htest; lia | intros c'; discriminate]. }
    destruct (fgeb (result_confidence r) (of_int 95)).
    + exists [r]. cbn [fst snd]. split; [reflexivity|]. split; [exact Hr|].
      apply List.Forall_cons; [exact Hlost | apply List.Forall_nil].
    + destruct (IH (if result_success r
                       && fltb (known_confidence best) (result_confidence r)
                    then BestResult r else best) (results ++ [r]) w1)
        as (new & Hout & Hthreads & Hall).
      exists (r :: new). split; [rewrite Hout, <- app_assoc; reflexivity|].
      split; [|apply List.Forall_cons; [exact Hlost | exact Hall]].
      rewrite Hthreads, Hr. cbn [List.filter].
      destruct (started_capture r); cbn [List.length]; lia.
Qed.

End CaptureThreads.

(** X18: the tests of [_try_known_templates] while capture threads are
    running.  Every test that gets past the connection check and the start of
    the capture starts one more capture thread, and the run never calls
    [stop_data_capture]: afterwards as many more threads were started as
    there are results other than "Connection failed" and "Data capture
    failed".  The failure "Data capture failed" is reported only when the
    link, up at the test's own check, was closed by a capture thread before
    [start_data_capture] read it and the new connection attempt was refused;
    when no capture thread closes the link at that point it is never
    reported. *)
Theorem template_tests_start_capture_threads {F} `{PyFloat F} `{PyFloatGe F}
    (threads : ScaleDiscovery.world F -> ScaleDiscovery.world F)
    (utc_now : nat -> F) (socket_connect : nat -> bool)
    (sleep : F -> ScaleDiscovery.world F -> ScaleDiscovery.world F)
    (templates : list (pystr * KnownTemplates.TemplateDocument))
    (w : ScaleDiscovery.world F) :
  (forall seconds w,
     ScaleDiscovery.capture_threads (sleep seconds w)
     = ScaleDiscovery.capture_threads w) ->
  (forall w,
     ScaleDiscovery.capture_threads (threads w)
     = ScaleDiscovery.capture_threads w) ->
  let out := Concurrent._try_known_templates threads utc_now socket_connect
               sleep templates w in
  ScaleDiscovery.capture_threads out.2
  = (ScaleDiscovery.capture_threads w
     + List.length (List.filter started_capture out.1.2))%nat
  /\ Forall (fun r => forall c,
               KnownTemplates.tested r
               = ScaleDiscovery.TestFailed c ScaleDiscovery.data_capture_failed ->
               exists w',
                 ScaleDiscovery.connected (ScaleDiscovery.self w') = true
                 /\ ScaleDiscovery.connected (ScaleDiscovery.self (threads w'))
                    = false
                 /\ socket_connect (ScaleDiscovery.connect_calls (threads w'))
                    = false)
       out.1.2
  /\ ((forall w,
         ScaleDiscovery.connected (ScaleDiscovery.self (threads w))
         = ScaleDiscovery.connected (ScaleDiscovery.self w)) ->
      Forall (fun r => forall c,
                KnownTemplates.tested r
                <> ScaleDiscovery.TestFailed c ScaleDiscovery.data_capture_failed)
        out.1.2).
Proof.
  intros Hsleep Hthreads out.
  assert (exists new,
            out.1.2 = new
            /\ ScaleDiscovery.capture_threads out.2
               = (ScaleDiscovery.capture_threads w
                  + List.length (List.filter started_capture new))%nat
            /\ Forall (fun r => forall c,
                         KnownTemplates.tested r
                         = ScaleDiscovery.TestFailed c
                             ScaleDiscovery.data_capture_failed ->
                         exists w',
                           ScaleDiscovery.connected (ScaleDiscovery.self w') = true
                           /\ ScaleDiscovery.connected
                                (ScaleDiscovery.self (threads w')) = false
                           /\ socket_connect
                                (ScaleDiscovery.connect_calls (threads w'))
                              = false) new)
    as (new & -> & Hcount & Hlost).
  { unfold out, Concurrent._try_known_templates.
    destruct (negb (truthy templates)).
    - exists []. cbn. split; [reflexivity|]. split; [lia | constructor].
    - destruct (try_templates_threads threads utc_now socket_connect sleep
                  Hsleep Hthreads templates KnownTemplates.NoneSucceeded [] w)
        as (new & Hout & Hcount & Hall).
      exists new. split; [exact Hout|]. split; [exact Hcount | exact Hall]. }
  split; [exact Hcount|]. split; [exact Hlost|].
  intros Hlink. eapply List.Forall_impl; [|exact Hlost].
  intros r Hr c E. destruct (Hr c E) as (w' & Hup & Hdown & _).
  rewrite Hlink in Hdown. congruence.
Qed.

Lemma template_tests_start_capture_threads_witness :
  let out := Concurrent._try_known_templates closing_threads clock_seconds
               connects_once quiet_sleep two_templates discovery_world_down in
  (forall seconds w,
     ScaleDiscovery.capture_threads (quiet_sleep seconds w)
     = ScaleDiscovery.capture_threads w)
  /\ (forall w,
        ScaleDiscovery.capture_threads (closing_threads w)
        = ScaleDiscovery.capture_threads w)
  /\ map KnownTemplates.tested out.1.2
     = [ScaleDiscovery.TestFailed 0 ScaleDiscovery.no_data_received;
        ScaleDiscovery.TestFailed 0 ScaleDiscovery.data_capture_failed]
  /\ ScaleDiscovery.capture_threads out.2 = 1%nat.
Proof.
  intros out.
  assert (forall seconds w,
            ScaleDiscovery.capture_threads (quiet_sleep seconds w)
            = ScaleDiscovery.capture_threads w) as Hsleep by reflexivity.
  assert (forall w,
            ScaleDiscovery.capture_threads (closing_threads w)
            = ScaleDiscovery.capture_threads w) as Hthreads.
  { intros w. unfold closing_threads. destruct (_ <? _)%nat; reflexivity. }
  split; [exact Hsleep|]. split; [exact Hthreads|].
  split; [vm_compute; reflexivity|].
  destruct (template_tests_start_capture_threads closing_threads clock_seconds
              connects_once quiet_sleep two_templates
              discovery_world_down Hsleep Hthreads) as [Hcount _].
  fold out in Hcount. rewrite Hcount. vm_compute. reflexivity.
Defined.

(* ===================================================================== *)
(** ** Two polls in a row *)
(* ===================================================================== *)

Section ConsecutivePolls.
Import Link ScaleLogger ScaleService.
Context {F : Type} `{PyFloat F}.
Variable utc_now : nat -> F.
Variable save_succeeds : nat -> bool.

(** One poll over a bound buffer. *)
Lemma poll_spec poll_interval device (sv : service F) buf :
  logger_holds (adam_manager sv) buf ->
  let w := adam_manager sv in
  let window :=
    newer_than (fsub (utc_now (now_calls w)) (fadd poll_interval (of_int 1))) buf in
  let sv' := _process_recent_data utc_now save_succeeds poll_interval device sv in
  save_calls sv' = (save_calls sv + List.length window)%nat
  /\ accepted sv'
     = accepted sv
       ++ stored_by save_succeeds (save_calls sv)
            (readings_at utc_now device (S (now_calls w)) window)
  /\ logger_holds (adam_manager sv') buf
  /\ now_calls (adam_manager sv') = (S (now_calls w) + List.length window)%nat.
Proof.
  intros Hw w window sv'.
  set (r := get_recent_data utc_now (fadd poll_interval (of_int 1)) w).
  change sv' with
    (fold_left (process_entry utc_now save_succeeds device)
       (deref (store r.2) r.1) (set_adam_manager r.2 sv)).
  pose proof (snapshot_alloc (store w)
                (newer_than (fsub (utc_now (now_calls w))
                                  (fadd poll_interval (of_int 1)))
                   (buffer w))) as (Hres & _ & Hpres).
  assert (deref (store r.2) r.1 = window) as ->.
  { unfold window. rewrite <- (logger_holds_buffer _ _ Hw).
    apply deref_lookup. exact Hres. }
  destruct (process_entries_spec utc_now save_succeeds device window
              (set_adam_manager r.2 sv))
    as (Hcalls & Hacc & Hself & Hstore & Hnow).
  split; [exact Hcalls|]. split; [exact Hacc|]. split; [|exact Hnow].
  unfold logger_holds. rewrite Hself, Hstore.
  destruct (Hpres _ _ Hw) as [Hkeep _]. exact Hkeep.
Qed.

End ConsecutivePolls.

(** X19: two polls of the service in a row, with no frame arriving in
    between, in exact arithmetic.  The second poll offers again every frame of
    its own window; nothing records what the first poll saved.  With a
    non-negative poll interval and the polls at most [poll_interval] seconds
    apart, every frame stamped within the last second before the first poll
    lies in both windows, so that it is offered to [save_reading] twice. *)
Theorem consecutive_polls_offer_overlap_twice (utc_now : nat -> Q)
    (save_succeeds : nat -> bool) (poll_interval : Q) (device_id : pystr)
    (sv : ScaleService.service Q) :
  logger_reachable utc_now (ScaleService.adam_manager sv) ->
  let w := ScaleService.adam_manager sv in
  let sv1 := ScaleService._process_recent_data utc_now save_succeeds
               poll_interval device_id sv in
  let sv2 := ScaleService._process_recent_data utc_now save_succeeds
               poll_interval device_id sv1 in
  let t1 := utc_now (ScaleLogger.now_calls w) in
  let t2 := utc_now (ScaleLogger.now_calls (ScaleService.adam_manager sv1)) in
  let window1 := newer_than (t1 - (poll_interval + 1))%Q (ScaleLogger.buffer w) in
  let window2 := newer_than (t2 - (poll_interval + 1))%Q (ScaleLogger.buffer w) in
  ScaleService.accepted sv2
  = ScaleService.accepted sv
    ++ stored_by save_succeeds (ScaleService.save_calls sv)
         (readings_at utc_now device_id (S (ScaleLogger.now_calls w)) window1)
    ++ stored_by save_succeeds (ScaleService.save_calls sv1)
         (readings_at utc_now device_id
            (S (ScaleLogger.now_calls (ScaleService.adam_manager sv1))) window2)
  /\ ((0 <= poll_interval)%Q -> (t2 - t1 <= poll_interval)%Q ->
      forall e, In e (ScaleLogger.buffer w) ->
                (t1 - 1 < Link.timestamp e)%Q ->
                In e window1 /\ In e window2).
Proof.
  intros Hreach w sv1 sv2 t1 t2 window1 window2.
  destruct (logger_invariant utc_now w Hreach) as (buf & Hw & _).
  destruct (poll_spec utc_now save_succeeds poll_interval device_id sv buf Hw)
    as (_ & Hacc1 & Hw1 & _).
  destruct (poll_spec utc_now save_succeeds poll_interval device_id sv1 buf Hw1)
    as (_ & Hacc2 & _ & _).
  fold sv1 in Hacc1, Hacc2. fold sv2 in Hacc2.
  unfold window1, window2, t1, t2. rewrite (logger_holds_buffer _ _ Hw).
  split.
  - rewrite Hacc2, Hacc1, <- app_assoc. reflexivity.
  - intros Hp Hgap e He Hts. unfold newer_than.
    split; apply filter_In; (split; [exact He|]); apply fltb_Q.
    + change (of_int 1) with 1%Q in *. lra.
    + fold w sv1 in Hgap. unfold t1, t2 in Hgap. lra.
Qed.

Lemma consecutive_polls_offer_overlap_twice_witness :
  let sv := {| ScaleService.adam_manager := logger_world_two_frames;
               ScaleService.accepted := [];
               ScaleService.save_calls := 0 |} in
  let sv1 := ScaleService._process_recent_data clock_seconds stores_every_row
               10%Q (pystr_of_string "scale-1") sv in
  let sv2 := ScaleService._process_recent_data clock_seconds stores_every_row
               10%Q (pystr_of_string "scale-1") sv1 in
  logger_reachable clock_seconds (ScaleService.adam_manager sv)
  /\ map ScaleService.raw_data (ScaleService.accepted sv2)
     = [pystr_of_string "ST,+0012.50 kg"; pystr_of_string "US,-0000.75 lb";
        pystr_of_string "ST,+0012.50 kg"; pystr_of_string "US,-0000.75 lb"].
Proof.
  intros sv sv1 sv2.
  assert (logger_reachable clock_seconds (ScaleService.adam_manager sv)) as Hreach.
  { apply lr_monitor, lr_init. reflexivity. }
  split; [exact Hreach|].
  destruct (consecutive_polls_offer_overlap_twice clock_seconds stores_every_row
              10%Q (pystr_of_string "scale-1") sv Hreach) as [Hacc _].
  fold sv1 sv2 in Hacc. rewrite Hacc. vm_compute. reflexivity.
Defined.
